(** * Local-Route: live bus tracking, ETA and chat fan-out

    A shallow embedding of the location / ETA engine of the Local-Route
    Django application ([core/models.py], [core/consumers.py],
    [core/views.py]) together with the properties its design document
    states about it.

    Modelling conventions.
    - Python [float]s are idealised as real numbers: rounding, infinities
      and NaN are not represented.  [math.sin], [math.cos], [math.sqrt] and
      [math.atan2] are the functions of real analysis.
    - Python [int]s are [Z]; primary keys are [nat].
    - The database is a record of tables; a table is the list of its rows in
      primary-key order.  [Model.objects.filter(id=k).first()] is a lookup,
      [obj.save(update_fields=...)] copies the listed fields of the
      in-memory object onto the stored row.
    - A handler runs in a small state monad over the [World]: the database,
      the clock, and the chronological log of channel-layer actions.
    - A Python exception caught by an enclosing [try] is written out as the
      branch that the [except] clause takes. *)

From Stdlib Require Import Reals Lra Lia ZArith Ascii String.
From stdpp Require Import base option list gmap strings pretty.

(* ===================================================================== *)
(** * Python numbers and the [math] module *)
(* ===================================================================== *)

#[global] Instance R_eq_dec : EqDecision R := Req_dec_T.
#[global] Instance Rlt_decision (x y : R) : Decision (x < y)%R := Rlt_dec x y.
#[global] Instance Rle_decision (x y : R) : Decision (x <= y)%R := Rle_dec x y.

Module Py.
Local Open Scope R_scope.

(** Truth value of a nullable float: [None] and [0.0] are falsy. *)
Definition truthy (x : option R) : bool :=
  match x with
  | None => false
  | Some v => bool_decide (v <> 0)
  end.

(** Truth value of a nullable integer key: [None] and [0] are falsy. *)
Definition truthy_id (x : option nat) : bool :=
  match x with
  | None => false
  | Some n => negb (Nat.eqb n 0)
  end.

(** Truth value of a nullable string: [None] and [""] are falsy. *)
Definition truthy_str (x : option string) : bool :=
  match x with
  | None => false
  | Some s => negb (String.eqb s "")
  end.

(** [int(x)]: truncation towards zero. *)
Definition int (x : R) : Z :=
  if decide (0 <= x) then Int_part x else (- Int_part (- x))%Z.


(** [math.radians]. *)
Definition radians (x : R) : R := x * (PI / 180).

(** [math.atan2(y, x)]. *)
Definition atan2 (y x : R) : R :=
  if decide (0 < x) then atan (y / x)
  else if decide (x < 0) then
    (if decide (0 <= y) then atan (y / x) + PI else atan (y / x) - PI)
  else if decide (0 < y) then PI / 2
  else if decide (y < 0) then - (PI / 2)
  else 0.

(** [min(range(n), key=key)]: the first index whose key is minimal;
    [None] stands for the [ValueError] raised on an empty range. *)
Fixpoint min_from (key : nat -> R) (best : nat) (rest : list nat) : nat :=
  match rest with
  | [] => best
  | i :: rest' =>
      min_from key (if decide (key i < key best) then i else best) rest'
  end.

Definition min_range (n : nat) (key : nat -> R) : option nat :=
  match seq 0 n with
  | [] => None
  | i :: rest => Some (min_from key i rest)
  end.
End Py.

(* ===================================================================== *)
(** * Great-circle distance *)
(* ===================================================================== *)

Module Geo.
Local Open Scope R_scope.

(** The [a] term of the haversine formula. *)
Definition hav_a (lat1 lon1 lat2 lon2 : R) : R :=
  let phi1 := Py.radians lat1 in
  let phi2 := Py.radians lat2 in
  let dphi := Py.radians (lat2 - lat1) in
  let dlambda := Py.radians (lon2 - lon1) in
  (sin (dphi / 2))² + cos phi1 * cos phi2 * (sin (dlambda / 2))².

(** The formula shared by every call site; [radius] is 6371000 where the
    caller wants meters and 6371 where it wants kilometers. *)
Definition great_circle (radius lat1 lon1 lat2 lon2 : R) : R :=
  let a := hav_a lat1 lon1 lat2 lon2 in
  let c := 2 * Py.atan2 (sqrt a) (sqrt (1 - a)) in
  radius * c.

(** The local [haversine] helper of [consumers.py] and [views.py]
    (kilometers). *)
Definition haversine (lat1 lon1 lat2 lon2 : R) : R :=
  great_circle 6371 lat1 lon1 lat2 lon2.
End Geo.

(* ===================================================================== *)
(** * The data model ([core/models.py]) *)
(* ===================================================================== *)

Module User.
Record t := mk { id : nat; username : string }.
End User.

Module Stop.
Record t := mk { id : nat; name : string; latitude : R; longitude : R }.

(** The key [lambda i: haversine(lat, lng, stops[i].latitude,
    stops[i].longitude)] that the nearest-stop searches minimise. *)
Definition haversine_to (stops : list t) (lat lng : R) (i : nat) : R :=
  match stops !! i with
  | Some s => Geo.haversine lat lng (latitude s) (longitude s)
  | None => 0
  end.

(** [min(range(len(stops)), key=...)] with that key. *)
Definition nearest_index (stops : list t) (lat lng : R) : option nat :=
  Py.min_range (length stops) (haversine_to stops lat lng).
End Stop.

Module Driver.
Record t := mk {
  id : nat;
  user : nat;                       (* OneToOneField(User) *)
  current_lat : option R;
  current_lng : option R
}.

Inductive field := f_current_lat | f_current_lng.

Definition set_current_lat (v : option R) (d : t) : t :=
  mk (id d) (user d) v (current_lng d).
Definition set_current_lng (v : option R) (d : t) : t :=
  mk (id d) (user d) (current_lat d) v.

(** Copy one field of the in-memory object [obj] onto the row [row]. *)
Definition copy (obj : t) (row : t) (f : field) : t :=
  match f with
  | f_current_lat => set_current_lat (current_lat obj) row
  | f_current_lng => set_current_lng (current_lng obj) row
  end.
End Driver.

Module Bus.
Record t := mk {
  id : nat;
  driver : nat;                     (* ForeignKey(Driver) *)
  route : nat;                      (* ForeignKey(BusRoute) *)
  current_lat : option R;
  current_lng : option R;
  eta_seconds : option Z;
  eta_smoothed_seconds : option R;
  eta_passed_counter : Z;
  nearest_stop_index : option Z;
  updated_at : option Z
}.

Inductive field :=
| f_route | f_current_lat | f_current_lng | f_eta_seconds
| f_eta_smoothed_seconds | f_eta_passed_counter | f_nearest_stop_index
| f_updated_at.

Definition set_route (v : nat) (b : t) : t :=
  mk (id b) (driver b) v (current_lat b) (current_lng b) (eta_seconds b)
     (eta_smoothed_seconds b) (eta_passed_counter b) (nearest_stop_index b)
     (updated_at b).
Definition set_current_lat (v : option R) (b : t) : t :=
  mk (id b) (driver b) (route b) v (current_lng b) (eta_seconds b)
     (eta_smoothed_seconds b) (eta_passed_counter b) (nearest_stop_index b)
     (updated_at b).
Definition set_current_lng (v : option R) (b : t) : t :=
  mk (id b) (driver b) (route b) (current_lat b) v (eta_seconds b)
     (eta_smoothed_seconds b) (eta_passed_counter b) (nearest_stop_index b)
     (updated_at b).
Definition set_eta_seconds (v : option Z) (b : t) : t :=
  mk (id b) (driver b) (route b) (current_lat b) (current_lng b) v
     (eta_smoothed_seconds b) (eta_passed_counter b) (nearest_stop_index b)
     (updated_at b).
Definition set_eta_smoothed_seconds (v : option R) (b : t) : t :=
  mk (id b) (driver b) (route b) (current_lat b) (current_lng b)
     (eta_seconds b) v (eta_passed_counter b) (nearest_stop_index b)
     (updated_at b).
Definition set_eta_passed_counter (v : Z) (b : t) : t :=
  mk (id b) (driver b) (route b) (current_lat b) (current_lng b)
     (eta_seconds b) (eta_smoothed_seconds b) v (nearest_stop_index b)
     (updated_at b).
Definition set_nearest_stop_index (v : option Z) (b : t) : t :=
  mk (id b) (driver b) (route b) (current_lat b) (current_lng b)
     (eta_seconds b) (eta_smoothed_seconds b) (eta_passed_counter b) v
     (updated_at b).
Definition set_updated_at (v : option Z) (b : t) : t :=
  mk (id b) (driver b) (route b) (current_lat b) (current_lng b)
     (eta_seconds b) (eta_smoothed_seconds b) (eta_passed_counter b)
     (nearest_stop_index b) v.

Definition copy (obj : t) (row : t) (f : field) : t :=
  match f with
  | f_route => set_route (route obj) row
  | f_current_lat => set_current_lat (current_lat obj) row
  | f_current_lng => set_current_lng (current_lng obj) row
  | f_eta_seconds => set_eta_seconds (eta_seconds obj) row
  | f_eta_smoothed_seconds =>
      set_eta_smoothed_seconds (eta_smoothed_seconds obj) row
  | f_eta_passed_counter =>
      set_eta_passed_counter (eta_passed_counter obj) row
  | f_nearest_stop_index =>
      set_nearest_stop_index (nearest_stop_index obj) row
  | f_updated_at => set_updated_at (updated_at obj) row
  end.
End Bus.

Module RouteStop.
Record t := mk {
  stop : Stop.t;
  order : nat;
  distance_to_next_m : option R
}.
End RouteStop.

Module Message.
Record t := mk {
  sender : nat;
  recipient : nat;
  bus : option nat;
  content : string;
  created_at : Z;
  read : bool
}.
End Message.

(** A stop graph: [{stop_id: [(neighbor_id, distance), ...]}]. *)
Abbreviation Graph := (gmap nat (list (nat * R))).

Module BusRoute.
Local Open Scope R_scope.

(** [routestop_set] is kept as [order_by('order')] returns it. *)
Record t := mk {
  id : nat;
  name : string;
  routestop_set : list RouteStop.t;
  reverse_route : option nat        (* nullable ForeignKey('self') *)
}.

Definition get_stops_list (self : t) : list Stop.t :=
  RouteStop.stop <$> routestop_set self.

(** [_calculate_distance]: haversine distance in meters. *)
Definition _calculate_distance (lat1 lon1 lat2 lon2 : R) : R :=
  Geo.great_circle 6371000 lat1 lon1 lat2 lon2.

(** The distance put on the edge [rs -> next_rs]. *)
Definition edge_distance (rs next_rs : RouteStop.t) : R :=
  match RouteStop.distance_to_next_m rs with
  | Some distance =>
      if decide (distance = 0) then
        _calculate_distance
          (Stop.latitude (RouteStop.stop rs)) (Stop.longitude (RouteStop.stop rs))
          (Stop.latitude (RouteStop.stop next_rs))
          (Stop.longitude (RouteStop.stop next_rs))
      else distance
  | None =>
      _calculate_distance
        (Stop.latitude (RouteStop.stop rs)) (Stop.longitude (RouteStop.stop rs))
        (Stop.latitude (RouteStop.stop next_rs))
        (Stop.longitude (RouteStop.stop next_rs))
  end.

(** One iteration of [for i, rs in enumerate(stops_list)]. *)
Definition graph_step (stops_list : list RouteStop.t) (graph : Graph)
    (item : nat * RouteStop.t) : Graph :=
  let '(i, rs) := item in
  let key := Stop.id (RouteStop.stop rs) in
  let graph := <[key := []]> graph in
  if decide (Z.of_nat i < Z.of_nat (length stops_list) - 1)%Z then
    match stops_list !! (i + 1)%nat with
    | Some next_rs =>
        let distance := edge_distance rs next_rs in
        alter (fun out => out ++ [(Stop.id (RouteStop.stop next_rs), distance)])
              key graph
    | None => graph
    end
  else graph.

Definition enumerate {A} (l : list A) : list (nat * A) :=
  zip (seq 0 (length l)) l.

Definition get_stop_graph (self : t) : Graph :=
  let stops_list := routestop_set self in
  foldl (graph_step stops_list) ∅ (enumerate stops_list).
End BusRoute.

(* ===================================================================== *)
(** * The database and the ORM calls the handlers make *)
(* ===================================================================== *)

Module Db.
Record t := mk {
  users : list User.t;
  drivers : list Driver.t;
  buses : list Bus.t;
  routes : list BusRoute.t;
  messages : list Message.t       (* in order of creation *)
}.

Definition set_drivers (v : list Driver.t) (db : t) : t :=
  mk (users db) v (buses db) (routes db) (messages db).
Definition set_buses (v : list Bus.t) (db : t) : t :=
  mk (users db) (drivers db) v (routes db) (messages db).
Definition set_messages (v : list Message.t) (db : t) : t :=
  mk (users db) (drivers db) (buses db) (routes db) v.

(** [User.objects.filter(id=k).first()] *)
Definition get_user (k : nat) (db : t) : option User.t :=
  List.find (fun u => Nat.eqb (User.id u) k) (users db).

(** [Bus.objects.filter(id=k).first()] *)
Definition get_bus (k : nat) (db : t) : option Bus.t :=
  List.find (fun b => Nat.eqb (Bus.id b) k) (buses db).

(** Following a [ForeignKey(Driver)]; [None] is [Driver.DoesNotExist]. *)
Definition get_driver (k : nat) (db : t) : option Driver.t :=
  List.find (fun d => Nat.eqb (Driver.id d) k) (drivers db).

(** Following a [ForeignKey(BusRoute)]. *)
Definition get_route (k : nat) (db : t) : option BusRoute.t :=
  List.find (fun r => Nat.eqb (BusRoute.id r) k) (routes db).

(** [user.driver_profile], the reverse side of [Driver.user]. *)
Definition driver_profile (user_id : nat) (db : t) : option Driver.t :=
  List.find (fun d => Nat.eqb (Driver.user d) user_id) (drivers db).

(** [Driver.objects.filter(user__id=uid).exists()] *)
Definition driver_exists (uid : nat) (db : t) : bool :=
  bool_decide (is_Some (driver_profile uid db)).

(** [driver.buses.first()] *)
Definition first_bus_of (driver_id : nat) (db : t) : option Bus.t :=
  List.find (fun b => Nat.eqb (Bus.driver b) driver_id) (buses db).

(** [bus.save(update_fields=fields)] *)
Definition save_bus (update_fields : list Bus.field) (obj : Bus.t) (db : t) : t :=
  set_buses
    ((fun row => if Nat.eqb (Bus.id row) (Bus.id obj)
                 then foldl (Bus.copy obj) row update_fields else row)
       <$> buses db) db.

(** [driver.save(update_fields=fields)] *)
Definition save_driver (update_fields : list Driver.field) (obj : Driver.t)
    (db : t) : t :=
  set_drivers
    ((fun row => if Nat.eqb (Driver.id row) (Driver.id obj)
                 then foldl (Driver.copy obj) row update_fields else row)
       <$> drivers db) db.

(** [Message.objects.create(...)] *)
Definition create_message (m : Message.t) (db : t) : t :=
  set_messages (messages db ++ [m]) db.
End Db.

(* ===================================================================== *)
(** * The world a handler runs in *)
(* ===================================================================== *)

(** Events carried by the channel layer and written to sockets. *)
Inductive Event :=
| location_update (lat lng : R) (is_historical : bool) (sequence : Z)
| tracking_status (status message : string)
| chat_message_forward (sender_id : nat) (sender_name : string)
    (recipient_id : nat) (content : string) (bus_id : option nat).

(** What a consumer does to the outside: the channel layer and its socket. *)
Inductive Action :=
| accept
| group_add (group channel : string)
| group_discard (group channel : string)
| group_send (group : string) (event : Event)
| send (text_data : Event).

Record World := mkWorld {
  db : Db.t;
  now : Z;                          (* [timezone.now()] *)
  log : list Action                 (* oldest first *)
}.

Definition M (A : Type) : Type := World -> A * World.

#[global] Instance M_ret : MRet M := fun A (a : A) w => (a, w).
#[global] Instance M_bind : MBind M :=
  fun A B (k : A -> M B) (m : M A) w => let '(a, w') := m w in k a w'.

Definition emit (a : Action) : M unit :=
  fun w => (tt, mkWorld (db w) (now w) (log w ++ [a])).

(** A database call wrapped by [database_sync_to_async]. *)
Definition db_call {A} (f : Z -> Db.t -> A * Db.t) : M A :=
  fun w => let '(a, d) := f (now w) (db w) in (a, mkWorld d (now w) (log w)).

Definition db_read {A} (f : Db.t -> A) : M A :=
  fun w => (f (db w), w).

(* ===================================================================== *)
(** * [core/consumers.py]: LocationConsumer *)
(* ===================================================================== *)

Module LocationConsumer.
Local Open Scope R_scope.

Record t := mk {
  channel_name : string;
  scope_user : option User.t;       (* [Some] for an authenticated user *)
  bus_id : nat;
  group_name : string;
  sequence_number : Z;
  is_driver : bool
}.

Definition set_sequence_number (v : Z) (self : t) : t :=
  mk (channel_name self) (scope_user self) (bus_id self) (group_name self)
     v (is_driver self).
Definition set_is_driver (v : bool) (self : t) : t :=
  mk (channel_name self) (scope_user self) (bus_id self) (group_name self)
     (sequence_number self) v.

(** What [json.loads(text_data)] yields, as far as [receive] looks at it. *)
Inductive TextData :=
| not_json
| json_object (type_ : option string) (lat lng : option R).

Definition MIN_MOVEMENT_METERS : R := 25.

Definition _is_driver_for_bus (user_id bus_id : nat) (d : Db.t) : bool :=
  match Db.get_bus bus_id d with
  | None => false
  | Some bus =>
      match Db.get_driver (Bus.driver bus) d with
      | None => false
      | Some driver => Nat.eqb (Driver.user driver) user_id
      end
  end.

Definition _get_last_bus_location (bus_id : nat) (d : Db.t) : option (R * R) :=
  match Db.get_bus bus_id d with
  | None => None
  | Some bus =>
      match Bus.current_lat bus, Bus.current_lng bus with
      | Some lat, Some lng =>
          if Py.truthy (Some lat) && Py.truthy (Some lng)
          then Some (lat, lng) else None
      | _, _ => None
      end
  end.

(** The guard [bus.current_lat and bus.current_lng] together with the
    distance test under it: [true] when the update is to be skipped. *)
Definition moved_too_little (bus : Bus.t) (lat_f lng_f : R) : bool :=
  match Bus.current_lat bus, Bus.current_lng bus with
  | Some cur_lat, Some cur_lng =>
      if Py.truthy (Some cur_lat) && Py.truthy (Some cur_lng) then
        let distance_m := Geo.great_circle 6371000 cur_lat cur_lng lat_f lng_f in
        bool_decide (distance_m < MIN_MOVEMENT_METERS)
      else false
  | _, _ => false
  end.

(** The inner [try] of [_save_bus_location]: the bus object with nearest
    stop and ETA filled in, or [None] when the block raises. *)
Definition nearest_stop_and_eta (bus : Bus.t) (lat_f lng_f : R) (d : Db.t)
    : option Bus.t :=
  match Db.get_route (Bus.route bus) d with
  | None => None
  | Some route =>
      let stops := BusRoute.get_stops_list route in
      match Stop.nearest_index stops lat_f lng_f with
      | None => None
      | Some nearest_idx =>
          let bus := Bus.set_nearest_stop_index (Some (Z.of_nat nearest_idx)) bus in
          let dist_km := Stop.haversine_to stops lat_f lng_f nearest_idx in
          let avg_speed_kmh := 25 in
          let eta_seconds := Py.int ((dist_km / avg_speed_kmh) * 3600) in
          let bus := Bus.set_eta_seconds (Some (Z.max 1 eta_seconds)) bus in
          let eta := IZR (Z.max 1 eta_seconds) in
          let bus :=
            match Bus.eta_smoothed_seconds bus with
            | Some old =>
                if Py.truthy (Some old) then
                  let alpha := 3 / 10 in
                  Bus.set_eta_smoothed_seconds
                    (Some (alpha * eta + (1 - alpha) * old)) bus
                else Bus.set_eta_smoothed_seconds (Some eta) bus
            | None => Bus.set_eta_smoothed_seconds (Some eta) bus
            end in
          Some bus
      end
  end.

Definition _save_bus_location (bus_id : nat) (lat lng : R)
    (now : Z) (d : Db.t) : bool * Db.t :=
  let lat_f := lat in
  let lng_f := lng in
  match Db.get_bus bus_id d with
  | None => (false, d)
  | Some bus =>
      if moved_too_little bus lat_f lng_f then (false, d)
      else
        let bus := Bus.set_current_lat (Some lat_f) bus in
        let bus := Bus.set_current_lng (Some lng_f) bus in
        let bus := Bus.set_updated_at (Some now) bus in
        let d := Db.save_bus
                   [Bus.f_current_lat; Bus.f_current_lng; Bus.f_updated_at] bus d in
        match Db.get_driver (Bus.driver bus) d with
        | None => (false, d)
        | Some driver =>
            let driver := Driver.set_current_lat (Some lat_f) driver in
            let driver := Driver.set_current_lng (Some lng_f) driver in
            let d := Db.save_driver
                       [Driver.f_current_lat; Driver.f_current_lng] driver d in
            (* the log line reads [bus.driver.user.username] *)
            match Db.get_user (Driver.user driver) d with
            | None => (false, d)
            | Some _ =>
                match nearest_stop_and_eta bus lat_f lng_f d with
                | Some bus =>
                    (true,
                     Db.save_bus
                       [Bus.f_nearest_stop_index; Bus.f_eta_seconds;
                        Bus.f_eta_smoothed_seconds] bus d)
                | None => (true, d)
                end
            end
        end
  end.

Definition _clear_bus_location (bus_id : nat) (now : Z) (d : Db.t)
    : bool * Db.t :=
  match Db.get_bus bus_id d with
  | None => (false, d)
  | Some bus =>
      let bus := Bus.set_current_lat None bus in
      let bus := Bus.set_current_lng None bus in
      let bus := Bus.set_nearest_stop_index None bus in
      let bus := Bus.set_eta_seconds None bus in
      let bus := Bus.set_eta_smoothed_seconds None bus in
      let d := Db.save_bus
                 [Bus.f_current_lat; Bus.f_current_lng; Bus.f_nearest_stop_index;
                  Bus.f_eta_seconds; Bus.f_eta_smoothed_seconds] bus d in
      match Db.get_driver (Bus.driver bus) d with
      | None => (false, d)
      | Some driver =>
          let driver := Driver.set_current_lat None driver in
          let driver := Driver.set_current_lng None driver in
          let d := Db.save_driver
                     [Driver.f_current_lat; Driver.f_current_lng] driver d in
          match Db.get_user (Driver.user driver) d with
          | None => (false, d)
          | Some _ => (true, d)
          end
      end
  end.

Definition waiting : Event :=
  tracking_status "waiting" "Waiting for driver to start tracking...".

Definition connect (channel_name : string) (user : option User.t)
    (bus_id : nat) : M t :=
  let self := mk channel_name user bus_id ("bus_" +:+ pretty bus_id) 0 false in
  emit (group_add (group_name self) (LocationConsumer.channel_name self));;
  emit accept;;
  driver_flag ←
    match user with
    | Some u => db_read (_is_driver_for_bus (User.id u) bus_id)
    | None => mret false
    end;
  let self := set_is_driver driver_flag self in
  (if negb (is_driver self) then
     last_location ← db_read (_get_last_bus_location bus_id);
     match last_location with
     | Some (lat, lng) =>
         emit (send (location_update lat lng true (-1)));;
         emit (send waiting)
     | None => emit (send waiting)
     end
   else mret tt);;
  mret self.

Definition disconnect (self : t) : M unit :=
  (if is_driver self then
     db_call (_clear_bus_location (bus_id self));;
     emit (group_send (group_name self)
             (tracking_status "disconnected" "Driver stopped tracking"))
   else mret tt);;
  emit (group_discard (group_name self) (channel_name self)).

Definition receive (self : t) (text_data : TextData) : M t :=
  match text_data with
  | not_json => mret self
  | json_object type_ lat lng =>
      if bool_decide (type_ = Some "location") then
        if negb (is_driver self) then mret self
        else
          match lat, lng with
          | Some lat, Some lng =>
              saved ← db_call (_save_bus_location (bus_id self) lat lng);
              if (saved : bool) then
                let self := set_sequence_number (sequence_number self + 1) self in
                (if bool_decide (sequence_number self = 1%Z) then
                   emit (group_send (group_name self)
                           (tracking_status "connected" "Driver started tracking"))
                 else mret tt);;
                emit (group_send (group_name self)
                        (location_update lat lng false (sequence_number self)));;
                mret self
              else mret self
          | _, _ => mret self
          end
      else mret self
  end.
End LocationConsumer.

(* ===================================================================== *)
(** * [core/consumers.py]: ChatConsumer *)
(* ===================================================================== *)

Module ChatConsumer.

Record t := mk {
  channel_name : string;
  scope_user : option User.t;       (* [Some] for an authenticated user *)
  room_name : option string
}.

(** What [json.loads(text_data)] yields, as far as [receive] looks at it. *)
Inductive TextData :=
| no_text
| not_json
| json_object (type_ : option string) (content : option string)
    (recipient_id bus_id : option nat).

(** Lines 508-533: "Resolve recipient from bus if not provided". *)
Definition resolve_from_bus (sender_id : nat) (recipient_id bus_id : option nat)
    (d : Db.t) : option nat :=
  if negb (Py.truthy_id recipient_id) && Py.truthy_id bus_id then
    let is_sender_driver := Db.driver_exists sender_id d in
    if negb is_sender_driver then
      match bus_id ≫= (fun k => Db.get_bus k d) with
      | None => None
      | Some bus_obj =>
          match Db.get_driver (Bus.driver bus_obj) d with
          | None => None
          | Some driver =>
              match Db.get_user (Driver.user driver) d with
              | None => None
              | Some user => Some (User.id user)
              end
          end
      end
    else recipient_id
  else recipient_id.

(** [.order_by("-created_at").first()] over rows kept in creation order:
    the row with the greatest [created_at], the later row among equals. *)
Definition latest (rows : list Message.t) : option Message.t :=
  foldl (fun best m =>
           match best with
           | None => Some m
           | Some b =>
               if decide (Message.created_at b ≤ Message.created_at m)%Z
               then Some m else Some b
           end) None rows.

Definition _get_last_user_to_driver (sid : nat) (d : Db.t) : option nat :=
  let received :=
    List.filter (fun m => Nat.eqb (Message.recipient m) sid
                          && negb (Nat.eqb (Message.sender m) sid))
                (Db.messages d) in
  match latest received with
  | None => None
  | Some last => User.id <$> Db.get_user (Message.sender last) d
  end.

(** Lines 535-564: "If still no recipient and sender is a driver, try last
    contact". *)
Definition resolve_from_last_contact (sender_id : nat)
    (recipient_id : option nat) (d : Db.t) : option nat :=
  if negb (Py.truthy_id recipient_id) then
    let is_sender_driver := Db.driver_exists sender_id d in
    if is_sender_driver then
      let last_user := _get_last_user_to_driver sender_id d in
      if Py.truthy_id last_user then last_user else recipient_id
    else recipient_id
  else recipient_id.

Definition resolve_recipient (sender_id : nat) (recipient_id bus_id : option nat)
    (d : Db.t) : option nat :=
  resolve_from_last_contact sender_id
    (resolve_from_bus sender_id recipient_id bus_id d) d.

Definition _create_message (sender_id recipient_id : nat) (bus_id : option nat)
    (content : string) (now : Z) (d : Db.t) : option Message.t * Db.t :=
  match Db.get_user sender_id d, Db.get_user recipient_id d with
  | Some sender, Some recipient =>
      let bus :=
        if Py.truthy_id bus_id then bus_id ≫= (fun k => Db.get_bus k d)
        else None in
      let m := Message.mk (User.id sender) (User.id recipient)
                 (Bus.id <$> bus) content now false in
      (Some m, Db.create_message m d)
  | _, _ => (None, d)
  end.

Definition connect (channel_name : string) (user : option User.t)
    (room_name : option string) : M t :=
  let self := mk channel_name user room_name in
  (if Py.truthy_str room_name then
     emit (group_add ("chat_" +:+ default "" room_name) channel_name)
   else mret tt);;
  match user with
  | Some user =>
      is_driver ← db_read (Db.driver_exists (User.id user));
      let connected_via_legacy_user_room :=
        Py.truthy_str room_name && String.prefix "user_" (default "" room_name) in
      if (is_driver : bool) then
        emit (group_add ("driver_" +:+ pretty (User.id user)) channel_name)
      else if negb connected_via_legacy_user_room then
        emit (group_add ("user_" +:+ pretty (User.id user)) channel_name)
      else mret tt
  | None => mret tt
  end;;
  emit accept;;
  mret self.

Definition publish (sender : User.t) (recipient_id : nat) (content : string)
    (bus_id : option nat) : M unit :=
  let payload :=
    chat_message_forward (User.id sender) (User.username sender) recipient_id
      content bus_id in
  emit (group_send ("user_" +:+ pretty recipient_id) payload);;
  emit (group_send ("chat_user_" +:+ pretty recipient_id +:+ "_driver_"
                      +:+ pretty (User.id sender)) payload);;
  (if negb (Nat.eqb recipient_id (User.id sender)) then
     emit (group_send ("driver_" +:+ pretty recipient_id) payload)
   else mret tt);;
  is_sender_driver ← db_read (Db.driver_exists (User.id sender));
  if (is_sender_driver : bool) then
    emit (group_send ("driver_" +:+ pretty (User.id sender)) payload)
  else
    emit (group_send ("user_" +:+ pretty (User.id sender)) payload);;
    emit (group_send ("chat_user_" +:+ pretty (User.id sender) +:+ "_driver_"
                        +:+ pretty recipient_id) payload).

Definition receive (self : t) (text_data : TextData) : M unit :=
  match text_data with
  | no_text => mret tt
  | not_json => mret tt
  | json_object msg_type content recipient_id bus_id =>
      if bool_decide (msg_type = Some "chat_message") then
        match scope_user self with
        | None => mret tt
        | Some sender =>
            recipient_id ←
              db_read (resolve_recipient (User.id sender) recipient_id bus_id);
            if negb (Py.truthy_id recipient_id) || negb (Py.truthy_str content)
            then mret tt
            else
              let recipient_id := default 0%nat recipient_id in
              let content := default "" content in
              db_call (_create_message (User.id sender) recipient_id bus_id content);;
              publish sender recipient_id content bus_id
        end
      else mret tt
  end.
End ChatConsumer.

(* ===================================================================== *)
(** * [core/views.py] *)
(* ===================================================================== *)

Module Views.
Local Open Scope R_scope.

(** The project settings the views read with [getattr(settings, ..., default)]. *)
Record Settings := mkSettings {
  AVG_SPEED_KMH : option R;
  ETA_SMOOTH_ALPHA : option R
}.

Record Request := mkRequest {
  method : string;
  user : option User.t;             (* [Some] for an authenticated user *)
  POST_lat : option R;              (* [None]: missing, or [float()] raises *)
  POST_lng : option R
}.

Inductive Response :=
| redirect_to_login                 (* [@login_required] *)
| method_not_allowed                (* [@require_POST] *)
| json_status (http : nat) (status : string)
| route_switched (old_route new_route : string) (route_id : nat).

(** The inner [try] of [update_location].  An exception leaves on the
    in-memory bus whatever had been assigned before it was raised. *)
Definition nearest_stop_and_eta (settings : Settings) (bus : Bus.t)
    (old_nearest : option Z) (old_eta_smoothed : option R)
    (lat_f lng_f : R) (d : Db.t) : Bus.t :=
  match Db.get_route (Bus.route bus) d with
  | None => bus
  | Some route =>
      let stops := BusRoute.get_stops_list route in
      match Stop.nearest_index stops lat_f lng_f with
      | None => bus
      | Some nearest_idx =>
          let bus := Bus.set_nearest_stop_index (Some (Z.of_nat nearest_idx)) bus in
          let dist_km := Stop.haversine_to stops lat_f lng_f nearest_idx in
          let avg_speed_kmh := default 25 (AVG_SPEED_KMH settings) in
          if decide (avg_speed_kmh = 0) then bus     (* ZeroDivisionError *)
          else
            let eta_seconds := Py.int ((dist_km / avg_speed_kmh) * 3600) in
            let eta_seconds := if decide (eta_seconds < 1)%Z then 1%Z else eta_seconds in
            let bus := Bus.set_eta_seconds (Some eta_seconds) bus in
            let alpha := default (3 / 10) (ETA_SMOOTH_ALPHA settings) in
            let bus :=
              match old_eta_smoothed with
              | None => Bus.set_eta_smoothed_seconds (Some (IZR eta_seconds)) bus
              | Some old =>
                  Bus.set_eta_smoothed_seconds
                    (Some (alpha * IZR eta_seconds + (1 - alpha) * old)) bus
              end in
            match old_nearest with
            | Some old =>
                if decide (old < Z.of_nat nearest_idx)%Z then
                  Bus.set_eta_passed_counter (Bus.eta_passed_counter bus + 1) bus
                else if decide (Z.of_nat nearest_idx < old)%Z then
                  Bus.set_eta_passed_counter 0 bus
                else bus
            | None => bus
            end
      end
  end.

Definition update_location (settings : Settings) (request : Request)
    (d : Db.t) : Response * Db.t :=
  match user request with
  | Some u =>
      match Db.driver_profile (User.id u) d with
      | Some driver =>
          if String.eqb (method request) "POST" then
            match POST_lat request, POST_lng request with
            | Some lat_f, Some lng_f =>
                let driver := Driver.set_current_lat (Some lat_f) driver in
                let driver := Driver.set_current_lng (Some lng_f) driver in
                let d := Db.save_driver
                           [Driver.f_current_lat; Driver.f_current_lng] driver d in
                let d :=
                  match Db.first_bus_of (Driver.id driver) d with
                  | Some bus =>
                      let old_nearest := Bus.nearest_stop_index bus in
                      let old_eta_smoothed := Bus.eta_smoothed_seconds bus in
                      let bus := Bus.set_current_lat (Some lat_f) bus in
                      let bus := Bus.set_current_lng (Some lng_f) bus in
                      let bus := nearest_stop_and_eta settings bus old_nearest
                                   old_eta_smoothed lat_f lng_f d in
                      Db.save_bus
                        [Bus.f_current_lat; Bus.f_current_lng;
                         Bus.f_nearest_stop_index; Bus.f_eta_seconds;
                         Bus.f_eta_smoothed_seconds; Bus.f_eta_passed_counter]
                        bus d
                  | None => d
                  end in
                (json_status 200 "success", d)
            | _, _ => (json_status 200 "error", d)
            end
          else (json_status 200 "failed", d)
      | None => (json_status 200 "failed", d)
      end
  | None => (json_status 200 "failed", d)
  end.

Definition switch_route (request : Request) (d : Db.t) : Response * Db.t :=
  match user request with
  | None => (redirect_to_login, d)
  | Some u =>
      if negb (String.eqb (method request) "POST") then (method_not_allowed, d)
      else
        match Db.driver_profile (User.id u) d with
        | None => (json_status 403 "error", d)
        | Some driver =>
            match Db.first_bus_of (Driver.id driver) d with
            | None => (json_status 404 "error", d)
            | Some bus =>
                match Db.get_route (Bus.route bus) d with
                | None => (json_status 500 "error", d)
                | Some current_route =>
                    match BusRoute.reverse_route current_route with
                    | None => (json_status 400 "error", d)
                    | Some reverse_id =>
                        match Db.get_route reverse_id d with
                        | None => (json_status 500 "error", d)
                        | Some reverse_route =>
                            let old_route_name := BusRoute.name current_route in
                            let new_route_name := BusRoute.name reverse_route in
                            let bus := Bus.set_route (BusRoute.id reverse_route) bus in
                            let bus := Bus.set_nearest_stop_index None bus in
                            let bus := Bus.set_eta_seconds None bus in
                            let bus := Bus.set_eta_smoothed_seconds None bus in
                            let bus := Bus.set_eta_passed_counter 0 bus in
                            (route_switched old_route_name new_route_name
                               (BusRoute.id reverse_route),
                             Db.save_bus
                               [Bus.f_route; Bus.f_nearest_stop_index;
                                Bus.f_eta_seconds; Bus.f_eta_smoothed_seconds;
                                Bus.f_eta_passed_counter] bus d)
                        end
                    end
                end
            end
        end
  end.

(** One entry of [buses_info]. *)
Record BusInfo := mkBusInfo {
  eta : option Z;
  status : string;
  nearest_stop : option string;
  stops_between : option Z
}.

Section Homepage.
(** [core/dsa.py] and [core/routing_api.py] are imported by [homepage];
    [None] as a distance stands for [float('inf')]. *)
Variable dijkstra : Graph -> nat -> nat -> option R * list nat.
Variable get_road_distance_with_fallback : R -> R -> R -> R -> R * bool.

(** Lines 486-559: the ETA once the bus is known not to have passed the
    pickup.  [None] is the [continue] that drops the bus from the results. *)
Definition eta_to_pickup (graph : Graph) (stops_objs : list Stop.t)
    (bus_lat bus_lng dist_to_nearest : R) (nearest_stop : Stop.t)
    (nearest_stop_idx pickup_idx : nat) (pickup : Stop.t) : option BusInfo :=
  let nearest_stop_id := Stop.id nearest_stop in
  let pickup_stop_id := Stop.id pickup in
  let distance_and_stops : option (R * Z) :=
    if Nat.eqb nearest_stop_id pickup_stop_id then
      let '(dist_bus_to_pickup_km, is_road) :=
        get_road_distance_with_fallback bus_lat bus_lng
          (Stop.latitude pickup) (Stop.longitude pickup) in
      Some (dist_bus_to_pickup_km, 0%Z)
    else
      let '(dist_along_route_meters, path) :=
        dijkstra graph nearest_stop_id pickup_stop_id in
      match dist_along_route_meters with
      | Some meters =>
          if decide (0 <= meters) then
            let dist_bus_to_nearest_km := dist_to_nearest in
            let dist_along_route_km := meters / 1000 in
            let total_distance_km := dist_bus_to_nearest_km + dist_along_route_km in
            let stops_between := (Z.of_nat pickup_idx - Z.of_nat nearest_stop_idx)%Z in
            let stops_between := if decide (stops_between < 0)%Z then 0%Z else stops_between in
            Some (total_distance_km, stops_between)
          else None
      | None => None
      end in
  match distance_and_stops with
  | None => None
  | Some (total_distance_km, stops_between) =>
      let STOP_DELAY_SECONDS := 60%Z in
      let total_stop_delay_seconds := (stops_between * STOP_DELAY_SECONDS)%Z in
      let total_stop_delay_minutes := IZR total_stop_delay_seconds / 60 in
      let avg_speed_kmh := 25 in
      let travel_time_hours := total_distance_km / avg_speed_kmh in
      let travel_time_minutes := travel_time_hours * 60 in
      let total_time_minutes := travel_time_minutes + total_stop_delay_minutes in
      let eta := Z.max 1 (Py.int total_time_minutes) in
      let name := Some (Stop.name nearest_stop) in
      if decide (eta ≤ 2)%Z then
        Some (mkBusInfo (Some eta) "arriving_soon" name (Some stops_between))
      else if decide (eta ≤ 10)%Z then
        Some (mkBusInfo (Some eta) "catchable" name (Some stops_between))
      else if decide (eta ≤ 30)%Z then
        Some (mkBusInfo (Some eta) "far" name (Some stops_between))
      else Some (mkBusInfo None "no_route" name (Some stops_between))
  end.

(** Lines 405-567: the body of the loop over [matching_routes] up to the
    pickup ETA, for the route's first bus. *)
Definition homepage_eta (now : Z) (route : BusRoute.t) (bus : Bus.t)
    (stops_objs : list Stop.t) (pickup_idx : nat) : option BusInfo :=
  let bus_lat := Bus.current_lat bus in
  let bus_lng := Bus.current_lng bus in
  let is_stale :=
    match Bus.updated_at bus with
    | Some updated_at => bool_decide (5 * 60 < now - updated_at)%Z
    | None => false
    end in
  match bus_lat, bus_lng, is_stale with
  | Some bus_lat, Some bus_lng, false =>
      let graph := BusRoute.get_stop_graph route in
      if decide (graph = ∅) then
        Some (mkBusInfo None "error" None (Some 0%Z))
      else
        match Stop.nearest_index stops_objs bus_lat bus_lng with
        | None => Some (mkBusInfo None "error" None (Some 0%Z))
        | Some nearest_stop_idx =>
            match stops_objs !! nearest_stop_idx, stops_objs !! pickup_idx with
            | Some nearest_stop, Some pickup =>
                let '(dist_to_nearest, is_road) :=
                  get_road_distance_with_fallback bus_lat bus_lng
                    (Stop.latitude nearest_stop) (Stop.longitude nearest_stop) in
                if decide (pickup_idx < nearest_stop_idx)%nat then
                  Some (mkBusInfo None "passed" (Some (Stop.name nearest_stop))
                          (Some 0%Z))
                else
                  eta_to_pickup graph stops_objs bus_lat bus_lng dist_to_nearest
                    nearest_stop nearest_stop_idx pickup_idx pickup
            | Some nearest_stop, None =>
                Some (mkBusInfo None "error" (Some (Stop.name nearest_stop))
                        (Some 0%Z))
            | None, _ => Some (mkBusInfo None "error" None (Some 0%Z))
            end
        end
  | _, _, _ => Some (mkBusInfo None "no_location" None None)
  end.
End Homepage.
End Views.

(* ===================================================================== *)
(** * [core/models.py]: seats *)
(* ===================================================================== *)

Module Seat.
Record t := mk {
  bus : nat;                        (* ForeignKey(Bus) *)
  seat_number : nat;
  is_available : bool
}.

(** [bus.seats]: the seats of one bus, in the order of the table. *)
Definition of_bus (bus_id : nat) (seats : list t) : list t :=
  List.filter (fun s => Nat.eqb (bus s) bus_id) seats.

(** [Bus.create_seats], for the bus [bus_id] with [total_seats] seats, on
    the seat table: [Seat.objects.create] appends a row, available by
    default. *)
Definition create_seats (bus_id total_seats : nat) (seats : list t) : list t :=
  if negb (existsb (fun s => Nat.eqb (bus s) bus_id) seats) then
    foldl (fun seats i => seats ++ [mk bus_id i true]) seats
      (seq 1 total_seats)           (* range(1, self.total_seats + 1) *)
  else seats.
End Seat.

(* ===================================================================== *)
(** * [core/views.py]: the seat grid of [driver_dashboard] and [track_bus] *)
(* ===================================================================== *)

Module SeatGrid.
Definition col_map : list nat := [2; 3; 5; 6].

(** The body of the loop [for idx, seat in enumerate(seats)]: the row and
    the column of the seat at index [idx]. *)
Definition cell (total_seats idx : nat) : nat * nat :=
  let last_row_start := if (5 <=? total_seats)%nat then total_seats - 5 else 0 in
  let seats_per_row := 4 in
  if (idx <? last_row_start)%nat then
    let row := idx / seats_per_row + 1 in
    let pos := idx mod seats_per_row in
    let col := nth pos col_map 0 in   (* [pos < 4]: no IndexError *)
    (row, col)
  else
    let row :=
      if (0 <? last_row_start)%nat then last_row_start / seats_per_row + 1
      else idx / seats_per_row + 1 in
    let col := idx - last_row_start + 2 in
    let col := if (col <? 2)%nat then 2 else col in
    let col := if (6 <? col)%nat then 6 else col in
    (row, col).
End SeatGrid.

(* ===================================================================== *)
(** * [core/views.py]: [clear_chat] *)
(* ===================================================================== *)

Module ClearChat.
Inductive Response :=
| redirect_to_login                 (* [@login_required] *)
| method_not_allowed                (* [@require_POST] *)
| user_not_found
| success (deleted : nat).

(** [(Q(sender=a) & Q(recipient=b)) | (Q(sender=b) & Q(recipient=a))] *)
Definition between (a b : nat) (m : Message.t) : bool :=
  Nat.eqb (Message.sender m) a && Nat.eqb (Message.recipient m) b
  || Nat.eqb (Message.sender m) b && Nat.eqb (Message.recipient m) a.

Definition clear_chat (request : Views.Request) (other_user_id : nat)
    (d : Db.t) : Response * Db.t :=
  match Views.user request with
  | None => (redirect_to_login, d)
  | Some u =>
      if negb (String.eqb (Views.method request) "POST") then
        (method_not_allowed, d)
      else
        match Db.get_user other_user_id d with
        | None => (user_not_found, d)
        | Some other =>
            let qs := List.filter (between (User.id u) (User.id other))
                        (Db.messages d) in
            let deleted_count := length qs in
            (success deleted_count,
             Db.set_messages
               (List.filter
                  (fun m => negb (between (User.id u) (User.id other) m))
                  (Db.messages d)) d)
        end
  end.
End ClearChat.

(* ===================================================================== *)
(** * Floating point *)
(* ===================================================================== *)

(** The arithmetic of the sections above is exact.  The code computes with
    IEEE doubles and the platform's [math] library: results are rounded,
    comparisons with NaN are false, and some operations raise.  Where a
    property depends on what is computed, the functions are embedded a second
    time, below, over the operations themselves: every float operation the
    code performs is a field of [Float.ops], applied in the order in which
    Python evaluates it, and nothing is assumed about the fields.  An
    operation that can raise returns [None] when it does.

    A float is represented by a real number: a finite double by its value,
    NaN and the two infinities by reals that are the value of no double.
    Integer literals and integers converted to float ([IZR]) are exact; a
    decimal literal goes through [literal].  [x ** 2] is only applied to a
    sine, where it cannot overflow, and [div] is only applied to a divisor
    that is not zero, so neither is given a raising case. *)
Module Float.
Record ops := mk {
  add : R -> R -> R;                (* x + y *)
  sub : R -> R -> R;                (* x - y *)
  mul : R -> R -> R;                (* x * y *)
  div : R -> R -> R;                (* x / y, for a divisor that is not zero *)
  pow2 : R -> R;                    (* x ** 2 *)
  lt : R -> R -> bool;              (* x < y *)
  le : R -> R -> bool;              (* x <= y *)
  radians : R -> R;                 (* math.radians *)
  sin : R -> option R;              (* math.sin: ValueError on an infinity *)
  cos : R -> option R;              (* math.cos: ValueError on an infinity *)
  sqrt : R -> option R;             (* math.sqrt: ValueError below zero *)
  atan2 : R -> R -> R;              (* math.atan2 *)
  int : R -> option Z;              (* int(x): raises on NaN and infinities *)
  literal : R -> R                  (* the float a decimal literal denotes *)
}.

(** The operations of exact arithmetic, those of the sections above. *)
Definition exact : ops := {|
  add := Rplus;
  sub := Rminus;
  mul := Rmult;
  div := Rdiv;
  pow2 := Rsqr;
  lt := fun x y => bool_decide (x < y)%R;
  le := fun x y => bool_decide (x <= y)%R;
  radians := Py.radians;
  sin := fun x => Some (Rtrigo_def.sin x);
  cos := fun x => Some (Rtrigo_def.cos x);
  sqrt := fun x => if decide (0 <= x)%R then Some (R_sqrt.sqrt x) else None;
  atan2 := Py.atan2;
  int := fun x => Some (Py.int x);
  literal := fun x => x
|}.
End Float.

Module FpPy.
Section Ops.
Variable fl : Float.ops.

(** [min(range(n), key=key)]: the key of every index is computed, in order,
    and an index replaces the best so far when its key is [<] the best key;
    [None] when the range is empty or a key raises. *)
Fixpoint min_from (key : nat -> option R) (best : nat) (best_key : R)
    (rest : list nat) : option nat :=
  match rest with
  | [] => Some best
  | i :: rest' =>
      match key i with
      | None => None
      | Some val =>
          if Float.lt fl val best_key then min_from key i val rest'
          else min_from key best best_key rest'
      end
  end.

Definition min_range (n : nat) (key : nat -> option R) : option nat :=
  match seq 0 n with
  | [] => None
  | i :: rest =>
      match key i with
      | None => None
      | Some val => min_from key i val rest
      end
  end.
End Ops.
End FpPy.

Module FpGeo.
Section Ops.
Variable fl : Float.ops.

(** The haversine computation, as each of its five copies in the code has
    it; [radius] is 6371000 or 6371. *)
Definition great_circle (radius lat1 lon1 lat2 lon2 : R) : option R :=
  let phi1 := Float.radians fl lat1 in
  let phi2 := Float.radians fl lat2 in
  let dphi := Float.radians fl (Float.sub fl lat2 lat1) in
  let dlambda := Float.radians fl (Float.sub fl lon2 lon1) in
  sin_dphi ← Float.sin fl (Float.div fl dphi 2);
  cos_phi1 ← Float.cos fl phi1;
  cos_phi2 ← Float.cos fl phi2;
  sin_dlambda ← Float.sin fl (Float.div fl dlambda 2);
  let a :=
    Float.add fl (Float.pow2 fl sin_dphi)
      (Float.mul fl (Float.mul fl cos_phi1 cos_phi2)
         (Float.pow2 fl sin_dlambda)) in
  sqrt_a ← Float.sqrt fl a;
  sqrt_1_a ← Float.sqrt fl (Float.sub fl 1 a);
  let c := Float.mul fl 2 (Float.atan2 fl sqrt_a sqrt_1_a) in
  Some (Float.mul fl radius c).

(** The local [haversine] helper of [consumers.py] and [views.py]. *)
Definition haversine (lat1 lon1 lat2 lon2 : R) : option R :=
  great_circle 6371 lat1 lon1 lat2 lon2.
End Ops.
End FpGeo.

Module FpStop.
Section Ops.
Variable fl : Float.ops.

Definition haversine_to (stops : list Stop.t) (lat lng : R) (i : nat)
    : option R :=
  match stops !! i with
  | Some s => FpGeo.haversine fl lat lng (Stop.latitude s) (Stop.longitude s)
  | None => None
  end.

Definition nearest_index (stops : list Stop.t) (lat lng : R) : option nat :=
  FpPy.min_range fl (length stops) (haversine_to stops lat lng).
End Ops.
End FpStop.

(* ===================================================================== *)
(** * [core/models.py] over the float operations *)
(* ===================================================================== *)

Module FpBusRoute.
Section Ops.
Variable fl : Float.ops.

Definition _calculate_distance (lat1 lon1 lat2 lon2 : R) : option R :=
  FpGeo.great_circle fl 6371000 lat1 lon1 lat2 lon2.

(** [distance = rs.distance_to_next_m] and the fallback under
    [if distance is None or distance == 0]. *)
Definition edge_distance (rs next_rs : RouteStop.t) : option R :=
  match RouteStop.distance_to_next_m rs with
  | Some distance =>
      if decide (distance = 0)%R then
        _calculate_distance
          (Stop.latitude (RouteStop.stop rs)) (Stop.longitude (RouteStop.stop rs))
          (Stop.latitude (RouteStop.stop next_rs))
          (Stop.longitude (RouteStop.stop next_rs))
      else Some distance
  | None =>
      _calculate_distance
        (Stop.latitude (RouteStop.stop rs)) (Stop.longitude (RouteStop.stop rs))
        (Stop.latitude (RouteStop.stop next_rs))
        (Stop.longitude (RouteStop.stop next_rs))
  end.

(** One iteration of [for i, rs in enumerate(stops_list)]; [None] once
    [_calculate_distance] has raised. *)
Definition graph_step (stops_list : list RouteStop.t) (graph : option Graph)
    (item : nat * RouteStop.t) : option Graph :=
  match graph with
  | None => None
  | Some graph =>
      let '(i, rs) := item in
      let key := Stop.id (RouteStop.stop rs) in
      let graph := <[key := []]> graph in
      if decide (Z.of_nat i < Z.of_nat (length stops_list) - 1)%Z then
        match stops_list !! (i + 1)%nat with
        | Some next_rs =>
            match edge_distance rs next_rs with
            | None => None
            | Some distance =>
                Some (alter
                        (fun out =>
                           out ++ [(Stop.id (RouteStop.stop next_rs), distance)])
                        key graph)
            end
        | None => Some graph
        end
      else Some graph
  end.

(** [get_stop_graph]; [None] when it raises. *)
Definition get_stop_graph (self : BusRoute.t) : option Graph :=
  let stops_list := BusRoute.routestop_set self in
  foldl (graph_step stops_list) (Some ∅) (BusRoute.enumerate stops_list).
End Ops.
End FpBusRoute.

(* ===================================================================== *)
(** * [core/consumers.py]: LocationConsumer over the float operations *)
(* ===================================================================== *)

Module FpLocationConsumer.
Import LocationConsumer.
Section Ops.
Variable fl : Float.ops.

(** Lines 246-264: the guard [bus.current_lat and bus.current_lng] and the
    distance test under it.  [Some true]: the update is skipped;
    [None]: the computation raises. *)
Definition moved_too_little (bus : Bus.t) (lat_f lng_f : R) : option bool :=
  match Bus.current_lat bus, Bus.current_lng bus with
  | Some cur_lat, Some cur_lng =>
      if Py.truthy (Some cur_lat) && Py.truthy (Some cur_lng) then
        match FpGeo.great_circle fl 6371000 cur_lat cur_lng lat_f lng_f with
        | None => None
        | Some distance_m => Some (Float.lt fl distance_m MIN_MOVEMENT_METERS)
        end
      else Some false
  | _, _ => Some false
  end.

(** Lines 279-339, the inner [try]: the bus object with nearest stop and
    ETA filled in, or [None] when the block raises before its [save]. *)
Definition nearest_stop_and_eta (bus : Bus.t) (lat_f lng_f : R) (d : Db.t)
    : option Bus.t :=
  match Db.get_route (Bus.route bus) d with
  | None => None
  | Some route =>
      let stops := BusRoute.get_stops_list route in
      match FpStop.nearest_index fl stops lat_f lng_f with
      | None => None
      | Some nearest_idx =>
          let bus := Bus.set_nearest_stop_index (Some (Z.of_nat nearest_idx)) bus in
          match FpStop.haversine_to fl stops lat_f lng_f nearest_idx with
          | None => None
          | Some dist_km =>
              let avg_speed_kmh := 25%R in
              match Float.int fl
                      (Float.mul fl (Float.div fl dist_km avg_speed_kmh) 3600)
              with
              | None => None
              | Some eta_seconds =>
                  let bus := Bus.set_eta_seconds (Some (Z.max 1 eta_seconds)) bus in
                  let eta := IZR (Z.max 1 eta_seconds) in
                  let bus :=
                    match Bus.eta_smoothed_seconds bus with
                    | Some old =>
                        if Py.truthy (Some old) then
                          let alpha := Float.literal fl (3 / 10) in
                          Bus.set_eta_smoothed_seconds
                            (Some (Float.add fl (Float.mul fl alpha eta)
                                     (Float.mul fl (Float.sub fl 1 alpha) old)))
                            bus
                        else Bus.set_eta_smoothed_seconds (Some eta) bus
                    | None => Bus.set_eta_smoothed_seconds (Some eta) bus
                    end in
                  Some bus
              end
          end
      end
  end.

Definition _save_bus_location (bus_id : nat) (lat lng : R)
    (now : Z) (d : Db.t) : bool * Db.t :=
  let lat_f := lat in
  let lng_f := lng in
  match Db.get_bus bus_id d with
  | None => (false, d)
  | Some bus =>
      match moved_too_little bus lat_f lng_f with
      | None => (false, d)            (* [except Exception: return False] *)
      | Some true => (false, d)
      | Some false =>
          let bus := Bus.set_current_lat (Some lat_f) bus in
          let bus := Bus.set_current_lng (Some lng_f) bus in
          let bus := Bus.set_updated_at (Some now) bus in
          let d := Db.save_bus
                     [Bus.f_current_lat; Bus.f_current_lng; Bus.f_updated_at]
                     bus d in
          match Db.get_driver (Bus.driver bus) d with
          | None => (false, d)
          | Some driver =>
              let driver := Driver.set_current_lat (Some lat_f) driver in
              let driver := Driver.set_current_lng (Some lng_f) driver in
              let d := Db.save_driver
                         [Driver.f_current_lat; Driver.f_current_lng] driver d in
              match Db.get_user (Driver.user driver) d with
              | None => (false, d)
              | Some _ =>
                  match nearest_stop_and_eta bus lat_f lng_f d with
                  | Some bus =>
                      (true,
                       Db.save_bus
                         [Bus.f_nearest_stop_index; Bus.f_eta_seconds;
                          Bus.f_eta_smoothed_seconds] bus d)
                  | None => (true, d)
                  end
              end
          end
      end
  end.

Definition receive (self : t) (text_data : TextData) : M t :=
  match text_data with
  | not_json => mret self
  | json_object type_ lat lng =>
      if bool_decide (type_ = Some "location") then
        if negb (is_driver self) then mret self
        else
          match lat, lng with
          | Some lat, Some lng =>
              saved ← db_call (_save_bus_location (bus_id self) lat lng);
              if (saved : bool) then
                let self := set_sequence_number (sequence_number self + 1) self in
                (if bool_decide (sequence_number self = 1%Z) then
                   emit (group_send (group_name self)
                           (tracking_status "connected" "Driver started tracking"))
                 else mret tt);;
                emit (group_send (group_name self)
                        (location_update lat lng false (sequence_number self)));;
                mret self
              else mret self
          | _, _ => mret self
          end
      else mret self
  end.

(** What [json.loads(text_data)] makes of a frame.  [TextData] has the two
    cases in which [receive] returns; a JSON text that is not an object is
    the third: [data.get("type")] stands outside the [try], and only a
    [dict] has a [get]. *)
Inductive Frame :=
| invalid_json                      (* [json.loads] raises *)
| not_an_object                     (* a list, a string, a number, a boolean, null *)
| object (type_ : option string) (lat lng : option R).

(** [receive] from the frame on; [None] when the handler is left by the
    [AttributeError]. *)
Definition receive_frame (self : t) (frame : Frame) : M (option t) :=
  match frame with
  | invalid_json => mret (Some self)
  | not_an_object => mret None
  | object type_ lat lng =>
      self ← receive self (json_object type_ lat lng);
      mret (Some self)
  end.
End Ops.
End FpLocationConsumer.

(* ===================================================================== *)
(** * [core/views.py] over the float operations *)
(* ===================================================================== *)

Module FpViews.
Import Views.
Section Ops.
Variable fl : Float.ops.

(** The inner [try] of [update_location], lines 786-835.  An exception
    leaves on the in-memory bus whatever had been assigned before it was
    raised. *)
Definition nearest_stop_and_eta (settings : Settings) (bus : Bus.t)
    (old_nearest : option Z) (old_eta_smoothed : option R)
    (lat_f lng_f : R) (d : Db.t) : Bus.t :=
  match Db.get_route (Bus.route bus) d with
  | None => bus
  | Some route =>
      let stops := BusRoute.get_stops_list route in
      match FpStop.nearest_index fl stops lat_f lng_f with
      | None => bus                 (* no stops, or the key raises *)
      | Some nearest_idx =>
          let bus := Bus.set_nearest_stop_index (Some (Z.of_nat nearest_idx)) bus in
          match FpStop.haversine_to fl stops lat_f lng_f nearest_idx with
          | None => bus
          | Some dist_km =>
              let avg_speed_kmh := default 25%R (AVG_SPEED_KMH settings) in
              if decide (avg_speed_kmh = 0)%R then bus   (* ZeroDivisionError *)
              else
                match Float.int fl
                        (Float.mul fl (Float.div fl dist_km avg_speed_kmh) 3600)
                with
                | None => bus
                | Some eta_seconds =>
                    let eta_seconds :=
                      if decide (eta_seconds < 1)%Z then 1%Z else eta_seconds in
                    let bus := Bus.set_eta_seconds (Some eta_seconds) bus in
                    let alpha :=
                      default (Float.literal fl (3 / 10))
                        (ETA_SMOOTH_ALPHA settings) in
                    let bus :=
                      match old_eta_smoothed with
                      | None =>
                          Bus.set_eta_smoothed_seconds (Some (IZR eta_seconds)) bus
                      | Some old =>
                          Bus.set_eta_smoothed_seconds
                            (Some (Float.add fl
                                     (Float.mul fl alpha (IZR eta_seconds))
                                     (Float.mul fl (Float.sub fl 1 alpha) old)))
                            bus
                      end in
                    match old_nearest with
                    | Some old =>
                        if decide (old < Z.of_nat nearest_idx)%Z then
                          Bus.set_eta_passed_counter
                            (Bus.eta_passed_counter bus + 1) bus
                        else if decide (Z.of_nat nearest_idx < old)%Z then
                          Bus.set_eta_passed_counter 0 bus
                        else bus
                    | None => bus
                    end
                end
          end
      end
  end.

Definition update_location (settings : Settings) (request : Request)
    (d : Db.t) : Response * Db.t :=
  match user request with
  | Some u =>
      match Db.driver_profile (User.id u) d with
      | Some driver =>
          if String.eqb (method request) "POST" then
            match POST_lat request, POST_lng request with
            | Some lat_f, Some lng_f =>
                let driver := Driver.set_current_lat (Some lat_f) driver in
                let driver := Driver.set_current_lng (Some lng_f) driver in
                let d := Db.save_driver
                           [Driver.f_current_lat; Driver.f_current_lng] driver d in
                let d :=
                  match Db.first_bus_of (Driver.id driver) d with
                  | Some bus =>
                      let old_nearest := Bus.nearest_stop_index bus in
                      let old_eta_smoothed := Bus.eta_smoothed_seconds bus in
                      let bus := Bus.set_current_lat (Some lat_f) bus in
                      let bus := Bus.set_current_lng (Some lng_f) bus in
                      let bus := nearest_stop_and_eta settings bus old_nearest
                                   old_eta_smoothed lat_f lng_f d in
                      Db.save_bus
                        [Bus.f_current_lat; Bus.f_current_lng;
                         Bus.f_nearest_stop_index; Bus.f_eta_seconds;
                         Bus.f_eta_smoothed_seconds; Bus.f_eta_passed_counter]
                        bus d
                  | None => d
                  end in
                (json_status 200 "success", d)
            | _, _ => (json_status 200 "error", d)
            end
          else (json_status 200 "failed", d)
      | None => (json_status 200 "failed", d)
      end
  | None => (json_status 200 "failed", d)
  end.

(** [core/dsa.py] and [core/routing_api.py] are imported by [homepage];
    [None] as a distance stands for [float('inf')]. *)
Variable dijkstra : Graph -> nat -> nat -> option R * list nat.
Variable get_road_distance_with_fallback : R -> R -> R -> R -> R * bool.

(** Lines 486-559: the ETA once the bus is known not to have passed the
    pickup.  [None] is the [continue] that drops the bus from the results;
    an entry with status [error] is what the [except] clause leaves. *)
Definition eta_to_pickup (graph : Graph) (stops_objs : list Stop.t)
    (bus_lat bus_lng dist_to_nearest : R) (nearest_stop : Stop.t)
    (nearest_stop_idx pickup_idx : nat) (pickup : Stop.t) : option BusInfo :=
  let nearest_stop_id := Stop.id nearest_stop in
  let pickup_stop_id := Stop.id pickup in
  let distance_and_stops : option (R * Z) :=
    if Nat.eqb nearest_stop_id pickup_stop_id then
      let '(dist_bus_to_pickup_km, is_road) :=
        get_road_distance_with_fallback bus_lat bus_lng
          (Stop.latitude pickup) (Stop.longitude pickup) in
      Some (dist_bus_to_pickup_km, 0%Z)
    else
      let '(dist_along_route_meters, path) :=
        dijkstra graph nearest_stop_id pickup_stop_id in
      match dist_along_route_meters with
      | Some meters =>
          if Float.le fl 0 meters then
            let dist_bus_to_nearest_km := dist_to_nearest in
            let dist_along_route_km := Float.div fl meters 1000 in
            let total_distance_km :=
              Float.add fl dist_bus_to_nearest_km dist_along_route_km in
            let stops_between := (Z.of_nat pickup_idx - Z.of_nat nearest_stop_idx)%Z in
            let stops_between := if decide (stops_between < 0)%Z then 0%Z else stops_between in
            Some (total_distance_km, stops_between)
          else None
      | None => None
      end in
  match distance_and_stops with
  | None => None
  | Some (total_distance_km, stops_between) =>
      let STOP_DELAY_SECONDS := 60%Z in
      let total_stop_delay_seconds := (stops_between * STOP_DELAY_SECONDS)%Z in
      let total_stop_delay_minutes :=
        Float.div fl (IZR total_stop_delay_seconds) 60 in
      let avg_speed_kmh := 25%R in
      let travel_time_hours := Float.div fl total_distance_km avg_speed_kmh in
      let travel_time_minutes := Float.mul fl travel_time_hours 60 in
      let total_time_minutes :=
        Float.add fl travel_time_minutes total_stop_delay_minutes in
      let name := Some (Stop.name nearest_stop) in
      match Float.int fl total_time_minutes with
      | None => Some (mkBusInfo None "error" name (Some stops_between))
      | Some minutes =>
          let eta := Z.max 1 minutes in
          if decide (eta ≤ 2)%Z then
            Some (mkBusInfo (Some eta) "arriving_soon" name (Some stops_between))
          else if decide (eta ≤ 10)%Z then
            Some (mkBusInfo (Some eta) "catchable" name (Some stops_between))
          else if decide (eta ≤ 30)%Z then
            Some (mkBusInfo (Some eta) "far" name (Some stops_between))
          else Some (mkBusInfo None "no_route" name (Some stops_between))
      end
  end.

(** Lines 405-567: the body of the loop over [matching_routes] up to the
    pickup ETA, for the route's first bus. *)
Definition homepage_eta (now : Z) (route : BusRoute.t) (bus : Bus.t)
    (stops_objs : list Stop.t) (pickup_idx : nat) : option BusInfo :=
  let bus_lat := Bus.current_lat bus in
  let bus_lng := Bus.current_lng bus in
  let is_stale :=
    match Bus.updated_at bus with
    | Some updated_at => bool_decide (5 * 60 < now - updated_at)%Z
    | None => false
    end in
  match bus_lat, bus_lng, is_stale with
  | Some bus_lat, Some bus_lng, false =>
      match FpBusRoute.get_stop_graph fl route with
      | None => Some (mkBusInfo None "error" None (Some 0%Z))
      | Some graph =>
          if decide (graph = ∅) then
            Some (mkBusInfo None "error" None (Some 0%Z))
          else
            match FpStop.nearest_index fl stops_objs bus_lat bus_lng with
            | None => Some (mkBusInfo None "error" None (Some 0%Z))
            | Some nearest_stop_idx =>
                match stops_objs !! nearest_stop_idx, stops_objs !! pickup_idx with
                | Some nearest_stop, Some pickup =>
                    let '(dist_to_nearest, is_road) :=
                      get_road_distance_with_fallback bus_lat bus_lng
                        (Stop.latitude nearest_stop)
                        (Stop.longitude nearest_stop) in
                    if decide (pickup_idx < nearest_stop_idx)%nat then
                      Some (mkBusInfo None "passed"
                              (Some (Stop.name nearest_stop)) (Some 0%Z))
                    else
                      eta_to_pickup graph stops_objs bus_lat bus_lng
                        dist_to_nearest nearest_stop nearest_stop_idx
                        pickup_idx pickup
                | Some nearest_stop, None =>
                    Some (mkBusInfo None "error"
                            (Some (Stop.name nearest_stop)) (Some 0%Z))
                | None, _ => Some (mkBusInfo None "error" None (Some 0%Z))
                end
            end
      end
  | _, _, _ => Some (mkBusInfo None "no_location" None None)
  end.
End Ops.
End FpViews.

(* ===================================================================== *)
(** * Sessions over time *)
(* ===================================================================== *)

Module Session.
Import LocationConsumer.

(** What happens to the database and the clock between two messages of one
    connection: the other connections and views, and the passing of time. *)
Definition Env : Type := Db.t -> Z -> Db.t * Z.

Definition interleave (env : Env) : M unit :=
  fun w => let '(d, t) := env (db w) (now w) in (tt, mkWorld d t (log w)).

(** A connection receiving messages one after the other. *)
Fixpoint run (self : t) (steps : list (Env * TextData)) : M t :=
  match steps with
  | [] => mret self
  | (env, text_data) :: rest =>
      interleave env;;
      self' ← receive self text_data;
      run self' rest
  end.

(** The fix of a message that [receive] hands to [_save_bus_location] and
    that is reported as saved. *)
Definition accepts (self : t) (text_data : TextData) (w : World)
    : option (R * R) :=
  match text_data with
  | json_object type_ (Some lat) (Some lng) =>
      if bool_decide (type_ = Some "location") && is_driver self
         && fst (_save_bus_location (bus_id self) lat lng (now w) (db w))
      then Some (lat, lng) else None
  | _ => None
  end.

(** The accepted fixes of a run, in order. *)
Fixpoint accepted (self : t) (steps : list (Env * TextData)) (w : World)
    : list (R * R) :=
  match steps with
  | [] => []
  | (env, text_data) :: rest =>
      let w1 := (interleave env w).2 in
      let '(self', w2) := receive self text_data w1 in
      option_list (accepts self text_data w1) ++ accepted self' rest w2
  end.

Definition connected : Event :=
  tracking_status "connected" "Driver started tracking".

(** What a session whose counter stands at [n] is expected to publish for
    the accepted fixes: the [k]-th of them numbered [n + k], announced by
    [connected] when it is the first of the session. *)
Fixpoint broadcast_from (group : string) (n : Z) (fixes : list (R * R))
    : list Action :=
  match fixes with
  | [] => []
  | (lat, lng) :: rest =>
      (if bool_decide (n = 0)%Z then [group_send group connected] else [])
      ++ group_send group (location_update lat lng false (n + 1))
      :: broadcast_from group (n + 1) rest
  end.

(** The [location_update] events of a log that went to [group], in order. *)
Definition updates_published (group : string) (actions : list Action)
    : list Event :=
  omap (fun a =>
          match a with
          | group_send g (location_update lat lng h sequence) =>
              if bool_decide (g = group)
              then Some (location_update lat lng h sequence) else None
          | _ => None
          end) actions.

(** The [location_update] events of a log that were written to the
    connection's own socket, in order. *)
Definition updates_sent (actions : list Action) : list Event :=
  omap (fun a =>
          match a with
          | send (location_update lat lng h sequence) =>
              Some (location_update lat lng h sequence)
          | _ => None
          end) actions.
End Session.

(* ===================================================================== *)
(** * Chat: who a driver last heard from *)
(* ===================================================================== *)

Module ChatSpec.
(** [m] was sent to [user_id] by somebody else. *)
Definition from_another (user_id : nat) (m : Message.t) : Prop :=
  Message.recipient m = user_id /\ Message.sender m <> user_id.

(** [contact] sent the most recent of the messages that [user_id] received
    from somebody else. *)
Definition last_contact (user_id : nat) (d : Db.t) (contact : nat) : Prop :=
  exists m,
    In m (Db.messages d) /\ from_another user_id m /\
    Message.sender m = contact /\
    forall m', In m' (Db.messages d) -> from_another user_id m' ->
               (Message.created_at m' <= Message.created_at m)%Z.

(** The account of the driver assigned to bus [bus_id]. *)
Definition driver_account_of_bus (bus_id : nat) (d : Db.t) : option nat :=
  bus ← Db.get_bus bus_id d;
  driver ← Db.get_driver (Bus.driver bus) d;
  user ← Db.get_user (Driver.user driver) d;
  Some (Driver.user driver).
End ChatSpec.

(* ===================================================================== *)
(** * Route graphs: what the design asks of [get_stop_graph] *)
(* ===================================================================== *)

Module RouteGraphSpec.
Local Open Scope R_scope.

Definition stop_id (rs : RouteStop.t) : nat := Stop.id (RouteStop.stop rs).

(** The weight of the edge out of [rs]: the stored distance to the next stop
    when there is one and it is not zero, else the haversine distance
    between the two stops. *)
Definition weight (rs next_rs : RouteStop.t) : R :=
  let between :=
    BusRoute._calculate_distance
      (Stop.latitude (RouteStop.stop rs)) (Stop.longitude (RouteStop.stop rs))
      (Stop.latitude (RouteStop.stop next_rs))
      (Stop.longitude (RouteStop.stop next_rs)) in
  match RouteStop.distance_to_next_m rs with
  | Some stored => if bool_decide (stored <> 0) then stored else between
  | None => between
  end.

(** A directed, weighted edge [(from, to, distance)]. *)
Definition edge : Type := nat * nat * R.


(** One edge per pair of consecutive stops, in route order. *)
Definition forward_edges (stops_list : list RouteStop.t) : list edge :=
  zip_with (fun rs next_rs => (stop_id rs, stop_id next_rs, weight rs next_rs))
    stops_list (tail stops_list).

(** The adjacency list left under the key of [rs], the stop at index [i]. *)
Definition out_edges (stops_list : list RouteStop.t) (i : nat)
    (rs : RouteStop.t) : list (nat * R) :=
  match stops_list !! S i with
  | Some next_rs => [(stop_id next_rs, weight rs next_rs)]
  | None => []
  end.

(** The adjacency mapping, entry by entry in route order. *)
Definition entries (stops_list : list RouteStop.t)
    : list (nat * list (nat * R)) :=
  imap (fun i rs => (stop_id rs, out_edges stops_list i rs)) stops_list.
End RouteGraphSpec.

(* ===================================================================== *)
(** * Pickup ETA: the formula of the design *)
(* ===================================================================== *)

Module EtaSpec.
Local Open Scope R_scope.

(** [stopsBetween = max(0, pickupIdx - nearestIdx)]. *)
Definition stops_between (nearest_idx pickup_idx : nat) : Z :=
  Z.max 0 (Z.of_nat pickup_idx - Z.of_nat nearest_idx).

(** Travel time at 25 km/h, in minutes, plus one minute of dwell per stop
    between. *)
Definition total_minutes (total_distance_km : R) (stops : Z) : R :=
  total_distance_km / 25 * 60 + IZR stops.

(** The ETA with the total truncated to whole minutes. *)
Definition eta_truncated (total_distance_km : R) (stops : Z) : Z :=
  Z.max 1 (Py.int (total_minutes total_distance_km stops)).


Section Collaborators.
Variable dijkstra : Graph -> nat -> nat -> option R * list nat.
Variable get_road_distance_with_fallback : R -> R -> R -> R -> R * bool.

(** The distance the ETA is computed from: the road distance to the pickup
    when the nearest stop is the pickup, else the road distance to the
    nearest stop plus the shortest path from there to the pickup. *)
Definition total_distance (graph : Graph) (bus_lat bus_lng : R)
    (nearest pickup : Stop.t) (total_distance_km : R) : Prop :=
  (Stop.id nearest = Stop.id pickup /\
   total_distance_km
   = (get_road_distance_with_fallback bus_lat bus_lng
        (Stop.latitude pickup) (Stop.longitude pickup)).1)
  \/
  (Stop.id nearest <> Stop.id pickup /\
   exists meters path,
     dijkstra graph (Stop.id nearest) (Stop.id pickup) = (Some meters, path) /\
     0 <= meters /\
     total_distance_km
     = (get_road_distance_with_fallback bus_lat bus_lng
          (Stop.latitude nearest) (Stop.longitude nearest)).1
       + meters / 1000).
End Collaborators.
End EtaSpec.

(* ===================================================================== *)
(** * Nearest stop: first minimum of a key *)
(* ===================================================================== *)

Module NearestSpec.
(** [best] is the first minimum of [key] over the indices below [bound]. *)
Definition first_minimum (key : nat -> R) (bound best : nat) : Prop :=
  (best < bound)%nat /\
  (forall j, (j < bound)%nat -> (key best <= key j)%R) /\
  (forall j, (j < best)%nat -> (key best < key j)%R).
End NearestSpec.

(* ===================================================================== *)
(** * What a location update may touch *)
(* ===================================================================== *)

Module FrameSpec.
(** A bus row after an update of bus [bus_id]: rows of other buses are as
    they were; no row changes its key, its driver, its route or its
    passed-stop counter. *)
Definition bus_kept (bus_id : nat) (row row' : Bus.t) : Prop :=
  (Bus.id row <> bus_id -> row' = row) /\
  Bus.id row' = Bus.id row /\
  Bus.driver row' = Bus.driver row /\
  Bus.route row' = Bus.route row /\
  Bus.eta_passed_counter row' = Bus.eta_passed_counter row.

(** A driver row after an update mirrored onto driver [driver_id]. *)
Definition driver_kept (driver_id : nat) (row row' : Driver.t) : Prop :=
  (Driver.id row <> driver_id -> row' = row) /\
  Driver.id row' = Driver.id row /\
  Driver.user row' = Driver.user row.

(** The tables of [d'] against those of [d]. *)
Definition kept (bus_id driver_id : nat) (d d' : Db.t) : Prop :=
  Db.users d' = Db.users d /\
  Db.routes d' = Db.routes d /\
  Db.messages d' = Db.messages d /\
  Forall2 (bus_kept bus_id) (Db.buses d) (Db.buses d') /\
  Forall2 (driver_kept driver_id) (Db.drivers d) (Db.drivers d').
End FrameSpec.

(* ===================================================================== *)
(** * How the homepage pairs ETA and status *)
(* ===================================================================== *)

Module HomepageSpec.
(** An entry of [buses_info]: an ETA is between 1 and 30 minutes and fixes
    the status; an entry without ETA has one of the four other statuses. *)
Definition classified (info : Views.BusInfo) : Prop :=
  match Views.eta info with
  | Some eta =>
      (1 <= eta <= 30)%Z /\
      Views.status info
      = (if decide (eta <= 2)%Z then "arriving_soon"
         else if decide (eta <= 10)%Z then "catchable" else "far")
  | None => In (Views.status info) ["no_location"; "error"; "passed"; "no_route"]
  end.
End HomepageSpec.

(* ===================================================================== *)
(** * The channel layer, as far as the chat relies on it *)
(* ===================================================================== *)

Module ChannelSpec.
(** The groups a chat message from [sid] to [recipient] is published to. *)
Definition fan_out (sid recipient : nat) (sender_is_driver : bool)
    : list string :=
  ["user_" +:+ pretty recipient;
   "chat_user_" +:+ pretty recipient +:+ "_driver_" +:+ pretty sid]
  ++ (if decide (recipient = sid) then [] else ["driver_" +:+ pretty recipient])
  ++ (if sender_is_driver then ["driver_" +:+ pretty sid]
      else ["user_" +:+ pretty sid;
            "chat_user_" +:+ pretty sid +:+ "_driver_" +:+ pretty recipient]).

(** The actions a handler added to the log. *)
Definition appended (w w' : World) : list Action :=
  drop (length (log w)) (log w').

(** The groups [channel] is in after [actions]: [group_add] enters a group,
    [group_discard] leaves it. *)
Definition joined (channel : string) (actions : list Action) : list string :=
  foldl (fun groups a =>
           match a with
           | group_add group c =>
               if bool_decide (c = channel) then groups ++ [group] else groups
           | group_discard group c =>
               if bool_decide (c = channel)
               then List.filter (fun g => negb (String.eqb g group)) groups
               else groups
           | _ => groups
           end) [] actions.

(** The events the channel layer hands to a channel that is in [groups]:
    one copy for every publication to one of its groups. *)
Definition delivered (groups : list string) (actions : list Action)
    : list Event :=
  omap (fun a =>
          match a with
          | group_send group event =>
              if bool_decide (group ∈ groups) then Some event else None
          | _ => None
          end) actions.
End ChannelSpec.

(* ===================================================================== *)
(** * Conversations *)
(* ===================================================================== *)

Module ConversationSpec.
(** [m] went from one of the accounts [a] and [b] to the other. *)
Definition exchanged (a b : nat) (m : Message.t) : Prop :=
  Message.sender m = a /\ Message.recipient m = b \/
  Message.sender m = b /\ Message.recipient m = a.
End ConversationSpec.

(* ===================================================================== *)
(** * The haversine formula *)
(* ===================================================================== *)

(** The formula as the design document names it, stated independently of
    the code: for two points with latitudes [phi1], [phi2] and longitudes
    [lambda1], [lambda2] in radians,
    [a = hav(phi2 - phi1) + cos phi1 * cos phi2 * hav(lambda2 - lambda1)]
    with [hav theta = sin^2 (theta / 2)], and the distance is
    [radius * 2 * atan2 (sqrt a) (sqrt (1 - a))].  Evaluated with the float
    operations [fl]; [None] where the evaluation raises. *)
Module HaversineSpec.
Section Ops.
Variable fl : Float.ops.

(** [hav theta], for an angle given in degrees. *)
Definition hav (degrees : R) : option R :=
  half_sine ← Float.sin fl (Float.div fl (Float.radians fl degrees) 2);
  Some (Float.pow2 fl half_sine).

Definition a_term (lat1 lon1 lat2 lon2 : R) : option R :=
  hav_lat ← hav (Float.sub fl lat2 lat1);
  cos1 ← Float.cos fl (Float.radians fl lat1);
  cos2 ← Float.cos fl (Float.radians fl lat2);
  hav_lon ← hav (Float.sub fl lon2 lon1);
  Some (Float.add fl hav_lat (Float.mul fl (Float.mul fl cos1 cos2) hav_lon)).

Definition angle (a : R) : option R :=
  root ← Float.sqrt fl a;
  coroot ← Float.sqrt fl (Float.sub fl 1 a);
  Some (Float.mul fl 2 (Float.atan2 fl root coroot)).

Definition distance (radius lat1 lon1 lat2 lon2 : R) : option R :=
  a ← a_term lat1 lon1 lat2 lon2;
  c ← angle a;
  Some (Float.mul fl radius c).

(** Earth radius 6371 km. *)
Definition meters : R -> R -> R -> R -> option R := distance 6371000.
Definition kilometers : R -> R -> R -> R -> option R := distance 6371.
End Ops.
End HaversineSpec.

(* ===================================================================== *)
(** * Route graphs over the float operations *)
(* ===================================================================== *)

(** The path graph of a list of stops under a given weight of its steps. *)
Module PathGraphSpec.
Section Weights.
Variable weight : RouteStop.t -> RouteStop.t -> R.

Definition forward_edges (stops_list : list RouteStop.t)
    : list RouteGraphSpec.edge :=
  zip_with
    (fun rs next_rs =>
       (RouteGraphSpec.stop_id rs, RouteGraphSpec.stop_id next_rs,
        weight rs next_rs))
    stops_list (tail stops_list).

Definition out_edges (stops_list : list RouteStop.t) (i : nat)
    (rs : RouteStop.t) : list (nat * R) :=
  match stops_list !! S i with
  | Some next_rs => [(RouteGraphSpec.stop_id next_rs, weight rs next_rs)]
  | None => []
  end.

Definition entries (stops_list : list RouteStop.t)
    : list (nat * list (nat * R)) :=
  imap (fun i rs => (RouteGraphSpec.stop_id rs, out_edges stops_list i rs))
    stops_list.
End Weights.
End PathGraphSpec.

Module FpRouteGraphSpec.
Section Ops.
Variable fl : Float.ops.

(** The weight the design gives the edge out of [rs]: the stored distance
    to the next stop when there is one and it is not zero, else the
    haversine distance in meters between the two stops; [None] when that
    distance cannot be computed. *)
Definition weight (rs next_rs : RouteStop.t) : option R :=
  let between :=
    HaversineSpec.meters fl
      (Stop.latitude (RouteStop.stop rs)) (Stop.longitude (RouteStop.stop rs))
      (Stop.latitude (RouteStop.stop next_rs))
      (Stop.longitude (RouteStop.stop next_rs)) in
  match RouteStop.distance_to_next_m rs with
  | Some stored => if bool_decide (stored <> 0%R) then Some stored else between
  | None => between
  end.

(** [e] is the edge of the step from [step.1] to [step.2]. *)
Definition is_forward_edge (e : RouteGraphSpec.edge)
    (step : RouteStop.t * RouteStop.t) : Prop :=
  e.1.1 = RouteGraphSpec.stop_id step.1 /\
  e.1.2 = RouteGraphSpec.stop_id step.2 /\
  weight step.1 step.2 = Some e.2.

(** [es] has one edge per pair of consecutive stops, in route order. *)
Definition forward_path (stops_list : list RouteStop.t)
    (es : list RouteGraphSpec.edge) : Prop :=
  Forall2 is_forward_edge es (zip stops_list (tail stops_list)).

(** A weight is missing for some pair of consecutive stops. *)
Definition weight_missing (stops_list : list RouteStop.t) : Prop :=
  exists i rs next_rs,
    stops_list !! i = Some rs /\ stops_list !! S i = Some next_rs /\
    weight rs next_rs = None.
End Ops.
End FpRouteGraphSpec.

(* ===================================================================== *)
(** * Pickup ETA over the float operations *)
(* ===================================================================== *)

Module FpEtaSpec.
Section Ops.
Variable fl : Float.ops.

(** The dwell delay: [stopsBetween * 60] seconds, in minutes. *)
Definition dwell_minutes (stops : Z) : R :=
  Float.div fl (IZR (stops * 60)) 60.

(** Total minutes: the travel time at 25 km/h, converted to minutes, plus
    the dwell delay. *)
Definition total_minutes (total_distance_km : R) (stops : Z) : R :=
  Float.add fl (Float.mul fl (Float.div fl total_distance_km 25) 60)
    (dwell_minutes stops).

Section Collaborators.
Variable dijkstra : Graph -> nat -> nat -> option R * list nat.
Variable get_road_distance_with_fallback : R -> R -> R -> R -> R * bool.

(** The distance the ETA is computed from: the road distance to the pickup
    when the nearest stop is the pickup, else the road distance to the
    nearest stop plus the length in km of the shortest path from there to
    the pickup, which has to be finite and not negative. *)
Definition total_distance (graph : Graph) (bus_lat bus_lng : R)
    (nearest pickup : Stop.t) (total_distance_km : R) : Prop :=
  (Stop.id nearest = Stop.id pickup /\
   total_distance_km
   = (get_road_distance_with_fallback bus_lat bus_lng
        (Stop.latitude pickup) (Stop.longitude pickup)).1)
  \/
  (Stop.id nearest <> Stop.id pickup /\
   exists meters path,
     dijkstra graph (Stop.id nearest) (Stop.id pickup) = (Some meters, path) /\
     Float.le fl 0 meters = true /\
     total_distance_km
     = Float.add fl
         (get_road_distance_with_fallback bus_lat bus_lng
            (Stop.latitude nearest) (Stop.longitude nearest)).1
         (Float.div fl meters 1000)).

(** No finite, non-negative path leads from the nearest stop to the pickup. *)
Definition no_path (graph : Graph) (nearest pickup : Stop.t) : Prop :=
  Stop.id nearest <> Stop.id pickup /\
  match (dijkstra graph (Stop.id nearest) (Stop.id pickup)).1 with
  | Some meters => Float.le fl 0 meters = false
  | None => True
  end.
End Collaborators.
End Ops.
End FpEtaSpec.

(* ===================================================================== *)
(** * Nearest stop over the float operations *)
(* ===================================================================== *)

Module FpNearestSpec.
Section Ops.
Variable fl : Float.ops.

(** The comparisons among the keys below [bound] are those of the real
    numbers: no key is NaN. *)
Definition ordered (key : nat -> option R) (bound : nat) : Prop :=
  forall i j x y, (i < bound)%nat -> (j < bound)%nat ->
    key i = Some x -> key j = Some y ->
    Float.lt fl x y = bool_decide (x < y)%R.

(** [best] is where a scan of the indices below [bound] that moves to an
    index only for a key [<] the one it holds comes to rest: no later key
    is [<] the key of [best]. *)
Definition resting_place (key : nat -> option R) (bound best : nat) : Prop :=
  (best < bound)%nat /\
  exists best_key,
    key best = Some best_key /\
    forall j val, (best < j < bound)%nat -> key j = Some val ->
      Float.lt fl val best_key = false.

(** [best] is the first minimum of [key] over the indices below [bound]. *)
Definition first_minimum (key : nat -> option R) (bound best : nat) : Prop :=
  exists best_key,
    key best = Some best_key /\
    forall j val, (j < bound)%nat -> key j = Some val ->
      (best_key <= val)%R /\ ((j < best)%nat -> (best_key < val)%R).
End Ops.
End FpNearestSpec.

(* ===================================================================== *)
(** * A small deployment used for the concrete checks *)
(* ===================================================================== *)

Module Example.
Local Open Scope R_scope.

Definition driver_account : User.t := User.mk 1 "ram".
Definition passenger_account : User.t := User.mk 2 "sita".

Definition ratnapark : Stop.t := Stop.mk 1 "Ratnapark" 27.70 85.30.
Definition kalanki : Stop.t := Stop.mk 2 "Kalanki" 27.71 85.31.
Definition thankot : Stop.t := Stop.mk 3 "Thankot" 27.72 85.32.

Definition outbound : BusRoute.t :=
  BusRoute.mk 1 "Ratnapark-Thankot"
    [RouteStop.mk ratnapark 0 (Some 1500);
     RouteStop.mk kalanki 1 None;
     RouteStop.mk thankot 2 None]
    (Some 2%nat).

Definition inbound : BusRoute.t :=
  BusRoute.mk 2 "Thankot-Ratnapark"
    [RouteStop.mk thankot 0 None;
     RouteStop.mk kalanki 1 (Some 0);
     RouteStop.mk ratnapark 2 None]
    (Some 1%nat).

(** The driver's row, with the position mirrored from the bus. *)
Definition driver_at (lat lng : option R) : Driver.t := Driver.mk 1 1 lat lng.

(** Bus 1 on the outbound route, last seen at [(lat, lng)], with the given
    nearest-stop index and passed-stop counter. *)
Definition bus_at (lat lng : option R) (nearest : option Z) (passed : Z) : Bus.t :=
  Bus.mk 1 1 1 lat lng None None passed nearest None.

Definition database (bus : Bus.t) (messages : list Message.t) : Db.t :=
  Db.mk [driver_account; passenger_account]
        [driver_at (Bus.current_lat bus) (Bus.current_lng bus)]
        [bus] [outbound; inbound] messages.

(** Nobody is tracking yet. *)
Definition idle : Db.t := database (bus_at None None None 0) [].

Definition world (d : Db.t) : World := mkWorld d 1000 [].

(** A fix as the driver's client sends it. *)
Definition fix_at (lat lng : R) : LocationConsumer.TextData :=
  LocationConsumer.json_object (Some "location") (Some lat) (Some lng).

(** Nothing else touches the database between two messages. *)
Definition quiet : Session.Env := fun d t => (d, t).

(** The connections of the driver and of a passenger to bus 1. *)
Definition driver_session (d : Db.t) : LocationConsumer.t :=
  (LocationConsumer.connect "driver-channel" (Some driver_account) 1 (world d)).1.
Definition passenger_session (d : Db.t) : LocationConsumer.t :=
  (LocationConsumer.connect "passenger-channel" (Some passenger_account) 1
     (world d)).1.

(** The driver's browser posting to a view. *)
Definition driver_post (lat lng : option R) : Views.Request :=
  Views.mkRequest "POST" (Some driver_account) lat lng.

(** A passenger wrote to the driver, then the driver left a note to self. *)
Definition from_passenger : Message.t := Message.mk 2 1 (Some 1%nat) "where are you?" 10 false.
Definition note_to_self : Message.t := Message.mk 1 1 None "fuel at 5" 20 false.
Definition inbox : Db.t :=
  database (bus_at None None None 0) [from_passenger; note_to_self].

Definition driver_chat : ChatConsumer.t :=
  ChatConsumer.mk "driver-chat" (Some driver_account) None.
Definition passenger_chat : ChatConsumer.t :=
  ChatConsumer.mk "passenger-chat" (Some passenger_account) None.

(** Stand-ins for the two collaborators of the homepage search: a routing
    service that falls back to the straight-line estimate, and a shortest
    path of 1500 meters from Kalanki to Thankot. *)
Definition straight_line (lat1 lon1 lat2 lon2 : R) : R * bool :=
  (Geo.haversine lat1 lon1 lat2 lon2, false).
Definition path_1500 (graph : Graph) (source target : nat) : option R * list nat :=
  (Some 1500, [source; target]).
End Example.

(* ===================================================================== *)
(** * Facts about Python numbers and the great-circle distance *)
(* ===================================================================== *)

Section Numbers.
Local Open Scope R_scope.

(** [int] of a non-negative number is its floor. *)
Lemma int_between (z : Z) (x : R) :
  0 <= x -> IZR z <= x < IZR z + 1 -> Py.int x = z.
Proof.
  intros Hx [Hlo Hhi]. unfold Py.int. destruct (decide (0 <= x)); [|lra].
  symmetry. apply Int_part_spec. lra.
Qed.

Lemma int_nonneg (x : R) : 0 <= x -> (0 <= Py.int x)%Z.
Proof.
  intros Hx. unfold Py.int. destruct (decide (0 <= x)); [|lra].
  destruct (base_Int_part x) as [_ Hgt].
  assert (-1 < Int_part x)%Z by (apply lt_IZR; lra). lia.
Qed.


Lemma hav_a_same lat lon : Geo.hav_a lat lon lat lon = 0.
Proof.
  unfold Geo.hav_a, Py.radians.
  replace ((lat - lat) * (PI / 180) / 2) with 0 by lra.
  replace ((lon - lon) * (PI / 180) / 2) with 0 by lra.
  rewrite sin_0. unfold Rsqr. lra.
Qed.

Lemma atan2_0_1 : Py.atan2 0 1 = 0.
Proof.
  unfold Py.atan2. destruct (decide (0 < 1)); [|lra].
  replace (0 / 1) with 0 by lra. apply atan_0.
Qed.

Lemma great_circle_same radius lat lon :
  Geo.great_circle radius lat lon lat lon = 0.
Proof.
  unfold Geo.great_circle. rewrite hav_a_same, Rminus_0_r, sqrt_0, sqrt_1, atan2_0_1.
  lra.
Qed.

Lemma cos_product s d : cos (s - d) * cos (s + d) = (cos s)² - (sin d)².
Proof.
  rewrite cos_minus, cos_plus.
  pose proof (sin2_cos2 s) as Hs. pose proof (sin2_cos2 d) as Hd.
  unfold Rsqr in *. nra.
Qed.

Lemma hav_a_convex lat1 lon1 lat2 lon2 :
  let s := (Py.radians lat1 + Py.radians lat2) / 2 in
  let d := Py.radians (lat2 - lat1) / 2 in
  let t := (sin (Py.radians (lon2 - lon1) / 2))² in
  Geo.hav_a lat1 lon1 lat2 lon2 = (1 - t) * (sin d)² + t * (cos s)².
Proof.
  intros s d t. unfold Geo.hav_a.
  replace (Py.radians lat1) with (s - d) by (unfold s, d, Py.radians; lra).
  replace (Py.radians lat2) with (s + d) by (unfold s, d, Py.radians; lra).
  rewrite cos_product. fold d t. unfold Rsqr. ring.
Qed.

Lemma Rsqr_sin_bounds x : 0 <= (sin x)² <= 1.
Proof.
  pose proof (sin2_cos2 x). pose proof (Rle_0_sqr (sin x)).
  pose proof (Rle_0_sqr (cos x)). lra.
Qed.

Lemma Rsqr_cos_bounds x : 0 <= (cos x)² <= 1.
Proof.
  pose proof (sin2_cos2 x). pose proof (Rle_0_sqr (sin x)).
  pose proof (Rle_0_sqr (cos x)). lra.
Qed.

Lemma hav_a_bounds lat1 lon1 lat2 lon2 :
  0 <= Geo.hav_a lat1 lon1 lat2 lon2 <= 1.
Proof.
  rewrite hav_a_convex. cbv zeta.
  pose proof (Rsqr_sin_bounds (Py.radians (lon2 - lon1) / 2)).
  pose proof (Rsqr_sin_bounds (Py.radians (lat2 - lat1) / 2)).
  pose proof (Rsqr_cos_bounds ((Py.radians lat1 + Py.radians lat2) / 2)).
  nra.
Qed.

Lemma atan_le x y : x <= y -> atan x <= atan y.
Proof.
  intros [Hlt| ->]; [left; by apply atan_increasing|right; reflexivity].
Qed.

(** [atan2] of the two square roots is at least any angle whose squared sine
    does not exceed [a]. *)
Lemma atan2_sqrt_lower a theta :
  0 <= theta <= PI / 2 -> (sin theta)² <= a -> a <= 1 ->
  theta <= Py.atan2 (sqrt a) (sqrt (1 - a)).
Proof.
  intros [Hlo Hhi] Hsin Ha.
  pose proof PI2_RGT_0 as Hpi2.
  pose proof (Rle_0_sqr (sin theta)) as Hsq.
  assert (0 <= sin theta) as Hs0 by (apply sin_ge_0; lra).
  assert (sin theta <= sqrt a) as Hsa.
  { rewrite <- (sqrt_Rsqr (sin theta)) by done. by apply sqrt_le_1_alt. }
  unfold Py.atan2.
  destruct (decide (0 < sqrt (1 - a))) as [Hpos|Hzero].
  - assert (theta < PI / 2) as Hlt.
    { destruct Hhi as [Hhi|Hhi]; [done|]. exfalso.
      rewrite Hhi, sin_PI2, Rsqr_1 in Hsin.
      assert (a = 1) as -> by lra.
      rewrite Rminus_diag, sqrt_0 in Hpos. lra. }
    assert (0 < cos theta) as Hc0 by (apply cos_gt_0; lra).
    assert (sqrt (1 - a) <= cos theta) as Hca.
    { rewrite <- (sqrt_Rsqr (cos theta)) by lra. apply sqrt_le_1_alt.
      pose proof (sin2_cos2 theta). lra. }
    rewrite <- (atan_tan theta) at 1 by lra.
    apply atan_le. unfold tan.
    apply Rle_trans with (sqrt a / cos theta).
    + apply Rmult_le_compat_r; [|done]. left. by apply Rinv_0_lt_compat.
    + apply Rmult_le_compat_l; [lra|]. by apply Rinv_le_contravar.
  - assert (sqrt (1 - a) = 0) as Hx.
    { pose proof (sqrt_pos (1 - a)). lra. }
    rewrite Hx. destruct (decide (0 < 0)); [lra|].
    assert (a = 1) as ->.
    { apply sqrt_eq_0 in Hx; lra. }
    rewrite sqrt_1. destruct (decide (0 < 1)); lra.
Qed.

(** Two points at least [|Δlat|] radians of latitude apart are at least
    [radius * |Δlat|] apart on the sphere. *)
Lemma great_circle_lower_bound radius lat1 lon1 lat2 lon2 :
  0 <= radius -> -90 <= lat1 <= 90 -> -90 <= lat2 <= 90 ->
  radius * Rabs (Py.radians (lat2 - lat1))
  <= Geo.great_circle radius lat1 lon1 lat2 lon2.
Proof.
  intros Hr H1 H2. pose proof PI_RGT_0 as Hpi.
  unfold Geo.great_circle.
  apply Rmult_le_compat_l; [done|].
  set (delta := Py.radians (lat2 - lat1)).
  assert (Rabs delta / 2 <= Py.atan2 (sqrt (Geo.hav_a lat1 lon1 lat2 lon2))
                              (sqrt (1 - Geo.hav_a lat1 lon1 lat2 lon2)));
    [|lra].
  apply atan2_sqrt_lower.
  - split; [pose proof (Rabs_pos delta); lra|].
    unfold delta, Py.radians. unfold Rabs. destruct (Rcase_abs _); nra.
  - unfold Geo.hav_a. fold delta.
    assert ((sin (Rabs delta / 2))² = (sin (delta / 2))²) as ->.
    { unfold Rabs. destruct (Rcase_abs delta); [|done].
      replace (- delta / 2) with (- (delta / 2)) by lra.
      rewrite sin_neg. unfold Rsqr. ring. }
    assert (0 <= cos (Py.radians lat1)) by
      (apply cos_ge_0; unfold Py.radians; nra).
    assert (0 <= cos (Py.radians lat2)) by
      (apply cos_ge_0; unfold Py.radians; nra).
    pose proof (Rle_0_sqr (sin (Py.radians (lon2 - lon1) / 2))).
    assert (0 <= cos (Py.radians lat1) * cos (Py.radians lat2) *
                 (sin (Py.radians (lon2 - lon1) / 2))²) by
      (apply Rmult_le_pos; [apply Rmult_le_pos|]; done).
    lra.
  - apply hav_a_bounds.
Qed.


(** Stops at different latitudes are a positive distance apart. *)
Lemma haversine_pos lat1 lon1 lat2 lon2 :
  -90 <= lat1 <= 90 -> -90 <= lat2 <= 90 -> lat1 <> lat2 ->
  0 < Geo.haversine lat1 lon1 lat2 lon2.
Proof.
  intros H1 H2 Hdiff. unfold Geo.haversine.
  eapply Rlt_le_trans; [|apply great_circle_lower_bound; lra].
  apply Rmult_lt_0_compat; [lra|]. apply Rabs_pos_lt.
  unfold Py.radians. pose proof PI_RGT_0. nra.
Qed.

Lemma haversine_same lat lon : Geo.haversine lat lon lat lon = 0.
Proof. apply great_circle_same. Qed.
End Numbers.

(* ===================================================================== *)
(** * The float embedding: code against formula, and exact arithmetic *)
(* ===================================================================== *)

Section CodeAgainstFormula.
Variable fl : Float.ops.

(** Each copy of the distance computation in the code evaluates the
    haversine formula. *)
Lemma great_circle_is_haversine radius lat1 lon1 lat2 lon2 :
  FpGeo.great_circle fl radius lat1 lon1 lat2 lon2
  = HaversineSpec.distance fl radius lat1 lon1 lat2 lon2.
Proof.
  unfold FpGeo.great_circle, HaversineSpec.distance, HaversineSpec.a_term,
    HaversineSpec.angle, HaversineSpec.hav.
  destruct (Float.sin fl (Float.div fl (Float.radians fl (Float.sub fl lat2 lat1)) 2))
    as [sin_dphi|]; [|done]. cbn.
  destruct (Float.cos fl (Float.radians fl lat1)) as [cos_phi1|]; [|done]. cbn.
  destruct (Float.cos fl (Float.radians fl lat2)) as [cos_phi2|]; [|done]. cbn.
  destruct (Float.sin fl (Float.div fl (Float.radians fl (Float.sub fl lon2 lon1)) 2))
    as [sin_dlambda|]; [|done]. cbn.
  set (a := Float.add fl _ _).
  destruct (Float.sqrt fl a) as [sqrt_a|]; [|done]. cbn.
  by destruct (Float.sqrt fl (Float.sub fl 1 a)) as [sqrt_1_a|].
Qed.

Lemma calculate_distance_is_haversine lat1 lon1 lat2 lon2 :
  FpBusRoute._calculate_distance fl lat1 lon1 lat2 lon2
  = HaversineSpec.meters fl lat1 lon1 lat2 lon2.
Proof. apply great_circle_is_haversine. Qed.

Lemma edge_distance_is_weight rs next_rs :
  FpBusRoute.edge_distance fl rs next_rs = FpRouteGraphSpec.weight fl rs next_rs.
Proof.
  unfold FpBusRoute.edge_distance, FpRouteGraphSpec.weight.
  rewrite calculate_distance_is_haversine.
  destruct (RouteStop.distance_to_next_m rs) as [stored|]; [|done].
  case_decide; case_bool_decide; done.
Qed.
End CodeAgainstFormula.

(** In exact arithmetic no step of the computation raises, and the result is
    the great-circle distance of the exact embedding. *)
Lemma great_circle_exact radius lat1 lon1 lat2 lon2 :
  FpGeo.great_circle Float.exact radius lat1 lon1 lat2 lon2
  = Some (Geo.great_circle radius lat1 lon1 lat2 lon2).
Proof.
  unfold FpGeo.great_circle, Geo.great_circle. cbn.
  pose proof (hav_a_bounds lat1 lon1 lat2 lon2) as [Hlo Hhi].
  unfold Geo.hav_a in *. cbv zeta in *.
  set (a := (_ + _)%R) in *.
  destruct (decide (0 <= a)%R); [|lra]. cbn.
  destruct (decide (0 <= 1 - a)%R); [|lra]. done.
Qed.

Lemma haversine_spec_exact radius lat1 lon1 lat2 lon2 :
  HaversineSpec.distance Float.exact radius lat1 lon1 lat2 lon2
  = Some (Geo.great_circle radius lat1 lon1 lat2 lon2).
Proof. rewrite <- great_circle_is_haversine. apply great_circle_exact. Qed.

Lemma haversine_to_exact stops lat lng i :
  (i < length stops)%nat ->
  FpStop.haversine_to Float.exact stops lat lng i
  = Some (Stop.haversine_to stops lat lng i).
Proof.
  intros Hi. unfold FpStop.haversine_to, Stop.haversine_to.
  destruct (lookup_lt_is_Some_2 stops i Hi) as [s ->].
  apply great_circle_exact.
Qed.

Lemma min_from_exact (fkey : nat -> option R) (key : nat -> R) rest :
  forall best,
    (forall i, In i (best :: rest) -> fkey i = Some (key i)) ->
    FpPy.min_from Float.exact fkey best (key best) rest
    = Some (Py.min_from key best rest).
Proof.
  induction rest as [|i rest IH]; intros best Hkeys; [done|].
  cbn [FpPy.min_from Py.min_from].
  rewrite (Hkeys i) by (right; by left). cbn.
  destruct (decide (key i < key best)%R) as [Hlt|Hge].
  - rewrite bool_decide_true by done. apply IH.
    intros j [<-|Hj]; apply Hkeys; [right; by left|right; by right].
  - rewrite bool_decide_false by done. apply IH.
    intros j [<-|Hj]; apply Hkeys; [by left|right; by right].
Qed.

Lemma min_range_exact (fkey : nat -> option R) (key : nat -> R) n :
  (forall i, (i < n)%nat -> fkey i = Some (key i)) ->
  FpPy.min_range Float.exact n fkey = Py.min_range n key.
Proof.
  intros Hkeys. unfold FpPy.min_range, Py.min_range.
  destruct n as [|n]; [done|]. cbn [seq].
  rewrite (Hkeys 0%nat) by lia. apply min_from_exact.
  intros i [<-|Hi]; [apply Hkeys; lia|].
  apply in_seq in Hi. apply Hkeys. lia.
Qed.

Lemma nearest_index_exact stops lat lng :
  FpStop.nearest_index Float.exact stops lat lng
  = Stop.nearest_index stops lat lng.
Proof.
  apply min_range_exact. intros i Hi. by apply haversine_to_exact.
Qed.

(* ===================================================================== *)
(** * Facts about the ORM layer *)
(* ===================================================================== *)

Section Tables.
Context {A : Type} (key : A -> nat).

(** Rewriting rows without touching their keys commutes with lookup. *)
Lemma find_fmap_key (f : A -> A) (k : nat) (rows : list A) :
  (forall row, key (f row) = key row) ->
  List.find (fun row => Nat.eqb (key row) k) (f <$> rows)
  = f <$> List.find (fun row => Nat.eqb (key row) k) rows.
Proof.
  intros Hkey. induction rows as [|row rows IH]; [done|].
  cbn. rewrite Hkey. destruct (Nat.eqb (key row) k); [done|apply IH].
Qed.

Lemma find_key_eq (k : nat) (rows : list A) (row : A) :
  List.find (fun row => Nat.eqb (key row) k) rows = Some row -> key row = k.
Proof.
  intros H. apply List.find_some in H as [_ H]. by apply Nat.eqb_eq.
Qed.
End Tables.

Lemma bus_copy_id obj row f : Bus.id (Bus.copy obj row f) = Bus.id row.
Proof. by destruct f. Qed.

Lemma bus_copy_driver obj row f : Bus.driver (Bus.copy obj row f) = Bus.driver row.
Proof. by destruct f. Qed.

Lemma bus_copies_id obj fields row :
  Bus.id (foldl (Bus.copy obj) row fields) = Bus.id row.
Proof.
  revert row. induction fields as [|f fields IH]; intros row; [done|].
  cbn. by rewrite IH, bus_copy_id.
Qed.

Lemma bus_copies_driver obj fields row :
  Bus.driver (foldl (Bus.copy obj) row fields) = Bus.driver row.
Proof.
  revert row. induction fields as [|f fields IH]; intros row; [done|].
  cbn. by rewrite IH, bus_copy_driver.
Qed.

Lemma driver_copies_id obj fields row :
  Driver.id (foldl (Driver.copy obj) row fields) = Driver.id row.
Proof.
  revert row. induction fields as [|f fields IH]; intros row; [done|].
  cbn. rewrite IH. by destruct f.
Qed.

Lemma driver_copies_user obj fields row :
  Driver.user (foldl (Driver.copy obj) row fields) = Driver.user row.
Proof.
  revert row. induction fields as [|f fields IH]; intros row; [done|].
  cbn. rewrite IH. by destruct f.
Qed.

(** Reading a bus back after [save]: the row of the saved object carries the
    copied fields, every other row is as it was. *)
Lemma get_bus_save_bus k fields obj d :
  Db.get_bus k (Db.save_bus fields obj d)
  = (fun row => if Nat.eqb (Bus.id row) (Bus.id obj)
                then foldl (Bus.copy obj) row fields else row)
      <$> Db.get_bus k d.
Proof.
  unfold Db.get_bus, Db.save_bus. cbn.
  apply (find_fmap_key Bus.id). intros row.
  destruct (Nat.eqb (Bus.id row) (Bus.id obj)); [apply bus_copies_id|done].
Qed.

Lemma first_bus_of_save_bus k fields obj d :
  Db.first_bus_of k (Db.save_bus fields obj d)
  = (fun row => if Nat.eqb (Bus.id row) (Bus.id obj)
                then foldl (Bus.copy obj) row fields else row)
      <$> Db.first_bus_of k d.
Proof.
  unfold Db.first_bus_of, Db.save_bus. cbn.
  apply (find_fmap_key Bus.driver). intros row.
  destruct (Nat.eqb (Bus.id row) (Bus.id obj)); [apply bus_copies_driver|done].
Qed.

Lemma get_driver_save_driver k fields obj d :
  Db.get_driver k (Db.save_driver fields obj d)
  = (fun row => if Nat.eqb (Driver.id row) (Driver.id obj)
                then foldl (Driver.copy obj) row fields else row)
      <$> Db.get_driver k d.
Proof.
  unfold Db.get_driver, Db.save_driver. cbn.
  apply (find_fmap_key Driver.id). intros row.
  destruct (Nat.eqb (Driver.id row) (Driver.id obj)); [apply driver_copies_id|done].
Qed.

Lemma get_bus_id k d bus : Db.get_bus k d = Some bus -> Bus.id bus = k.
Proof. apply (find_key_eq Bus.id). Qed.

Lemma get_driver_id k d driver :
  Db.get_driver k d = Some driver -> Driver.id driver = k.
Proof. apply (find_key_eq Driver.id). Qed.

(** Saving a bus leaves the other tables alone, and so does saving a driver. *)
Lemma get_driver_save_bus k fields obj d :
  Db.get_driver k (Db.save_bus fields obj d) = Db.get_driver k d.
Proof. done. Qed.

Lemma get_user_save_bus k fields obj d :
  Db.get_user k (Db.save_bus fields obj d) = Db.get_user k d.
Proof. done. Qed.

Lemma get_route_save_bus k fields obj d :
  Db.get_route k (Db.save_bus fields obj d) = Db.get_route k d.
Proof. done. Qed.

Lemma get_bus_save_driver k fields obj d :
  Db.get_bus k (Db.save_driver fields obj d) = Db.get_bus k d.
Proof. done. Qed.

Lemma get_user_save_driver k fields obj d :
  Db.get_user k (Db.save_driver fields obj d) = Db.get_user k d.
Proof. done. Qed.

Lemma get_route_save_driver k fields obj d :
  Db.get_route k (Db.save_driver fields obj d) = Db.get_route k d.
Proof. done. Qed.

(* ===================================================================== *)
(** * LocationConsumer: saving a fix *)
(* ===================================================================== *)

Section SaveBusLocation.
Variables (bus_id : nat) (lat lng : R) (now : Z) (d : Db.t).


(** A fix that passes the filter is stored on the bus, mirrored onto the
    driver, and reported as saved; the passed-stop counter is not written. *)
Lemma save_bus_location_stores bus driver user :
  Db.get_bus bus_id d = Some bus ->
  Db.get_driver (Bus.driver bus) d = Some driver ->
  Db.get_user (Driver.user driver) d = Some user ->
  LocationConsumer.moved_too_little bus lat lng = false ->
  exists d' bus' driver',
    LocationConsumer._save_bus_location bus_id lat lng now d = (true, d') /\
    Db.get_bus bus_id d' = Some bus' /\
    Bus.current_lat bus' = Some lat /\
    Bus.current_lng bus' = Some lng /\
    Bus.updated_at bus' = Some now /\
    Bus.eta_passed_counter bus' = Bus.eta_passed_counter bus /\
    Db.get_driver (Bus.driver bus) d' = Some driver' /\
    Driver.current_lat driver' = Some lat /\
    Driver.current_lng driver' = Some lng.
Proof.
  intros Hbus Hdriver Huser Hmoved.
  pose proof (get_bus_id _ _ _ Hbus) as Hid.
  pose proof (get_driver_id _ _ _ Hdriver) as Hdid.
  unfold LocationConsumer._save_bus_location.
  rewrite Hbus, Hmoved. cbn zeta.
  set (bus1 := Bus.set_updated_at _ _).
  set (d1 := Db.save_bus _ bus1 d).
  assert (Bus.driver bus1 = Bus.driver bus) as -> by done.
  assert (Db.get_driver (Bus.driver bus) d1 = Some driver) as -> by done.
  set (driver1 := Driver.set_current_lng _ _).
  set (d2 := Db.save_driver _ driver1 d1).
  assert (Db.get_user (Driver.user driver1) d2 = Some user) as -> by done.
  assert (Db.get_bus bus_id d2
          = Some (foldl (Bus.copy bus1) bus
                    [Bus.f_current_lat; Bus.f_current_lng; Bus.f_updated_at]))
    as Hrow.
  { unfold d2. rewrite get_bus_save_driver. unfold d1.
    rewrite get_bus_save_bus, Hbus. cbn. by rewrite Nat.eqb_refl. }
  assert (Db.get_driver (Bus.driver bus) d2
          = Some (foldl (Driver.copy driver1) driver
                    [Driver.f_current_lat; Driver.f_current_lng]))
    as Hdrow.
  { unfold d2. rewrite get_driver_save_driver.
    assert (Db.get_driver (Bus.driver bus) d1 = Some driver) as -> by done.
    cbn. by rewrite Nat.eqb_refl. }
  destruct (LocationConsumer.nearest_stop_and_eta bus1 lat lng d2) as [bus2|].
  - eexists _, _, _. split; [reflexivity|].
    rewrite get_bus_save_bus, Hrow, get_driver_save_bus, Hdrow. cbn.
    split; [reflexivity|].
    by destruct (Nat.eqb (Bus.id bus) (Bus.id bus2)).
  - eexists _, _, _. split; [reflexivity|].
    rewrite Hrow, Hdrow. by cbn.
Qed.
End SaveBusLocation.

(* ===================================================================== *)
(** * LocationConsumer: receiving messages *)
(* ===================================================================== *)

(** A location message on a connection that is not the driver's changes
    nothing at all. *)
Lemma receive_location_not_driver self type_ lat lng w :
  LocationConsumer.is_driver self = false ->
  LocationConsumer.receive self (LocationConsumer.json_object type_ lat lng) w
  = (self, w).
Proof.
  intros Hrole. unfold LocationConsumer.receive. rewrite Hrole. cbn.
  by case_bool_decide.
Qed.

(** One [receive]: the session counter moves by one exactly when the message
    carries an accepted fix, and exactly then the fix is published under the
    new number; nothing else reaches the log. *)
Lemma receive_publishes self text_data w :
  exists d',
    LocationConsumer.receive self text_data w
    = (match Session.accepts self text_data w with
       | Some _ =>
           LocationConsumer.set_sequence_number
             (LocationConsumer.sequence_number self + 1) self
       | None => self
       end,
       mkWorld d' (now w)
         (log w ++ Session.broadcast_from (LocationConsumer.group_name self)
                     (LocationConsumer.sequence_number self)
                     (option_list (Session.accepts self text_data w)))).
Proof.
  destruct w as [d t l].
  destruct text_data as [|type_ [lat|] [lng|]]; cbn;
    try (exists d; rewrite ?app_nil_r; repeat case_bool_decide;
         by repeat case_match).
  case_bool_decide as Htype; cbn; [|exists d; by rewrite app_nil_r].
  destruct (LocationConsumer.is_driver self); cbn;
    [|exists d; by rewrite app_nil_r].
  unfold mbind, M_bind, db_call. cbn.
  destruct (LocationConsumer._save_bus_location _ lat lng t d) as [[|] d'];
    cbn; exists d'.
  - repeat case_bool_decide; try lia; cbn; by rewrite <- ?app_assoc.
  - by rewrite app_nil_r.
Qed.

Lemma interleave_log env w : log (Session.interleave env w).2 = log w.
Proof. unfold Session.interleave. by destruct (env _ _). Qed.

Lemma broadcast_from_app group fixes1 : forall n fixes2,
  Session.broadcast_from group n (fixes1 ++ fixes2)
  = Session.broadcast_from group n fixes1
    ++ Session.broadcast_from group (n + Z.of_nat (length fixes1)) fixes2.
Proof.
  induction fixes1 as [|[lat lng] fixes1 IH]; intros n fixes2; cbn.
  - by rewrite Z.add_0_r.
  - rewrite IH, <- !app_assoc. cbn.
    replace (n + Z.of_nat (S (length fixes1)))%Z
      with (n + 1 + Z.of_nat (length fixes1))%Z by lia. done.
Qed.

(** A run publishes the accepted fixes under consecutive numbers. *)
Lemma run_publishes steps : forall self w,
  let fixes := Session.accepted self steps w in
  let result := Session.run self steps w in
  log result.2
  = log w ++ Session.broadcast_from (LocationConsumer.group_name self)
               (LocationConsumer.sequence_number self) fixes
  /\ LocationConsumer.sequence_number result.1
     = (LocationConsumer.sequence_number self + Z.of_nat (length fixes))%Z
  /\ LocationConsumer.group_name result.1 = LocationConsumer.group_name self.
Proof.
  induction steps as [|[env text_data] rest IH]; intros self w;
    cbn [Session.run Session.accepted].
  { cbn. rewrite app_nil_r. repeat split; lia. }
  unfold mbind, M_bind.
  pose proof (interleave_log env w) as Hlog.
  destruct (Session.interleave env w) as [[] w1]. cbn [snd] in *.
  destruct (receive_publishes self text_data w1) as [d' Hstep].
  rewrite Hstep. clear Hstep.
  set (fix1 := Session.accepts self text_data w1).
  set (self' := match fix1 with Some _ => _ | None => self end).
  set (w2 := mkWorld _ _ _).
  destruct (IH self' w2) as (IHlog & IHseq & IHgroup).
  assert (LocationConsumer.group_name self' = LocationConsumer.group_name self)
    as Hgroup by (unfold self'; by destruct fix1).
  assert (LocationConsumer.sequence_number self'
          = (LocationConsumer.sequence_number self
             + Z.of_nat (length (option_list fix1)))%Z) as Hseq.
  { unfold self'. destruct fix1; cbn; lia. }
  cbv zeta. rewrite IHlog, IHseq, IHgroup, Hgroup, Hseq.
  unfold w2. cbn [log]. rewrite Hlog, broadcast_from_app, length_app.
  rewrite <- app_assoc. repeat split; lia.
Qed.

(** The [location_update] events among what a session publishes: the [k]-th
    accepted fix (counting from 0) under the number [n + k + 1]. *)
Lemma updates_published_broadcast group fixes : forall n,
  Session.updates_published group (Session.broadcast_from group n fixes)
  = imap (fun k p => location_update p.1 p.2 false (n + Z.of_nat k + 1)) fixes.
Proof.
  induction fixes as [|[lat lng] fixes IH]; intros n; [done|].
  cbn [Session.broadcast_from]. unfold Session.updates_published in *.
  rewrite omap_app. case_bool_decide; cbn; rewrite bool_decide_true by done.
  all: rewrite IH; cbn; f_equal; [f_equal; lia|].
  all: apply imap_ext; intros k p _; cbn; f_equal; lia.
Qed.

(** What [connect] does. *)
Lemma connect_result channel user bus_id w :
  let driver_flag :=
    match user with
    | Some u => LocationConsumer._is_driver_for_bus (User.id u) bus_id (db w)
    | None => false
    end in
  let group := "bus_" +:+ pretty bus_id in
  LocationConsumer.connect channel user bus_id w
  = (LocationConsumer.mk channel user bus_id group 0 driver_flag,
     mkWorld (db w) (now w)
       (log w ++ [group_add group channel; accept]
        ++ if driver_flag then []
           else match LocationConsumer._get_last_bus_location bus_id (db w) with
                | Some (lat, lng) =>
                    [send (location_update lat lng true (-1));
                     send LocationConsumer.waiting]
                | None => [send LocationConsumer.waiting]
                end)).
Proof.
  destruct w as [d t l]. unfold LocationConsumer.connect.
  unfold mbind, M_bind, emit, db_read, mret, M_ret. cbn.
  destruct user as [u|]; cbn.
  - destruct (LocationConsumer._is_driver_for_bus (User.id u) bus_id d); cbn;
      [by rewrite <- app_assoc|].
    destruct (LocationConsumer._get_last_bus_location bus_id d) as [[lat lng]|];
      cbn; by rewrite <- !app_assoc.
  - destruct (LocationConsumer._get_last_bus_location bus_id d) as [[lat lng]|];
      cbn; by rewrite <- !app_assoc.
Qed.

(* ===================================================================== *)
(** * LocationConsumer: the stated properties *)
(* ===================================================================== *)

(** C9.  A location event received on a connection that is not the driver
    session for the bus is silently discarded: the session, the database
    (every bus and driver row) and the log of channel-layer actions (group
    publications as well as replies on the socket) are all exactly as
    before. *)
Theorem location_from_non_driver_is_discarded self lat lng w :
  LocationConsumer.is_driver self = false ->
  LocationConsumer.receive self
    (LocationConsumer.json_object (Some "location") lat lng) w
  = (self, w).
Proof. apply receive_location_not_driver. Qed.

Lemma location_from_non_driver_is_discarded_witness :
  LocationConsumer.is_driver (Example.passenger_session Example.idle) = false
  /\ LocationConsumer.receive (Example.passenger_session Example.idle)
       (Example.fix_at 27.70 85.30) (Example.world Example.idle)
     = (Example.passenger_session Example.idle, Example.world Example.idle).
Proof.
  split; [reflexivity|].
  apply location_from_non_driver_is_discarded. reflexivity.
Defined.

(** C2.  Within one location session, from [connect] on and whatever else
    happens to the database between its messages: the session publishes to
    the bus's group exactly one [location_update] per accepted fix, the
    [n]-th accepted fix under sequence number [n] (so the numbers start at 1
    and increase by one), the first of them directly preceded by a
    [tracking_status] = connected event; and the only [location_update]
    written to a socket at [connect] is the historical replay for a
    passenger, which carries sequence -1. *)
Theorem session_sequence_numbers channel user bus_id w0 steps :
  let opened := LocationConsumer.connect channel user bus_id w0 in
  let self := opened.1 in
  let w1 := opened.2 in
  let group := "bus_" +:+ pretty bus_id in
  let fixes := Session.accepted self steps w1 in
  let w2 := (Session.run self steps w1).2 in
  exists replay published,
    log w1 = log w0 ++ replay /\
    log w2 = log w1 ++ published /\
    Session.updates_published group published
    = imap (fun n p => location_update p.1 p.2 false (Z.of_nat (S n))) fixes /\
    (forall lat lng rest, fixes = (lat, lng) :: rest ->
       exists later,
         published = group_send group Session.connected
                     :: group_send group (location_update lat lng false 1)
                     :: later) /\
    (fixes = [] -> published = []) /\
    Session.updates_sent published = [] /\
    Session.updates_published group replay = [] /\
    (LocationConsumer.is_driver self = true -> Session.updates_sent replay = []) /\
    (LocationConsumer.is_driver self = false ->
       Session.updates_sent replay
       = match LocationConsumer._get_last_bus_location bus_id (db w0) with
         | Some (lat, lng) => [location_update lat lng true (-1)]
         | None => []
         end).
Proof.
  cbv zeta. rewrite connect_result. cbn [fst snd log db].
  set (self := LocationConsumer.mk _ _ _ _ _ _).
  set (w1 := mkWorld _ _ _).
  destruct (run_publishes steps self w1) as (Hlog & _ & _).
  cbn [LocationConsumer.group_name LocationConsumer.sequence_number self] in Hlog.
  eexists _, _. split; [reflexivity|]. split; [exact Hlog|].
  split; [|split; [|split; [|split; [|split; [|split]]]]].
  - rewrite updates_published_broadcast. apply imap_ext.
    intros n p _. cbn. f_equal. lia.
  - intros lat lng rest ->. cbn. eauto.
  - by intros ->.
  - generalize 0%Z. generalize (Session.accepted self steps w1).
    intros fixes. induction fixes as [|[lat lng] fixes IH]; intros n; [done|].
    cbn [Session.broadcast_from]. unfold Session.updates_sent in *.
    rewrite omap_app. case_bool_decide; cbn; apply IH.
  - cbn. by repeat case_match.
  - cbn [LocationConsumer.is_driver self]. by intros ->.
  - cbn [LocationConsumer.is_driver self]. intros ->.
    by destruct (LocationConsumer._get_last_bus_location _ _) as [[lat lng]|].
Qed.

(* ===================================================================== *)
(** * LocationConsumer: the movement filter *)
(* ===================================================================== *)

(** With both stored coordinates present and non-zero the filter is the
    comparison of the great-circle distance with 25 meters. *)
Lemma moved_too_little_stored bus cur_lat cur_lng lat lng :
  Bus.current_lat bus = Some cur_lat -> Bus.current_lng bus = Some cur_lng ->
  cur_lat <> 0%R -> cur_lng <> 0%R ->
  LocationConsumer.moved_too_little bus lat lng
  = bool_decide (Geo.great_circle 6371000 cur_lat cur_lng lat lng < 25)%R.
Proof.
  intros Hlat Hlng Hlat0 Hlng0. unfold LocationConsumer.moved_too_little.
  rewrite Hlat, Hlng. cbn.
  by rewrite (bool_decide_true (cur_lat <> 0%R)),
    (bool_decide_true (cur_lng <> 0%R)) by done.
Qed.

(** With a stored coordinate missing or equal to zero there is no filter. *)
Lemma moved_too_little_falsy bus lat lng :
  Py.truthy (Bus.current_lat bus) && Py.truthy (Bus.current_lng bus) = false ->
  LocationConsumer.moved_too_little bus lat lng = false.
Proof.
  unfold LocationConsumer.moved_too_little.
  destruct (Bus.current_lat bus) as [cur_lat|], (Bus.current_lng bus) as [cur_lng|];
    try done.
  by intros ->.
Qed.

(** [receive] on the driver's connection, for a message that carries a fix. *)
Lemma receive_driver_fix self lat lng w :
  LocationConsumer.is_driver self = true ->
  let saved :=
    LocationConsumer._save_bus_location (LocationConsumer.bus_id self) lat lng
      (now w) (db w) in
  LocationConsumer.receive self
    (LocationConsumer.json_object (Some "location") (Some lat) (Some lng)) w
  = if saved.1 then
      (LocationConsumer.set_sequence_number
         (LocationConsumer.sequence_number self + 1) self,
       mkWorld saved.2 (now w)
         (log w ++ Session.broadcast_from (LocationConsumer.group_name self)
                     (LocationConsumer.sequence_number self) [(lat, lng)]))
    else (self, mkWorld saved.2 (now w) (log w)).
Proof.
  intros Hrole. cbv zeta. unfold LocationConsumer.receive.
  rewrite bool_decide_true, Hrole by done. cbn.
  unfold mbind, M_bind, db_call.
  destruct (LocationConsumer._save_bus_location _ lat lng _ _) as [[|] d'];
    [|done].
  cbn. repeat case_bool_decide; try lia; cbn; by rewrite <- ?app_assoc.
Qed.

(** C10.  When the stored latitude or the stored longitude of the bus is
    exactly 0, the 25-meter movement check is not made: every incoming fix,
    however close to the stored position, is accepted, stored on the bus and
    mirrored onto the driver. *)
Theorem zero_coordinate_skips_movement_check bus_id lat lng now d bus driver user :
  Db.get_bus bus_id d = Some bus ->
  Db.get_driver (Bus.driver bus) d = Some driver ->
  Db.get_user (Driver.user driver) d = Some user ->
  Bus.current_lat bus = Some 0%R \/ Bus.current_lng bus = Some 0%R ->
  LocationConsumer.moved_too_little bus lat lng = false /\
  exists d' bus' driver',
    LocationConsumer._save_bus_location bus_id lat lng now d = (true, d') /\
    Db.get_bus bus_id d' = Some bus' /\
    Bus.current_lat bus' = Some lat /\
    Bus.current_lng bus' = Some lng /\
    Db.get_driver (Bus.driver bus) d' = Some driver' /\
    Driver.current_lat driver' = Some lat /\
    Driver.current_lng driver' = Some lng.
Proof.
  intros Hbus Hdriver Huser Hzero.
  assert (LocationConsumer.moved_too_little bus lat lng = false) as Hfilter.
  { apply moved_too_little_falsy. destruct Hzero as [-> | ->]; cbn.
    - by rewrite bool_decide_false by (intros H; by apply H).
    - rewrite bool_decide_false by (intros H; by apply H).
      apply andb_false_r. }
  split; [done|].
  destruct (save_bus_location_stores bus_id lat lng now d bus driver user)
    as (d' & bus' & driver' & Hsave & Hget & Hlat & Hlng & _ & _ & Hd & Hdl & Hdg);
    try done.
  by exists d', bus', driver'.
Qed.

Lemma zero_coordinate_skips_movement_check_witness :
  let d := Example.database (Example.bus_at (Some 0%R) (Some 85.30%R) None 0) [] in
  Geo.great_circle 6371000 0 85.30 0 85.30 = 0%R /\
  exists d' bus',
    LocationConsumer._save_bus_location 1 0 85.30 1000 d = (true, d') /\
    Db.get_bus 1 d' = Some bus' /\
    Bus.current_lat bus' = Some 0%R /\ Bus.current_lng bus' = Some 85.30%R.
Proof.
  intros d. split; [apply great_circle_same|].
  destruct (zero_coordinate_skips_movement_check 1 0 85.30 1000 d
              (Example.bus_at (Some 0%R) (Some 85.30%R) None 0)
              (Example.driver_at (Some 0%R) (Some 85.30%R))
              Example.driver_account)
    as (_ & d' & bus' & _ & Hsave & Hget & Hlat & Hlng & _);
    [reflexivity|reflexivity|reflexivity|left; reflexivity|].
  by exists d', bus'.
Defined.





(* ===================================================================== *)
(** * LocationConsumer: closing a connection *)
(* ===================================================================== *)

(** [_clear_bus_location] nulls the five live fields of the bus and the
    mirrored position of its driver, and nothing else on either row. *)
Lemma clear_bus_location_clears bus_id now d bus driver user :
  Db.get_bus bus_id d = Some bus ->
  Db.get_driver (Bus.driver bus) d = Some driver ->
  Db.get_user (Driver.user driver) d = Some user ->
  exists d',
    LocationConsumer._clear_bus_location bus_id now d = (true, d') /\
    Db.get_bus bus_id d'
    = Some (Bus.mk (Bus.id bus) (Bus.driver bus) (Bus.route bus) None None None
              None (Bus.eta_passed_counter bus) None (Bus.updated_at bus)) /\
    Db.get_driver (Bus.driver bus) d'
    = Some (Driver.mk (Driver.id driver) (Driver.user driver) None None).
Proof.
  intros Hbus Hdriver Huser.
  unfold LocationConsumer._clear_bus_location. rewrite Hbus. cbn zeta.
  set (bus1 := Bus.set_eta_smoothed_seconds _ _).
  set (d1 := Db.save_bus _ bus1 d).
  assert (Bus.driver bus1 = Bus.driver bus) as -> by done.
  assert (Db.get_driver (Bus.driver bus) d1 = Some driver) as -> by done.
  set (driver1 := Driver.set_current_lng _ _).
  set (d2 := Db.save_driver _ driver1 d1).
  assert (Db.get_user (Driver.user driver1) d2 = Some user) as -> by done.
  exists d2. split; [done|]. split.
  - unfold d2. rewrite get_bus_save_driver. unfold d1.
    rewrite get_bus_save_bus, Hbus. cbn. by rewrite Nat.eqb_refl.
  - unfold d2. rewrite get_driver_save_driver.
    assert (Db.get_driver (Bus.driver bus) d1 = Some driver) as -> by done.
    cbn. by rewrite Nat.eqb_refl.
Qed.

(** C4.  Closing the driver's connection clears the bus's latitude,
    longitude, nearest-stop index, raw ETA and smoothed ETA to null, clears
    the position mirrored on the driver's row, and publishes
    [tracking_status] = disconnected to the bus's group before leaving it;
    closing a passenger's connection leaves the whole database as it was and
    only leaves the group. *)
Theorem disconnect_clears_for_driver_only self w :
  LocationConsumer.group_name self
  = "bus_" +:+ pretty (LocationConsumer.bus_id self) ->
  let w' := (LocationConsumer.disconnect self w).2 in
  let group := "bus_" +:+ pretty (LocationConsumer.bus_id self) in
  (LocationConsumer.is_driver self = true ->
     log w' = log w ++
       [group_send group (tracking_status "disconnected" "Driver stopped tracking");
        group_discard group (LocationConsumer.channel_name self)] /\
     forall bus driver user,
       Db.get_bus (LocationConsumer.bus_id self) (db w) = Some bus ->
       Db.get_driver (Bus.driver bus) (db w) = Some driver ->
       Db.get_user (Driver.user driver) (db w) = Some user ->
       exists bus' driver',
         Db.get_bus (LocationConsumer.bus_id self) (db w') = Some bus' /\
         Bus.current_lat bus' = None /\
         Bus.current_lng bus' = None /\
         Bus.nearest_stop_index bus' = None /\
         Bus.eta_seconds bus' = None /\
         Bus.eta_smoothed_seconds bus' = None /\
         Db.get_driver (Bus.driver bus) (db w') = Some driver' /\
         Driver.current_lat driver' = None /\
         Driver.current_lng driver' = None)
  /\
  (LocationConsumer.is_driver self = false ->
     db w' = db w /\
     log w' = log w ++ [group_discard group (LocationConsumer.channel_name self)]).
Proof.
  intros Hgroup. cbv zeta. rewrite <- Hgroup. destruct w as [d t l].
  unfold LocationConsumer.disconnect, mbind, M_bind, db_call, emit.
  split; intros Hrole; rewrite Hrole; cbn.
  - destruct (LocationConsumer._clear_bus_location _ t d) as [cleared d'] eqn:Hclear.
    cbn. split; [by rewrite <- app_assoc|].
    intros bus driver user Hbus Hdriver Huser.
    destruct (clear_bus_location_clears _ t d bus driver user Hbus Hdriver Huser)
      as (d'' & Hclear' & Hbus' & Hdriver').
    rewrite Hclear in Hclear'. injection Hclear' as _ <-.
    eexists _, _. split; [exact Hbus'|]. cbn.
    repeat (split; [reflexivity|]). split; [exact Hdriver'|]. done.
  - done.
Qed.

Lemma disconnect_clears_for_driver_only_witness :
  let d := Example.database
             (Example.bus_at (Some 27.70%R) (Some 85.30%R) (Some 0%Z) 0) [] in
  let after_driver :=
    (LocationConsumer.disconnect (Example.driver_session d) (Example.world d)).2 in
  let after_passenger :=
    (LocationConsumer.disconnect (Example.passenger_session d) (Example.world d)).2 in
  (exists bus',
     Db.get_bus 1 (db after_driver) = Some bus' /\
     Bus.current_lat bus' = None /\ Bus.current_lng bus' = None /\
     Bus.nearest_stop_index bus' = None) /\
  log after_driver
  = [group_send "bus_1" (tracking_status "disconnected" "Driver stopped tracking");
     group_discard "bus_1" "driver-channel"] /\
  db after_passenger = d /\
  log after_passenger = [group_discard "bus_1" "passenger-channel"].
Proof.
  intros d after_driver after_passenger.
  destruct (disconnect_clears_for_driver_only (Example.driver_session d)
              (Example.world d) eq_refl) as [Hdriver _].
  destruct (Hdriver eq_refl) as [Hlog Hrows].
  destruct (Hrows (Example.bus_at (Some 27.70%R) (Some 85.30%R) (Some 0%Z) 0)
              (Example.driver_at (Some 27.70%R) (Some 85.30%R))
              Example.driver_account eq_refl eq_refl eq_refl)
    as (bus' & driver' & Hbus & Hlat & Hlng & Hidx & _).
  assert (Example.passenger_session d
          = LocationConsumer.mk "passenger-channel"
              (Some Example.passenger_account) 1 "bus_1" 0 false) as Hsession.
  { unfold Example.passenger_session. rewrite connect_result. reflexivity. }
  subst after_passenger. rewrite Hsession.
  destruct (disconnect_clears_for_driver_only
              (LocationConsumer.mk "passenger-channel"
                 (Some Example.passenger_account) 1 "bus_1" 0 false)
              (Example.world d) eq_refl) as [_ Hpassenger].
  destruct (Hpassenger eq_refl) as [Hdb Hplog].
  split; [by exists bus'|]. split; [exact Hlog|]. split; [exact Hdb|exact Hplog].
Defined.

(* ===================================================================== *)
(** * Views: switching to the reverse route *)
(* ===================================================================== *)

(** C3 (as amended).  When [switch_route] succeeds (a POST by an
    authenticated driver whose first bus is on a route that has a reverse
    route), the bus is moved to the reverse route, its nearest-stop index,
    raw ETA and smoothed ETA are reset to null and its passed-stop counter
    to 0; its current latitude, current longitude and update time are left
    as they were. *)
Theorem switch_route_resets_route_state request d u driver bus current
    reverse_id reverse :
  Views.user request = Some u ->
  Views.method request = "POST" ->
  Db.driver_profile (User.id u) d = Some driver ->
  Db.first_bus_of (Driver.id driver) d = Some bus ->
  Db.get_route (Bus.route bus) d = Some current ->
  BusRoute.reverse_route current = Some reverse_id ->
  Db.get_route reverse_id d = Some reverse ->
  exists d',
    Views.switch_route request d
    = (Views.route_switched (BusRoute.name current) (BusRoute.name reverse)
         (BusRoute.id reverse), d') /\
    Db.first_bus_of (Driver.id driver) d'
    = Some (Bus.mk (Bus.id bus) (Bus.driver bus) (BusRoute.id reverse)
              (Bus.current_lat bus) (Bus.current_lng bus) None None 0 None
              (Bus.updated_at bus)).
Proof.
  intros Huser Hmethod Hprofile Hbus Hroute Hreverse Hreverse_row.
  unfold Views.switch_route.
  rewrite Huser, Hmethod, Hprofile, Hbus, Hroute, Hreverse, Hreverse_row.
  cbn. eexists. split; [reflexivity|].
  rewrite first_bus_of_save_bus, Hbus. cbn. by rewrite Nat.eqb_refl.
Qed.

Lemma switch_route_resets_route_state_witness :
  let bus := Bus.mk 1 1 1 (Some 27.70%R) (Some 85.30%R) (Some 40%Z) (Some 40%R) 2
               (Some 1%Z) (Some 990%Z) in
  let d := Example.database bus [] in
  exists d',
    Views.switch_route (Example.driver_post None None) d
    = (Views.route_switched "Ratnapark-Thankot" "Thankot-Ratnapark" 2, d') /\
    Db.first_bus_of 1 d'
    = Some (Bus.mk 1 1 2 (Some 27.70%R) (Some 85.30%R) None None 0 None (Some 990%Z)).
Proof.
  intros bus d.
  exact (switch_route_resets_route_state (Example.driver_post None None) d
           Example.driver_account
           (Example.driver_at (Some 27.70%R) (Some 85.30%R)) bus
           Example.outbound 2 Example.inbound
           eq_refl eq_refl eq_refl eq_refl eq_refl eq_refl eq_refl).
Defined.

(** C3, as stated, fails for the position: after a successful switch the bus
    still carries the latitude and longitude it had. *)
Lemma switch_route_keeps_position :
  let bus := Bus.mk 1 1 1 (Some 27.70%R) (Some 85.30%R) (Some 40%Z) (Some 40%R) 2
               (Some 1%Z) (Some 990%Z) in
  let d := Example.database bus [] in
  let result := Views.switch_route (Example.driver_post None None) d in
  result.1 = Views.route_switched "Ratnapark-Thankot" "Thankot-Ratnapark" 2 /\
  exists bus',
    Db.get_bus 1 result.2 = Some bus' /\
    Bus.current_lat bus' = Some 27.70%R /\
    Bus.current_lng bus' = Some 85.30%R /\
    Bus.current_lat bus' <> None /\
    Bus.current_lng bus' <> None.
Proof.
  cbv zeta. split; [reflexivity|].
  exists (Bus.mk 1 1 2 (Some 27.70%R) (Some 85.30%R) None None 0 None
            (Some 990%Z)).
  split; [reflexivity|]. cbn. done.
Qed.

(* ===================================================================== *)
(** * ChatConsumer: resolving the recipient *)
(* ===================================================================== *)

Section Latest.
(** [latest] returns a row of the table with the greatest [created_at], and
    returns nothing only for an empty table. *)
Lemma latest_snoc rows m :
  ChatConsumer.latest (rows ++ [m])
  = match ChatConsumer.latest rows with
    | None => Some m
    | Some b =>
        if decide (Message.created_at b ≤ Message.created_at m)%Z
        then Some m else Some b
    end.
Proof. unfold ChatConsumer.latest. by rewrite foldl_app. Qed.

Lemma latest_spec rows :
  match ChatConsumer.latest rows with
  | Some m =>
      In m rows /\
      forall m', In m' rows -> (Message.created_at m' <= Message.created_at m)%Z
  | None => rows = []
  end.
Proof.
  induction rows as [|m rows IH] using rev_ind; [done|].
  rewrite latest_snoc.
  destruct (ChatConsumer.latest rows) as [b|].
  - destruct IH as [Hin Hmax]. case_decide as Hle.
    + split; [apply in_or_app; right; by left|].
      intros m' [Hm'|[<-|[]]]%in_app_or; [|lia].
      specialize (Hmax m' Hm'). lia.
    + split; [apply in_or_app; by left|].
      intros m' [Hm'|[<-|[]]]%in_app_or; [by apply Hmax|lia].
  - subst rows. split; [by left|]. intros m' [<-|[]]. lia.
Qed.
End Latest.

(** What [_get_last_user_to_driver] finds is a last contact. *)
Lemma get_last_user_to_driver_sound sid d contact :
  ChatConsumer._get_last_user_to_driver sid d = Some contact ->
  ChatSpec.last_contact sid d contact.
Proof.
  unfold ChatConsumer._get_last_user_to_driver.
  set (received := List.filter _ _).
  pose proof (latest_spec received) as Hlatest.
  destruct (ChatConsumer.latest received) as [m|]; [|done].
  destruct Hlatest as [Hin Hmax].
  destruct (Db.get_user (Message.sender m) d) as [u|] eqn:Hu; [|done].
  cbn. intros [= <-].
  apply List.filter_In in Hin as [Hin Hkeep].
  apply andb_true_iff in Hkeep as [Hto Hfrom].
  apply Nat.eqb_eq in Hto. apply negb_true_iff, Nat.eqb_neq in Hfrom.
  exists m. split; [done|]. split; [done|].
  split; [symmetry; by apply (find_key_eq User.id) in Hu|].
  intros m' Hin' [Hto' Hfrom']. apply Hmax, List.filter_In. split; [done|].
  apply andb_true_iff. split; [by apply Nat.eqb_eq|].
  by apply negb_true_iff, Nat.eqb_neq.
Qed.

(** It finds one whenever somebody else has written, the accounts of the
    senders being present. *)
Lemma get_last_user_to_driver_complete sid d m :
  In m (Db.messages d) -> ChatSpec.from_another sid m ->
  (forall m', In m' (Db.messages d) ->
              is_Some (Db.get_user (Message.sender m') d)) ->
  is_Some (ChatConsumer._get_last_user_to_driver sid d).
Proof.
  intros Hin [Hto Hfrom] Haccounts.
  unfold ChatConsumer._get_last_user_to_driver.
  set (received := List.filter _ _).
  assert (In m received) as Hm.
  { apply List.filter_In. split; [done|]. apply andb_true_iff.
    split; [by apply Nat.eqb_eq|]. by apply negb_true_iff, Nat.eqb_neq. }
  pose proof (latest_spec received) as Hlatest.
  destruct (ChatConsumer.latest received) as [last|].
  - destruct Hlatest as [Hlast _]. apply List.filter_In in Hlast as [Hlast _].
    destruct (Haccounts last Hlast) as [u ->]. by eexists.
  - by rewrite Hlatest in Hm.
Qed.

Lemma truthy_id_Some (x : option nat) :
  Py.truthy_id x = true -> exists n, x = Some n /\ n <> 0%nat.
Proof.
  destruct x as [n|]; [|done]. cbn. intros Hn%negb_true_iff%Nat.eqb_neq.
  by exists n.
Qed.

(** Every action of [publish] is a publication that carries the payload. *)
Lemma publish_log sender recipient_id content bus_id w :
  exists later,
    (ChatConsumer.publish sender recipient_id content bus_id w).2
    = mkWorld (db w) (now w)
        (log w ++ group_send ("user_" +:+ pretty recipient_id)
                    (chat_message_forward (User.id sender) (User.username sender)
                       recipient_id content bus_id)
                  :: later).
Proof.
  destruct w as [d t l]. unfold ChatConsumer.publish.
  unfold mbind, M_bind, emit, db_read. cbn.
  destruct (negb (Nat.eqb recipient_id (User.id sender))); cbn;
    destruct (Db.driver_exists (User.id sender) d); cbn;
    rewrite <- ?app_assoc; cbn; by eexists.
Qed.

(** C8 (as amended).  For a [chat_message] event from an authenticated
    sender the recipient is resolved in this order: (a) the explicit
    [recipient_id] of the event when it is present and non-zero; (b)
    otherwise, when a non-zero [bus_id] is given and the sender is not a
    driver, the account of that bus's assigned driver; (c) otherwise, when
    the sender is a driver, the sender of the most recent message that the
    driver received from somebody other than the driver; (d) otherwise
    nobody.  When nobody is resolved or the content is empty the event is
    dropped: no message is stored and nothing is published; otherwise the
    event goes out to the resolved recipient. *)
Theorem chat_recipient_resolution self sender content recipient_id bus_id w :
  ChatConsumer.scope_user self = Some sender ->
  let sid := User.id sender in
  let resolved := ChatConsumer.resolve_recipient sid recipient_id bus_id (db w) in
  let event :=
    ChatConsumer.json_object (Some "chat_message") content recipient_id bus_id in
  (Py.truthy_id recipient_id = true -> resolved = recipient_id)
  /\
  (Py.truthy_id recipient_id = false -> Db.driver_exists sid (db w) = false ->
     forall k, bus_id = Some k -> k <> 0%nat ->
       resolved = ChatSpec.driver_account_of_bus k (db w))
  /\
  (Py.truthy_id recipient_id = false -> Db.driver_exists sid (db w) = true ->
     (forall contact, resolved = Some contact -> contact <> 0%nat ->
        ChatSpec.last_contact sid (db w) contact) /\
     (forall m, In m (Db.messages (db w)) -> ChatSpec.from_another sid m ->
        (forall m', In m' (Db.messages (db w)) ->
           exists u, Db.get_user (Message.sender m') (db w) = Some u
                     /\ User.id u <> 0%nat) ->
        Py.truthy_id resolved = true))
  /\
  (Py.truthy_id recipient_id = false -> Py.truthy_id bus_id = false ->
     Db.driver_exists sid (db w) = false -> Py.truthy_id resolved = false)
  /\
  (Py.truthy_id resolved = false \/ Py.truthy_str content = false ->
     ChatConsumer.receive self event w = (tt, w))
  /\
  (forall recipient text,
     resolved = Some recipient -> recipient <> 0%nat ->
     content = Some text -> text <> "" ->
     exists d' later,
       (ChatConsumer.receive self event w).2
       = mkWorld d' (now w)
           (log w ++ group_send ("user_" +:+ pretty recipient)
                       (chat_message_forward sid (User.username sender)
                          recipient text bus_id)
                     :: later)).
Proof.
  intros Hsender sid resolved event.
  assert (forall x, Py.truthy_id x = false ->
            ChatConsumer.resolve_from_last_contact sid x (db w)
            = if Db.driver_exists sid (db w) then
                if Py.truthy_id (ChatConsumer._get_last_user_to_driver sid (db w))
                then ChatConsumer._get_last_user_to_driver sid (db w) else x
              else x) as Hlast.
  { intros x Hx. unfold ChatConsumer.resolve_from_last_contact. by rewrite Hx. }
  assert (Py.truthy_id recipient_id = true -> resolved = recipient_id) as Ha.
  { intros Hexplicit. unfold resolved, ChatConsumer.resolve_recipient,
      ChatConsumer.resolve_from_bus, ChatConsumer.resolve_from_last_contact.
    rewrite Hexplicit. cbn. by rewrite Hexplicit. }
  assert (Py.truthy_id recipient_id = false ->
          Db.driver_exists sid (db w) = true ->
          resolved
          = if Py.truthy_id (ChatConsumer._get_last_user_to_driver sid (db w))
            then ChatConsumer._get_last_user_to_driver sid (db w)
            else recipient_id) as Hc.
  { intros Habsent Hrole.
    unfold resolved, ChatConsumer.resolve_recipient, ChatConsumer.resolve_from_bus.
    rewrite Habsent, Hrole. cbn. rewrite Tauto.if_same.
    by rewrite Hlast, Hrole. }
  split; [exact Ha|]. split; [|split; [|split; [|split]]].
  - intros Habsent Hrole k -> Hk.
    unfold resolved, ChatConsumer.resolve_recipient, ChatConsumer.resolve_from_bus,
      ChatConsumer.resolve_from_last_contact.
    rewrite Habsent, Hrole. cbn.
    rewrite (proj2 (Nat.eqb_neq k 0)) by done. cbn.
    unfold ChatSpec.driver_account_of_bus.
    destruct (Db.get_bus k (db w)) as [bus|]; cbn; [|done].
    destruct (Db.get_driver (Bus.driver bus) (db w)) as [driver|]; cbn; [|done].
    destruct (Db.get_user (Driver.user driver) (db w)) as [u|] eqn:Hu; cbn;
      [|done].
    apply (find_key_eq User.id) in Hu. rewrite Hu.
    by destruct (negb (Nat.eqb (Driver.user driver) 0)).
  - intros Habsent Hrole. specialize (Hc Habsent Hrole). split.
    + intros contact Hresolved Hcontact. rewrite Hc in Hresolved.
      destruct (Py.truthy_id (ChatConsumer._get_last_user_to_driver _ _));
        [by apply get_last_user_to_driver_sound|].
      rewrite Hresolved in Habsent. cbn in Habsent.
      by apply negb_false_iff, Nat.eqb_eq in Habsent.
    + intros m Hin Hfrom Haccounts.
      destruct (get_last_user_to_driver_complete sid (db w) m Hin Hfrom)
        as [contact Hcontact].
      { intros m' Hm'. destruct (Haccounts m' Hm') as (u & -> & _). by eexists. }
      assert (Py.truthy_id (Some contact) = true) as Htruthy.
      { revert Hcontact. unfold ChatConsumer._get_last_user_to_driver.
        set (received := List.filter _ _).
        pose proof (latest_spec received) as Hspec.
        destruct (ChatConsumer.latest received) as [last|]; [|done].
        destruct Hspec as [Hlast_in _].
        apply List.filter_In in Hlast_in as [Hlast_in _].
        destruct (Haccounts last Hlast_in) as (u & -> & Hu). cbn.
        intros [= <-]. by apply negb_true_iff, Nat.eqb_neq. }
      by rewrite Hc, Hcontact, Htruthy.
  - intros Habsent Hbus Hrole.
    unfold resolved, ChatConsumer.resolve_recipient, ChatConsumer.resolve_from_bus.
    rewrite Habsent, Hbus. cbn. by rewrite Hlast, Hrole.
  - intros Hdrop. unfold event, ChatConsumer.receive.
    rewrite bool_decide_true, Hsender by done.
    unfold mbind, M_bind, db_read. fold sid. fold resolved.
    destruct Hdrop as [-> | ->]; [done|]. by rewrite orb_true_r.
  - intros recipient text Hresolved Hrecipient -> Htext.
    unfold event, ChatConsumer.receive.
    rewrite bool_decide_true, Hsender by done.
    unfold mbind, M_bind, db_read. fold sid. fold resolved. rewrite Hresolved.
    cbn. rewrite (proj2 (Nat.eqb_neq recipient 0)) by done.
    rewrite (proj2 (String.eqb_neq text "")) by done. cbn.
    unfold db_call.
    destruct (ChatConsumer._create_message _ _ _ _ _ _) as [stored d'].
    destruct (publish_log sender recipient text bus_id
                (mkWorld d' (now w) (log w))) as [later Hlog].
    exists d', later. exact Hlog.
Qed.

Lemma chat_recipient_resolution_witness :
  ChatConsumer.scope_user Example.passenger_chat = Some Example.passenger_account /\
  ChatConsumer.resolve_recipient 2 None (Some 1%nat) Example.inbox = Some 1%nat /\
  ChatConsumer.receive Example.passenger_chat
    (ChatConsumer.json_object (Some "chat_message") (Some "") None (Some 1%nat))
    (Example.world Example.inbox)
  = (tt, Example.world Example.inbox).
Proof.
  destruct (chat_recipient_resolution Example.passenger_chat
              Example.passenger_account (Some "") None (Some 1%nat)
              (Example.world Example.inbox) eq_refl)
    as (_ & Hbus & _ & _ & Hdrop & _).
  split; [reflexivity|]. split.
  - exact (Hbus eq_refl eq_refl 1%nat eq_refl (Nat.neq_succ_0 0)).
  - apply Hdrop. right. reflexivity.
Defined.

(** C8, as stated, fails in clause (c): the most recent message the driver
    received is the driver's own note to self, yet a reply without recipient
    is resolved to the passenger who wrote before it. *)
Lemma last_contact_skips_own_messages :
  ChatConsumer.latest
    (List.filter (fun m => Nat.eqb (Message.recipient m) 1)
       (Db.messages Example.inbox))
  = Some Example.note_to_self /\
  Message.sender Example.note_to_self = 1%nat /\
  Db.driver_exists 1 Example.inbox = true /\
  ChatConsumer.resolve_recipient 1 None None Example.inbox = Some 2%nat /\
  ChatConsumer.resolve_recipient 1 None None Example.inbox
  <> Some (Message.sender Example.note_to_self).
Proof. repeat split; try reflexivity. discriminate. Qed.

(* ===================================================================== *)
(** * BusRoute: the stop graph *)
(* ===================================================================== *)

Section StopGraph.
Variable stops_list : list RouteStop.t.

Lemma edge_distance_weight rs next_rs :
  BusRoute.edge_distance rs next_rs = RouteGraphSpec.weight rs next_rs.
Proof.
  unfold BusRoute.edge_distance, RouteGraphSpec.weight.
  destruct (RouteStop.distance_to_next_m rs) as [stored|]; [|done].
  case_decide; case_bool_decide; done.
Qed.

Lemma graph_step_insert graph i rs :
  stops_list !! i = Some rs ->
  BusRoute.graph_step stops_list graph (i, rs)
  = <[RouteGraphSpec.stop_id rs := RouteGraphSpec.out_edges stops_list i rs]> graph.
Proof.
  intros Hi. unfold BusRoute.graph_step, RouteGraphSpec.out_edges. cbn zeta.
  replace (i + 1)%nat with (S i) by lia.
  apply lookup_lt_Some in Hi as Hlt.
  case_decide as Hlast.
  - destruct (lookup_lt_is_Some_2 stops_list (S i)) as [next_rs Hnext]; [lia|].
    rewrite Hnext, alter_insert_eq, edge_distance_weight. done.
  - rewrite (lookup_ge_None_2 stops_list (S i)) by lia. done.
Qed.

Lemma enumerate_lookup {A} (l : list A) j i x :
  BusRoute.enumerate l !! j = Some (i, x) -> i = j /\ l !! j = Some x.
Proof.
  unfold BusRoute.enumerate. intros H.
  apply lookup_zip_with_Some in H as (i' & x' & [= <- <-] & Hi & Hx).
  apply lookup_seq in Hi as [-> _]. done.
Qed.

Lemma enumerate_fmap {A B} (f : nat -> A -> B) (l : list A) :
  (fun item => f item.1 item.2) <$> BusRoute.enumerate l = imap f l.
Proof.
  apply list_eq. intros j. rewrite list_lookup_fmap, list_lookup_imap.
  unfold BusRoute.enumerate. rewrite lookup_zip_with.
  destruct (l !! j) as [x|] eqn:Hx.
  - rewrite lookup_seq_lt by (by apply lookup_lt_Some in Hx). done.
  - destruct (seq 0 (length l) !! j); done.
Qed.

Lemma foldl_ext_lookup {A B} (f g : A -> B -> A) (l : list B) :
  (forall j x a, l !! j = Some x -> f a x = g a x) ->
  forall a, foldl f a l = foldl g a l.
Proof.
  induction l as [|x l IH]; intros Hfg a; [done|]. cbn.
  rewrite (Hfg 0%nat x a) by done. apply IH.
  intros j y b Hj. by apply (Hfg (S j)).
Qed.

Lemma foldl_insert_list_to_map (l : list (nat * list (nat * R))) :
  NoDup l.*1 ->
  foldl (fun graph entry => <[entry.1 := entry.2]> graph) (∅ : Graph) l
  = list_to_map l.
Proof.
  induction l as [|[k v] l IH] using rev_ind; intros Hnodup; [done|].
  rewrite fmap_app in Hnodup. apply NoDup_app in Hnodup as (Hl & Hfresh & _).
  rewrite foldl_app, IH by done. cbn.
  rewrite list_to_map_snoc; [done|].
  intros Hk. apply (Hfresh k Hk). cbn. left.
Qed.

Lemma entries_keys :
  (RouteGraphSpec.entries stops_list).*1 = RouteGraphSpec.stop_id <$> stops_list.
Proof.
  unfold RouteGraphSpec.entries. rewrite fmap_imap. apply list_eq. intros j.
  rewrite list_lookup_imap, list_lookup_fmap. by destruct (stops_list !! j).
Qed.

Lemma get_stop_graph_entries route :
  BusRoute.routestop_set route = stops_list ->
  NoDup (RouteGraphSpec.stop_id <$> stops_list) ->
  BusRoute.get_stop_graph route = list_to_map (RouteGraphSpec.entries stops_list).
Proof.
  intros Hroute Hnodup. unfold BusRoute.get_stop_graph. rewrite Hroute.
  rewrite <- foldl_insert_list_to_map by (by rewrite entries_keys).
  unfold RouteGraphSpec.entries. rewrite <- enumerate_fmap, foldl_fmap.
  apply foldl_ext_lookup. intros j [i rs] graph Hj.
  apply enumerate_lookup in Hj as [-> Hj]. by apply graph_step_insert.
Qed.



End StopGraph.




(** A route with stops has a graph with entries. *)
Lemma get_stop_graph_nonempty (route : BusRoute.t) :
  NoDup (RouteGraphSpec.stop_id <$> BusRoute.routestop_set route) ->
  BusRoute.routestop_set route <> [] ->
  BusRoute.get_stop_graph route <> ∅.
Proof.
  intros Hnodup Hstops Hempty.
  rewrite (get_stop_graph_entries _ route eq_refl Hnodup) in Hempty.
  apply (f_equal size) in Hempty.
  rewrite map_size_list_to_map, map_size_empty in Hempty
    by (by rewrite entries_keys).
  unfold RouteGraphSpec.entries in Hempty. rewrite length_imap in Hempty.
  by destruct (BusRoute.routestop_set route).
Qed.

(* ===================================================================== *)
(** * Views: the pickup ETA of the homepage search *)
(* ===================================================================== *)



(** A bus standing at Kalanki is nearest to Kalanki, the stop at index 1. *)
Lemma nearest_to_kalanki :
  Stop.nearest_index [Example.ratnapark; Example.kalanki; Example.thankot]
    27.71 85.31
  = Some 1%nat.
Proof.
  unfold Stop.nearest_index, Py.min_range. cbn [length seq Py.min_from].
  set (key := Stop.haversine_to _ _ _).
  assert (key 1%nat = 0%R) as H1 by apply haversine_same.
  assert (0 < key 0%nat)%R as H0 by (apply haversine_pos; cbn; lra).
  assert (0 < key 2%nat)%R as H2 by (apply haversine_pos; cbn; lra).
  rewrite (decide_True (P := (key 1%nat < key 0%nat)%R)) by lra.
  rewrite (decide_False (P := (key 2%nat < key 1%nat)%R)) by lra.
  done.
Qed.

Section Homepage.
Variable dijkstra : Graph -> nat -> nat -> option R * list nat.
Variable get_road_distance_with_fallback : R -> R -> R -> R -> R * bool.

Lemma eta_to_pickup_truncates graph stops_objs bus_lat bus_lng nearest
    nearest_idx pickup_idx pickup total_distance_km :
  (Stop.id nearest = Stop.id pickup -> nearest_idx = pickup_idx) ->
  EtaSpec.total_distance dijkstra get_road_distance_with_fallback graph
    bus_lat bus_lng nearest pickup total_distance_km ->
  let stops := EtaSpec.stops_between nearest_idx pickup_idx in
  let eta := EtaSpec.eta_truncated total_distance_km stops in
  exists info,
    Views.eta_to_pickup dijkstra get_road_distance_with_fallback graph stops_objs
      bus_lat bus_lng
      (get_road_distance_with_fallback bus_lat bus_lng
         (Stop.latitude nearest) (Stop.longitude nearest)).1
      nearest nearest_idx pickup_idx pickup
    = Some info /\
    Views.eta info = (if decide (eta <= 30)%Z then Some eta else None) /\
    Views.stops_between info = Some stops /\
    Views.nearest_stop info = Some (Stop.name nearest).
Proof.
  intros Hsame Htotal stops eta.
  unfold Views.eta_to_pickup.
  assert (forall sb : Z,
            (total_distance_km / 25 * 60 + IZR (sb * 60) / 60
             = EtaSpec.total_minutes total_distance_km sb)%R) as Hminutes.
  { intros sb. unfold EtaSpec.total_minutes. rewrite mult_IZR. lra. }
  destruct Htotal as [[Hid Hkm] | (Hid & meters & path & Hpath & Hpos & Hkm)].
  - rewrite (proj2 (Nat.eqb_eq _ _) Hid).
    destruct (get_road_distance_with_fallback bus_lat bus_lng
                (Stop.latitude pickup) (Stop.longitude pickup)) as [km road].
    cbn in Hkm. subst km. cbv zeta. rewrite Hminutes.
    assert (stops = 0%Z) as Hstops
      by (unfold stops, EtaSpec.stops_between; rewrite (Hsame Hid); lia).
    fold (EtaSpec.eta_truncated total_distance_km 0). rewrite <- Hstops.
    fold eta. repeat case_decide; try lia; eexists; cbn; done.
  - rewrite (proj2 (Nat.eqb_neq _ _) Hid), Hpath.
    destruct (decide (0 <= meters)%R); [|done].
    cbv zeta. rewrite <- Hkm, Hminutes.
    assert ((if decide (Z.of_nat pickup_idx - Z.of_nat nearest_idx < 0)%Z
             then 0%Z else (Z.of_nat pickup_idx - Z.of_nat nearest_idx)%Z)
            = stops) as ->
      by (unfold stops, EtaSpec.stops_between; case_decide; lia).
    fold (EtaSpec.eta_truncated total_distance_km stops). fold eta.
    repeat case_decide; try lia; eexists; cbn; done.
Qed.

(** The homepage ETA for a bus known not to have passed the pickup. *)
Lemma homepage_eta_not_passed now route bus pickup_idx pickup bus_lat bus_lng
    nearest_idx nearest total_distance_km :
  let stops_objs := BusRoute.get_stops_list route in
  let graph := BusRoute.get_stop_graph route in
  Bus.current_lat bus = Some bus_lat ->
  Bus.current_lng bus = Some bus_lng ->
  (forall t, Bus.updated_at bus = Some t -> (now - t <= 5 * 60)%Z) ->
  NoDup (Stop.id <$> stops_objs) ->
  stops_objs !! pickup_idx = Some pickup ->
  Stop.nearest_index stops_objs bus_lat bus_lng = Some nearest_idx ->
  stops_objs !! nearest_idx = Some nearest ->
  (nearest_idx <= pickup_idx)%nat ->
  EtaSpec.total_distance dijkstra get_road_distance_with_fallback graph
    bus_lat bus_lng nearest pickup total_distance_km ->
  let stops := EtaSpec.stops_between nearest_idx pickup_idx in
  let eta := EtaSpec.eta_truncated total_distance_km stops in
  exists info,
    Views.homepage_eta dijkstra get_road_distance_with_fallback now route
      bus stops_objs pickup_idx
    = Some info /\
    Views.eta info = (if decide (eta <= 30)%Z then Some eta else None) /\
    Views.stops_between info = Some stops /\
    Views.nearest_stop info = Some (Stop.name nearest).
Proof.
  intros stops_objs graph Hlat Hlng Hfresh Hdistinct Hpickup Hnearest_idx
    Hnearest Hnot_passed Htotal stops eta.
  assert (stops_objs <> []) as Hstops by (intros Hnil; by rewrite Hnil in Hpickup).
  unfold Views.homepage_eta. rewrite Hlat, Hlng.
  assert ((match Bus.updated_at bus with
           | Some updated_at => bool_decide (5 * 60 < now - updated_at)%Z
           | None => false
           end) = false) as ->.
  { destruct (Bus.updated_at bus) as [t|]; [|done].
    apply bool_decide_false. specialize (Hfresh t eq_refl). lia. }
  assert (graph <> ∅) as Hgraph.
  { apply get_stop_graph_nonempty.
    - unfold stops_objs, BusRoute.get_stops_list in Hdistinct.
      by rewrite <- list_fmap_compose in Hdistinct.
    - intros Hnil. apply Hstops. unfold stops_objs, BusRoute.get_stops_list.
      by rewrite Hnil. }
  fold graph. destruct (decide (graph = ∅)); [done|].
  fold stops_objs. rewrite Hnearest_idx, Hnearest, Hpickup.
  pose proof (eta_to_pickup_truncates graph stops_objs bus_lat bus_lng nearest
                nearest_idx pickup_idx pickup total_distance_km) as Heta.
  destruct (get_road_distance_with_fallback bus_lat bus_lng
              (Stop.latitude nearest) (Stop.longitude nearest))
    as [dist_to_nearest is_road] eqn:Hroad.
  destruct (decide (pickup_idx < nearest_idx)%nat); [lia|].
  apply Heta; [|done].
  intros Hid. eapply (NoDup_lookup (Stop.id <$> stops_objs)); [done| |].
  - by rewrite list_lookup_fmap, Hnearest.
  - by rewrite list_lookup_fmap, Hpickup, Hid.
Qed.

End Homepage.

Lemma outbound_stop_ids_distinct :
  NoDup (Stop.id <$> BusRoute.get_stops_list Example.outbound).
Proof. apply (bool_decide_unpack _). reflexivity. Qed.



(* ===================================================================== *)
(** * The passed-stop counter *)
(* ===================================================================== *)

(** A bus standing exactly at its nearest stop, with no smoothed ETA yet, is
    given ETA 1 second, raw and smoothed. *)
Lemma nearest_stop_and_eta_at_stop bus lat lng d route i s :
  Db.get_route (Bus.route bus) d = Some route ->
  Stop.nearest_index (BusRoute.get_stops_list route) lat lng = Some i ->
  BusRoute.get_stops_list route !! i = Some s ->
  Stop.latitude s = lat -> Stop.longitude s = lng ->
  Bus.eta_smoothed_seconds bus = None ->
  LocationConsumer.nearest_stop_and_eta bus lat lng d
  = Some (Bus.set_eta_smoothed_seconds (Some 1%R)
            (Bus.set_eta_seconds (Some 1%Z)
               (Bus.set_nearest_stop_index (Some (Z.of_nat i)) bus))).
Proof.
  intros Hroute Hnearest Hstop Hlat Hlng Hsmoothed.
  unfold LocationConsumer.nearest_stop_and_eta.
  rewrite Hroute. cbv zeta. rewrite Hnearest.
  unfold Stop.haversine_to. rewrite Hstop, Hlat, Hlng, haversine_same.
  rewrite (int_between 0) by lra. cbn. by rewrite Hsmoothed.
Qed.

Lemma kalanki_far_from_ratnapark :
  (25 <= Geo.great_circle 6371000 27.70 85.30 27.71 85.31)%R.
Proof.
  eapply Rle_trans; [|apply great_circle_lower_bound; lra].
  unfold Py.radians. pose proof PI2_3_2.
  rewrite Rabs_pos_eq by nra. nra.
Qed.

(** C7.  The rule (increment when the new nearest-stop index is greater than
    the stored one) is not applied by the WebSocket path: the driver's bus,
    last seen at Ratnapark with nearest-stop index 0 and counter 0, reports a
    fix at Kalanki; the fix is accepted and broadcast, the nearest-stop index
    becomes 1, and the passed-stop counter is still 0. *)
Theorem websocket_fix_keeps_passed_counter :
  let before := Example.bus_at (Some 27.70%R) (Some 85.30%R) (Some 0%Z) 0 in
  let d := Example.database before [] in
  let after :=
    (LocationConsumer.receive (Example.driver_session d)
       (Example.fix_at 27.71 85.31) (Example.world d)).2 in
  Db.get_bus 1 d = Some before /\
  Db.get_bus 1 (db after)
  = Some (Bus.mk 1 1 1 (Some 27.71%R) (Some 85.31%R) (Some 1%Z) (Some 1%R) 0
            (Some 1%Z) (Some 1000%Z)) /\
  log after
  = [group_send "bus_1" Session.connected;
     group_send "bus_1" (location_update 27.71 85.31 false 1)].
Proof.
  intros before d after. split; [reflexivity|].
  assert (LocationConsumer._save_bus_location 1 27.71 85.31 1000 d
          = (true,
             Db.mk [Example.driver_account; Example.passenger_account]
               [Example.driver_at (Some 27.71%R) (Some 85.31%R)]
               [Bus.mk 1 1 1 (Some 27.71%R) (Some 85.31%R) (Some 1%Z)
                  (Some 1%R) 0 (Some 1%Z) (Some 1000%Z)]
               [Example.outbound; Example.inbound] [])) as Hsave.
  { unfold LocationConsumer._save_bus_location.
    change (Db.get_bus 1 d) with (Some before). cbv iota beta.
    rewrite (moved_too_little_stored before 27.70 85.30) by (done || lra).
    rewrite bool_decide_false
      by (pose proof kalanki_far_from_ratnapark; lra).
    cbv zeta.
    set (bus1 := Bus.set_updated_at _ _).
    set (d1 := Db.save_bus _ bus1 d).
    change (Db.get_driver (Bus.driver bus1) d1)
      with (Some (Example.driver_at (Some 27.70%R) (Some 85.30%R))).
    cbv iota beta.
    set (driver1 := Driver.set_current_lng _ _).
    set (d2 := Db.save_driver _ driver1 d1).
    change (Db.get_user (Driver.user driver1) d2) with (Some Example.driver_account).
    cbv iota beta.
    rewrite (nearest_stop_and_eta_at_stop bus1 27.71 85.31 d2 Example.outbound 1
               Example.kalanki eq_refl nearest_to_kalanki eq_refl eq_refl eq_refl
               eq_refl).
    reflexivity. }
  subst after. unfold Example.fix_at.
  rewrite receive_driver_fix by reflexivity. cbv zeta.
  change (LocationConsumer.bus_id (Example.driver_session d)) with 1%nat.
  change (now (Example.world d)) with 1000%Z.
  change (db (Example.world d)) with d.
  rewrite Hsave. split; reflexivity.
Qed.

(* ===================================================================== *)
(** * Further properties: the haversine helpers *)
(* ===================================================================== *)

Section Haversine.
Local Open Scope R_scope.

Lemma hav_a_sym lat1 lon1 lat2 lon2 :
  Geo.hav_a lat1 lon1 lat2 lon2 = Geo.hav_a lat2 lon2 lat1 lon1.
Proof.
  unfold Geo.hav_a, Py.radians.
  replace ((lat1 - lat2) * (PI / 180) / 2)
    with (- ((lat2 - lat1) * (PI / 180) / 2)) by lra.
  replace ((lon1 - lon2) * (PI / 180) / 2)
    with (- ((lon2 - lon1) * (PI / 180) / 2)) by lra.
  rewrite !sin_neg. unfold Rsqr. ring.
Qed.

(** X1.  The distance of [_calculate_distance] (and of the [haversine]
    helpers of the consumers and views) does not depend on the direction:
    from A to B it is what it is from B to A. *)
Theorem calculate_distance_symmetric lat1 lon1 lat2 lon2 :
  BusRoute._calculate_distance lat1 lon1 lat2 lon2
  = BusRoute._calculate_distance lat2 lon2 lat1 lon1
  /\ Geo.haversine lat1 lon1 lat2 lon2 = Geo.haversine lat2 lon2 lat1 lon1.
Proof.
  unfold BusRoute._calculate_distance, Geo.haversine, Geo.great_circle.
  by rewrite (hav_a_sym lat1 lon1 lat2 lon2).
Qed.


End Haversine.



(* ===================================================================== *)
(** * Further properties: the nearest-stop search *)
(* ===================================================================== *)

Section MinRange.
Local Open Scope R_scope.
Variable key : nat -> R.


End MinRange.


(* ===================================================================== *)
(** * Further properties: LocationConsumer *)
(* ===================================================================== *)



(** X6.  For a bus id that is in no row of the bus table,
    [_save_bus_location] and [_clear_bus_location] return [False] and leave
    the database untouched, and a fix received on a driver connection for
    that id is neither numbered nor broadcast. *)
Theorem unknown_bus_changes_nothing bus_id d :
  Db.get_bus bus_id d = None ->
  (forall lat lng now,
     LocationConsumer._save_bus_location bus_id lat lng now d = (false, d)) /\
  (forall now, LocationConsumer._clear_bus_location bus_id now d = (false, d)) /\
  (forall self lat lng w,
     LocationConsumer.bus_id self = bus_id -> db w = d ->
     LocationConsumer.receive self
       (LocationConsumer.json_object (Some "location") (Some lat) (Some lng)) w
     = (self, w)).
Proof.
  intros Hmissing.
  assert (forall lat lng now,
    LocationConsumer._save_bus_location bus_id lat lng now d = (false, d))
    as Hsave.
  { intros lat lng now. unfold LocationConsumer._save_bus_location.
    by rewrite Hmissing. }
  split; [done|]. split.
  - intros now. unfold LocationConsumer._clear_bus_location. by rewrite Hmissing.
  - intros self lat lng w Hid Hdb.
    destruct (LocationConsumer.is_driver self) eqn:Hrole;
      [|by apply receive_location_not_driver].
    rewrite receive_driver_fix by done. cbv zeta.
    rewrite Hid, Hdb, Hsave. cbn. subst d. by destruct w.
Qed.

Lemma unknown_bus_changes_nothing_witness :
  LocationConsumer._save_bus_location 7 27.70 85.30 1000 Example.idle
  = (false, Example.idle).
Proof.
  by apply (unknown_bus_changes_nothing 7 Example.idle eq_refl).
Defined.

(** X7.  The first position is accepted unconditionally: when the stored
    latitude or the stored longitude of the bus is null, every fix is
    stored on the bus (with the time of the update), mirrored onto the
    driver and reported as saved. *)
Theorem first_fix_is_accepted bus_id lat lng now d bus driver user :
  Db.get_bus bus_id d = Some bus ->
  Db.get_driver (Bus.driver bus) d = Some driver ->
  Db.get_user (Driver.user driver) d = Some user ->
  Bus.current_lat bus = None \/ Bus.current_lng bus = None ->
  exists d' bus' driver',
    LocationConsumer._save_bus_location bus_id lat lng now d = (true, d') /\
    Db.get_bus bus_id d' = Some bus' /\
    Bus.current_lat bus' = Some lat /\
    Bus.current_lng bus' = Some lng /\
    Bus.updated_at bus' = Some now /\
    Db.get_driver (Bus.driver bus) d' = Some driver' /\
    Driver.current_lat driver' = Some lat /\
    Driver.current_lng driver' = Some lng.
Proof.
  intros Hbus Hdriver Huser Hnull.
  destruct (save_bus_location_stores bus_id lat lng now d bus driver user)
    as (d' & bus' & driver' & Hsave & Hget & Hlat & Hlng & Hnow & _ & Hd & Hrest);
    try done.
  { apply moved_too_little_falsy. destruct Hnull as [-> | ->]; [done|].
    apply andb_false_r. }
  by exists d', bus', driver'.
Qed.

Lemma first_fix_is_accepted_witness :
  exists d' bus',
    LocationConsumer._save_bus_location 1 27.70 85.30 1000 Example.idle
    = (true, d') /\
    Db.get_bus 1 d' = Some bus' /\
    Bus.current_lat bus' = Some 27.70%R /\ Bus.current_lng bus' = Some 85.30%R.
Proof.
  destruct (first_fix_is_accepted 1 27.70 85.30 1000 Example.idle
              (Example.bus_at None None None 0) (Example.driver_at None None)
              Example.driver_account eq_refl eq_refl eq_refl (or_introl eq_refl))
    as (d' & bus' & _ & Hsave & Hget & Hlat & Hlng & _).
  by exists d', bus'.
Defined.

Section Frame.
Variables (bus_id driver_id : nat).

Lemma kept_refl d : FrameSpec.kept bus_id driver_id d d.
Proof.
  repeat split; try done; apply Forall2_same_length_lookup_2; try done;
    intros i x y Hx Hy; rewrite Hx in Hy; injection Hy as <-; by repeat split.
Qed.

Lemma kept_trans d1 d2 d3 :
  FrameSpec.kept bus_id driver_id d1 d2 -> FrameSpec.kept bus_id driver_id d2 d3 ->
  FrameSpec.kept bus_id driver_id d1 d3.
Proof.
  intros (Hu & Hr & Hm & Hb & Hd) (Hu' & Hr' & Hm' & Hb' & Hd').
  split; [congruence|]. split; [congruence|]. split; [congruence|]. split.
  - eapply Forall2_trans; [|exact Hb|exact Hb'].
    intros x y z (Hxy & Hi & Hdr & Hro & Hc) (Hyz & Hi' & Hdr' & Hro' & Hc').
    repeat split; try congruence.
    intros Hother. rewrite Hyz, Hxy; [done|done|]. by rewrite Hxy.
  - eapply Forall2_trans; [|exact Hd|exact Hd'].
    intros x y z (Hxy & Hi & Hus) (Hyz & Hi' & Hus').
    repeat split; try congruence.
    intros Hother. rewrite Hyz, Hxy; [done|done|]. by rewrite Hxy.
Qed.

Lemma bus_copies_route obj fields row :
  Bus.f_route ∉ fields ->
  Bus.route (foldl (Bus.copy obj) row fields) = Bus.route row.
Proof.
  revert row. induction fields as [|f fields IH]; intros row Hnot; [done|].
  apply not_elem_of_cons in Hnot as [Hf Hnot]. cbn.
  rewrite IH by done. by destruct f.
Qed.

Lemma bus_copies_counter obj fields row :
  Bus.f_eta_passed_counter ∉ fields ->
  Bus.eta_passed_counter (foldl (Bus.copy obj) row fields)
  = Bus.eta_passed_counter row.
Proof.
  revert row. induction fields as [|f fields IH]; intros row Hnot; [done|].
  apply not_elem_of_cons in Hnot as [Hf Hnot]. cbn.
  rewrite IH by done. by destruct f.
Qed.

Lemma save_bus_kept fields obj d :
  Bus.id obj = bus_id ->
  Bus.f_route ∉ fields -> Bus.f_eta_passed_counter ∉ fields ->
  FrameSpec.kept bus_id driver_id d (Db.save_bus fields obj d).
Proof.
  intros Hid Hroute Hcounter.
  split; [done|]. split; [done|]. split; [done|]. split; cbn.
  - apply Forall2_fmap_r, Forall_Forall2_diag, Forall_forall. intros row _.
    unfold compose, FrameSpec.bus_kept.
    destruct (Nat.eqb (Bus.id row) (Bus.id obj)) eqn:Hrow.
    + apply Nat.eqb_eq in Hrow. split; [congruence|].
      by rewrite bus_copies_id, bus_copies_driver, bus_copies_route,
        bus_copies_counter.
    + by repeat split.
  - apply Forall_Forall2_diag, Forall_forall. intros row _. by repeat split.
Qed.

Lemma save_driver_kept fields obj d :
  Driver.id obj = driver_id ->
  FrameSpec.kept bus_id driver_id d (Db.save_driver fields obj d).
Proof.
  intros Hid.
  split; [done|]. split; [done|]. split; [done|]. split; cbn.
  - apply Forall_Forall2_diag, Forall_forall. intros row _. by repeat split.
  - apply Forall2_fmap_r, Forall_Forall2_diag, Forall_forall. intros row _.
    unfold compose, FrameSpec.driver_kept.
    destruct (Nat.eqb (Driver.id row) (Driver.id obj)) eqn:Hrow.
    + apply Nat.eqb_eq in Hrow. split; [congruence|].
      by rewrite driver_copies_id, driver_copies_user.
    + by repeat split.
Qed.
End Frame.

(** Closes a goal [f ∉ [f1; ...; fn]] over distinct field names. *)
Ltac field_not_listed :=
  rewrite ?not_elem_of_cons; repeat split;
  first [discriminate | apply not_elem_of_nil].

Lemma nearest_stop_and_eta_id bus lat lng d bus' :
  LocationConsumer.nearest_stop_and_eta bus lat lng d = Some bus' ->
  Bus.id bus' = Bus.id bus.
Proof.
  unfold LocationConsumer.nearest_stop_and_eta.
  destruct (Db.get_route _ _); [|done]. cbv zeta.
  destruct (Stop.nearest_index _ _ _); [|done].
  intros [= <-]. by repeat case_match.
Qed.

(** X8.  Whatever the fix and whether or not it is accepted,
    [_save_bus_location] touches no table but the buses and the drivers;
    there it changes no row of another bus and no row of another driver, and
    on the rows it does change it leaves the keys, the bus's driver and
    route, the driver's account and the passed-stop counter as they were. *)
Theorem save_bus_location_frame bus_id lat lng now d bus :
  Db.get_bus bus_id d = Some bus ->
  FrameSpec.kept bus_id (Bus.driver bus) d
    (LocationConsumer._save_bus_location bus_id lat lng now d).2.
Proof.
  intros Hbus. pose proof (get_bus_id _ _ _ Hbus) as Hid.
  unfold LocationConsumer._save_bus_location. rewrite Hbus.
  destruct (LocationConsumer.moved_too_little bus lat lng); [apply kept_refl|].
  cbv zeta.
  set (bus1 := Bus.set_updated_at _ _).
  set (d1 := Db.save_bus _ bus1 d).
  assert (FrameSpec.kept bus_id (Bus.driver bus) d d1) as H1.
  { apply save_bus_kept; [done|field_not_listed..]. }
  destruct (Db.get_driver (Bus.driver bus1) d1) as [driver|] eqn:Hdriver;
    [|done].
  set (driver1 := Driver.set_current_lng _ _).
  set (d2 := Db.save_driver _ driver1 d1).
  assert (FrameSpec.kept bus_id (Bus.driver bus) d d2) as H2.
  { eapply kept_trans; [exact H1|]. apply save_driver_kept.
    by apply get_driver_id in Hdriver. }
  destruct (Db.get_user (Driver.user driver1) d2); [|done].
  destruct (LocationConsumer.nearest_stop_and_eta bus1 lat lng d2) as [bus2|]
    eqn:Hbus2; [|done].
  eapply kept_trans; [exact H2|]. apply save_bus_kept; [|field_not_listed..].
  by rewrite (nearest_stop_and_eta_id _ _ _ _ _ Hbus2).
Qed.

Lemma save_bus_location_frame_witness :
  FrameSpec.kept 1 1 (Example.database
                        (Example.bus_at (Some 27.70%R) (Some 85.30%R) None 0) [])
    (LocationConsumer._save_bus_location 1 27.71 85.31 1000
       (Example.database
          (Example.bus_at (Some 27.70%R) (Some 85.30%R) None 0) [])).2.
Proof.
  exact (save_bus_location_frame 1 27.71 85.31 1000
           (Example.database
              (Example.bus_at (Some 27.70%R) (Some 85.30%R) None 0) [])
           (Example.bus_at (Some 27.70%R) (Some 85.30%R) None 0) eq_refl).
Defined.



(** How a connection that is not the driver's is greeted. *)
Lemma connect_passenger_log channel user bus_id w :
  match user with
  | Some u => LocationConsumer._is_driver_for_bus (User.id u) bus_id (db w) = false
  | None => True
  end ->
  log (LocationConsumer.connect channel user bus_id w).2
  = log w ++ [group_add ("bus_" +:+ pretty bus_id) channel; accept]
    ++ match LocationConsumer._get_last_bus_location bus_id (db w) with
       | Some (lat, lng) =>
           [send (location_update lat lng true (-1)); send LocationConsumer.waiting]
       | None => [send LocationConsumer.waiting]
       end.
Proof.
  intros Hrole. rewrite connect_result. cbn.
  destruct user as [u|]; [by rewrite Hrole|done].
Qed.

(** X10.  Save and replay agree: after an accepted fix with non-zero
    latitude and longitude, [_get_last_bus_location] returns exactly that
    fix, and a passenger who connects next is sent it as the historical
    [location_update] (sequence -1) followed by [waiting]; an accepted fix
    with a zero coordinate is stored but never replayed. *)
Theorem saved_fix_is_replayed bus_id lat lng now d bus driver user :
  Db.get_bus bus_id d = Some bus ->
  Db.get_driver (Bus.driver bus) d = Some driver ->
  Db.get_user (Driver.user driver) d = Some user ->
  LocationConsumer.moved_too_little bus lat lng = false ->
  exists d',
    LocationConsumer._save_bus_location bus_id lat lng now d = (true, d') /\
    (lat <> 0%R -> lng <> 0%R ->
       LocationConsumer._get_last_bus_location bus_id d' = Some (lat, lng) /\
       forall channel w,
         db w = d' ->
         log (LocationConsumer.connect channel None bus_id w).2
         = log w ++ [group_add ("bus_" +:+ pretty bus_id) channel; accept;
                     send (location_update lat lng true (-1));
                     send LocationConsumer.waiting]) /\
    (lat = 0%R \/ lng = 0%R ->
       LocationConsumer._get_last_bus_location bus_id d' = None).
Proof.
  intros Hbus Hdriver Huser Hmoved.
  destruct (save_bus_location_stores bus_id lat lng now d bus driver user)
    as (d' & bus' & driver' & Hsave & Hget & Hlat & Hlng & _); try done.
  exists d'. split; [done|].
  unfold LocationConsumer._get_last_bus_location. rewrite Hget, Hlat, Hlng. cbn.
  split.
  - intros Hlat0 Hlng0. rewrite !bool_decide_true by done. cbn.
    split; [done|]. intros channel w Hdb.
    rewrite connect_passenger_log by done.
    unfold LocationConsumer._get_last_bus_location.
    rewrite Hdb, Hget, Hlat, Hlng. cbn. by rewrite !bool_decide_true by done.
  - intros [-> | ->].
    + by rewrite bool_decide_false by (intros H; by apply H).
    + rewrite (bool_decide_false (0 <> 0)%R) by (intros H; by apply H).
      by rewrite andb_false_r.
Qed.

Lemma saved_fix_is_replayed_witness :
  exists d',
    LocationConsumer._save_bus_location 1 27.70 85.30 1000 Example.idle
    = (true, d') /\
    LocationConsumer._get_last_bus_location 1 d' = Some (27.70%R, 85.30%R).
Proof.
  destruct (saved_fix_is_replayed 1 27.70 85.30 1000 Example.idle
              (Example.bus_at None None None 0) (Example.driver_at None None)
              Example.driver_account eq_refl eq_refl eq_refl eq_refl)
    as (d' & Hsave & Hreplay & _).
  exists d'. split; [exact Hsave|].
  apply Hreplay; lra.
Defined.

(** X11.  Once the driver's connection has closed, the bus has no last
    location: [_get_last_bus_location] returns nothing, and a passenger who
    connects next is sent [waiting] and no replay. *)
Theorem no_replay_after_driver_disconnect self w bus driver user :
  LocationConsumer.is_driver self = true ->
  Db.get_bus (LocationConsumer.bus_id self) (db w) = Some bus ->
  Db.get_driver (Bus.driver bus) (db w) = Some driver ->
  Db.get_user (Driver.user driver) (db w) = Some user ->
  let w' := (LocationConsumer.disconnect self w).2 in
  LocationConsumer._get_last_bus_location (LocationConsumer.bus_id self) (db w')
  = None /\
  forall channel,
    log (LocationConsumer.connect channel None (LocationConsumer.bus_id self) w').2
    = log w' ++ [group_add ("bus_" +:+ pretty (LocationConsumer.bus_id self)) channel;
                 accept; send LocationConsumer.waiting].
Proof.
  intros Hrole Hbus Hdriver Huser w'.
  assert (LocationConsumer._get_last_bus_location (LocationConsumer.bus_id self)
            (db w') = None) as Hnone.
  { unfold w', LocationConsumer.disconnect, mbind, M_bind, db_call, emit.
    rewrite Hrole. destruct w as [d t l]. cbn in *.
    destruct (clear_bus_location_clears _ t d bus driver user Hbus Hdriver Huser)
      as (d' & -> & Hrow & _).
    cbn. unfold LocationConsumer._get_last_bus_location. by rewrite Hrow. }
  split; [done|]. intros channel.
  rewrite connect_passenger_log by done. by rewrite Hnone.
Qed.

Lemma no_replay_after_driver_disconnect_witness :
  let d := Example.database
             (Example.bus_at (Some 27.70%R) (Some 85.30%R) (Some 0%Z) 0) [] in
  let w' := (LocationConsumer.disconnect (Example.driver_session d)
               (Example.world d)).2 in
  LocationConsumer._get_last_bus_location 1 (db w') = None.
Proof.
  intros d w'.
  exact (proj1 (no_replay_after_driver_disconnect (Example.driver_session d)
                  (Example.world d)
                  (Example.bus_at (Some 27.70%R) (Some 85.30%R) (Some 0%Z) 0)
                  (Example.driver_at (Some 27.70%R) (Some 85.30%R))
                  Example.driver_account eq_refl eq_refl eq_refl eq_refl)).
Defined.


(* ===================================================================== *)
(** * Further properties: ChatConsumer *)
(* ===================================================================== *)

(** [receive] for an event that gets through: store, then publish. *)
Lemma receive_delivers self sender text recipient_id bus_id w recipient :
  ChatConsumer.scope_user self = Some sender ->
  ChatConsumer.resolve_recipient (User.id sender) recipient_id bus_id (db w)
  = Some recipient ->
  recipient <> 0%nat -> text <> "" ->
  ChatConsumer.receive self
    (ChatConsumer.json_object (Some "chat_message") (Some text) recipient_id
       bus_id) w
  = ChatConsumer.publish sender recipient text bus_id
      (mkWorld
         (ChatConsumer._create_message (User.id sender) recipient bus_id text
            (now w) (db w)).2
         (now w) (log w)).
Proof.
  intros Hsender Hresolved Hrecipient Htext. unfold ChatConsumer.receive.
  rewrite bool_decide_true, Hsender by done.
  unfold mbind, M_bind, db_read, db_call. rewrite Hresolved. cbn.
  rewrite (proj2 (Nat.eqb_neq recipient 0)) by done.
  rewrite (proj2 (String.eqb_neq text "")) by done. cbn.
  by destruct (ChatConsumer._create_message _ _ _ _ _ _).
Qed.

Lemma create_message_keeps_drivers sender_id recipient_id bus_id text now d :
  Db.drivers (ChatConsumer._create_message sender_id recipient_id bus_id text
                now d).2
  = Db.drivers d.
Proof.
  unfold ChatConsumer._create_message.
  by destruct (Db.get_user sender_id d), (Db.get_user recipient_id d).
Qed.

Lemma receive_delivers_db self sender text recipient_id bus_id w recipient :
  ChatConsumer.scope_user self = Some sender ->
  ChatConsumer.resolve_recipient (User.id sender) recipient_id bus_id (db w)
  = Some recipient ->
  recipient <> 0%nat -> text <> "" ->
  db (ChatConsumer.receive self
        (ChatConsumer.json_object (Some "chat_message") (Some text)
           recipient_id bus_id) w).2
  = (ChatConsumer._create_message (User.id sender) recipient bus_id text
       (now w) (db w)).2.
Proof.
  intros Hsender Hresolved Hrecipient Htext.
  rewrite (receive_delivers self sender text recipient_id bus_id w recipient)
    by done.
  by destruct (publish_log sender recipient text bus_id
                 (mkWorld (ChatConsumer._create_message (User.id sender)
                             recipient bus_id text (now w) (db w)).2
                    (now w) (log w)))
    as [later ->].
Qed.

(** What [receive] appends to the log for a message that gets through. *)
Lemma receive_fan_out_log self sender text recipient_id bus_id w recipient :
  ChatConsumer.scope_user self = Some sender ->
  ChatConsumer.resolve_recipient (User.id sender) recipient_id bus_id (db w)
  = Some recipient ->
  recipient <> 0%nat -> text <> "" ->
  log (ChatConsumer.receive self
         (ChatConsumer.json_object (Some "chat_message") (Some text)
            recipient_id bus_id) w).2
  = log w
    ++ ((fun group =>
           group_send group
             (chat_message_forward (User.id sender) (User.username sender)
                recipient text bus_id))
          <$> ChannelSpec.fan_out (User.id sender) recipient
                (Db.driver_exists (User.id sender) (db w))).
Proof.
  intros Hsender Hresolved Hrecipient Htext.
  rewrite (receive_delivers self sender text recipient_id bus_id w recipient)
    by done.
  set (sid := User.id sender).
  assert (Db.driver_exists sid
            (ChatConsumer._create_message sid recipient bus_id text (now w)
               (db w)).2
          = Db.driver_exists sid (db w)) as Hdriver.
  { unfold Db.driver_exists, Db.driver_profile.
    by rewrite create_message_keeps_drivers. }
  revert Hdriver.
  generalize (ChatConsumer._create_message sid recipient bus_id text (now w)
                (db w)).2.
  intros d' Hdriver.
  unfold ChatConsumer.publish, mbind, M_bind, emit, db_read.
  unfold mret, M_ret. cbn [fst snd db now log]. fold sid.
  unfold ChannelSpec.fan_out.
  destruct (decide (recipient = sid)) as [->|Hother].
  - rewrite Nat.eqb_refl. cbn [negb fst snd db now log]. rewrite Hdriver.
    destruct (Db.driver_exists sid (db w)); cbn; by rewrite <- !app_assoc.
  - rewrite (proj2 (Nat.eqb_neq recipient sid)) by done.
    cbn [negb fst snd db now log]. rewrite Hdriver.
    destruct (Db.driver_exists sid (db w)); cbn; by rewrite <- !app_assoc.
Qed.

(** X13.  A chat message that gets through is published with one and the
    same payload to: the recipient's [user_] group; the legacy room
    [chat_user_<recipient>_driver_<sender>]; the recipient's [driver_] group
    unless the sender writes to itself; and back to the sender, on
    [driver_<sender>] when the sender is a driver, else on [user_<sender>]
    and the legacy room [chat_user_<sender>_driver_<recipient>].  Nothing
    else reaches the channel layer or the socket. *)
Theorem chat_fan_out self sender text recipient_id bus_id w recipient :
  ChatConsumer.scope_user self = Some sender ->
  ChatConsumer.resolve_recipient (User.id sender) recipient_id bus_id (db w)
  = Some recipient ->
  recipient <> 0%nat -> text <> "" ->
  let sid := User.id sender in
  let payload :=
    chat_message_forward sid (User.username sender) recipient text bus_id in
  let groups :=
    ["user_" +:+ pretty recipient;
     "chat_user_" +:+ pretty recipient +:+ "_driver_" +:+ pretty sid]
    ++ (if decide (recipient = sid) then [] else ["driver_" +:+ pretty recipient])
    ++ (if Db.driver_exists sid (db w) then ["driver_" +:+ pretty sid]
        else ["user_" +:+ pretty sid;
              "chat_user_" +:+ pretty sid +:+ "_driver_" +:+ pretty recipient]) in
  log (ChatConsumer.receive self
         (ChatConsumer.json_object (Some "chat_message") (Some text)
            recipient_id bus_id) w).2
  = log w ++ ((fun group => group_send group payload) <$> groups)
  /\ (3 <= length groups <= 5)%nat.
Proof.
  intros Hsender Hresolved Hrecipient Htext sid payload groups.
  split.
  - by apply receive_fan_out_log.
  - unfold groups. rewrite !length_app.
    destruct (decide (recipient = sid)), (Db.driver_exists sid (db w)); cbn; lia.
Qed.

Lemma chat_fan_out_witness :
  log (ChatConsumer.receive Example.passenger_chat
         (ChatConsumer.json_object (Some "chat_message") (Some "hello") None
            (Some 1%nat)) (Example.world Example.inbox)).2
  = (fun group =>
       group_send group
         (chat_message_forward 2 "sita" 1 "hello" (Some 1%nat)))
    <$> ["user_1"; "chat_user_1_driver_2"; "driver_1"; "user_2";
         "chat_user_2_driver_1"].
Proof.
  exact (proj1 (chat_fan_out Example.passenger_chat Example.passenger_account
                  "hello" None (Some 1%nat) (Example.world Example.inbox) 1
                  eq_refl eq_refl (Nat.neq_succ_0 0) ltac:(discriminate))).
Defined.

(** X14.  A chat message that gets through is stored as exactly one new
    row, appended after the existing ones and carrying sender, recipient,
    content, the time of the call, [read = False] and the bus of a non-zero
    [bus_id] that names one (no bus otherwise), when the accounts of sender
    and recipient both exist; when one of them does not, nothing is
    stored (the message is published all the same).  No other table
    changes. *)
Theorem chat_message_is_stored self sender text recipient_id bus_id w recipient :
  ChatConsumer.scope_user self = Some sender ->
  ChatConsumer.resolve_recipient (User.id sender) recipient_id bus_id (db w)
  = Some recipient ->
  recipient <> 0%nat -> text <> "" ->
  let d := db w in
  let d' := db (ChatConsumer.receive self
                  (ChatConsumer.json_object (Some "chat_message") (Some text)
                     recipient_id bus_id) w).2 in
  Db.users d' = Db.users d /\ Db.drivers d' = Db.drivers d /\
  Db.buses d' = Db.buses d /\ Db.routes d' = Db.routes d /\
  (is_Some (Db.get_user (User.id sender) d) ->
   is_Some (Db.get_user recipient d) ->
   Db.messages d'
   = Db.messages d
     ++ [Message.mk (User.id sender) recipient
           (Bus.id <$> (bus_id ≫= fun k =>
                          if Nat.eqb k 0 then None else Db.get_bus k d))
           text (now w) false]) /\
  (Db.get_user (User.id sender) d = None \/ Db.get_user recipient d = None ->
   Db.messages d' = Db.messages d).
Proof.
  intros Hsender Hresolved Hrecipient Htext d d'.
  assert (d' = (ChatConsumer._create_message (User.id sender) recipient bus_id
                  text (now w) d).2) as ->
    by (by apply receive_delivers_db).
  unfold ChatConsumer._create_message.
  destruct (Db.get_user (User.id sender) d) as [a|] eqn:Ha;
    [destruct (Db.get_user recipient d) as [b|] eqn:Hb|]; cbn.
  - do 4 (split; [done|]). split; [|by intros [?|?]].
    intros _ _. apply (find_key_eq User.id) in Ha, Hb. rewrite Ha, Hb.
    destruct bus_id as [k|]; [|done]. cbn. by destruct (Nat.eqb k 0).
  - do 4 (split; [done|]). split; [|done]. by intros _ [? [=]].
  - do 4 (split; [done|]). split; [|done]. by intros [? [=]].
Qed.

Lemma chat_message_is_stored_witness :
  Db.messages
    (db (ChatConsumer.receive Example.passenger_chat
           (ChatConsumer.json_object (Some "chat_message") (Some "hello") None
              (Some 1%nat)) (Example.world Example.idle)).2)
  = [Message.mk 2 1 (Some 1%nat) "hello" 1000 false].
Proof.
  destruct (chat_message_is_stored Example.passenger_chat
              Example.passenger_account "hello" None (Some 1%nat)
              (Example.world Example.idle) 1 eq_refl eq_refl
              (Nat.neq_succ_0 0) ltac:(discriminate))
    as (_ & _ & _ & _ & Hstored & _).
  exact (Hstored (mk_is_Some _ _ eq_refl) (mk_is_Some _ _ eq_refl)).
Defined.





(** The groups a connection without room name is in: the personal group of
    its role. *)
Lemma chat_connect_joined channel account w :
  ChannelSpec.joined channel
    (ChannelSpec.appended w
       (ChatConsumer.connect channel (Some account) None w).2)
  = [(if Db.driver_exists (User.id account) (db w) then "driver_" else "user_")
     +:+ pretty (User.id account)].
Proof.
  unfold ChannelSpec.appended, ChatConsumer.connect, mbind, M_bind, emit,
    db_read, mret, M_ret.
  cbn [Py.truthy_str fst snd db now log andb negb].
  destruct (Db.driver_exists (User.id account) (db w));
    cbn [fst snd db now log]; rewrite <- app_assoc, drop_app_length;
    cbn; by rewrite bool_decide_true.
Qed.

Lemma appended_app w w' actions :
  log w' = log w ++ actions -> ChannelSpec.appended w w' = actions.
Proof. intros Hlog. unfold ChannelSpec.appended. by rewrite Hlog, drop_app_length. Qed.

(** Group names of different kinds, or of different accounts, differ. *)
Lemma append_inj_l (kind x y : string) : kind +:+ x = kind +:+ y -> x = y.
Proof.
  induction kind as [|c kind IH]; cbn; [done|]. intros [= Heq]. by apply IH.
Qed.

Lemma personal_group_inj (kind : string) (a b : nat) :
  kind +:+ pretty a = kind +:+ pretty b -> a = b.
Proof. intros Heq%append_inj_l. by apply (inj pretty). Qed.

(** The decimal numerals of [pretty] have no underscore, so that a legacy
    room name names its two accounts unambiguously. *)
Lemma pretty_N_go_no_underscore (x : N) : forall s : string,
  ~ In "_"%char (list_ascii_of_string s) ->
  ~ In "_"%char (list_ascii_of_string (pretty_N_go x s)).
Proof.
  induction (N.lt_wf_0 x) as [x _ IH]. intros s Hs.
  assert (x = 0 \/ 0 < x)%N as [->|Hpos] by lia; [by rewrite pretty_N_go_0|].
  rewrite pretty_N_go_step by done. apply IH; [by apply N.div_lt|].
  cbn. intros [Hchar|Hin]; [|by apply Hs].
  revert Hchar. unfold pretty_N_char. by repeat case_match.
Qed.

Lemma pretty_no_underscore (n : nat) :
  ~ In "_"%char (list_ascii_of_string (pretty n)).
Proof.
  unfold pretty, pretty_nat, pretty, pretty_N. case_decide.
  - cbn. by intros [[=]|[]].
  - apply pretty_N_go_no_underscore. by intros [].
Qed.

Lemma split_at_underscore (x y r r' : string) :
  ~ In "_"%char (list_ascii_of_string x) ->
  ~ In "_"%char (list_ascii_of_string y) ->
  x +:+ String "_" r = y +:+ String "_" r' -> x = y /\ r = r'.
Proof.
  revert y. induction x as [|c x IH]; intros [|c' y] Hx Hy; cbn.
  - by intros [= ->].
  - intros [= <- _]. destruct Hy. by left.
  - intros [= -> _]. destruct Hx. by left.
  - intros [= -> Heq]. destruct (IH y) as [-> ->]; [| |done|done].
    + intros Hin. apply Hx. by right.
    + intros Hin. apply Hy. by right.
Qed.

Lemma legacy_room_inj (a b c d : nat) :
  "chat_user_" +:+ pretty a +:+ "_driver_" +:+ pretty b
  = "chat_user_" +:+ pretty c +:+ "_driver_" +:+ pretty d ->
  a = c /\ b = d.
Proof.
  intros Heq%append_inj_l.
  change (pretty a +:+ String "_" ("driver_" +:+ pretty b)
          = pretty c +:+ String "_" ("driver_" +:+ pretty d)) in Heq.
  apply split_at_underscore in Heq as [Hac Hbd];
    [|apply pretty_no_underscore..].
  split; [by apply (inj pretty)|by apply (personal_group_inj "driver_")].
Qed.

Lemma prefix_append (kind x : string) : String.prefix kind (kind +:+ x) = true.
Proof.
  induction kind as [|c kind IH]; [by destruct x|].
  change (String c kind +:+ x) with (String c (kind +:+ x)). cbn.
  by destruct (ascii_dec c c).
Qed.

(** The one group of a passenger's connection opened, as [track_bus] has
    it, on the legacy room [user_<passenger>_driver_<driver>]. *)
Lemma chat_connect_joined_legacy channel account (other : nat) w :
  Db.driver_exists (User.id account) (db w) = false ->
  ChannelSpec.joined channel
    (ChannelSpec.appended w
       (ChatConsumer.connect channel (Some account)
          (Some ("user_" +:+ pretty (User.id account) +:+ "_driver_"
                   +:+ pretty other)) w).2)
  = ["chat_user_" +:+ pretty (User.id account) +:+ "_driver_" +:+ pretty other].
Proof.
  intros Hpassenger.
  unfold ChannelSpec.appended, ChatConsumer.connect, mbind, M_bind, emit,
    db_read, mret, M_ret.
  set (room := "user_" +:+ _).
  assert (Py.truthy_str (Some room) = true) as -> by done.
  assert (String.prefix "user_" (default "" (Some room)) = true) as ->
    by apply prefix_append.
  cbn -[Db.driver_exists room drop ChannelSpec.joined].
  rewrite Hpassenger. cbn -[room drop ChannelSpec.joined].
  rewrite <- app_assoc, drop_app_length. cbn. by rewrite bool_decide_true.
Qed.

(** Refutes an equation between a group name and a different one. *)
Ltac distinct_groups Heq :=
  first [ by cbn -[pretty] in Heq
        | apply (personal_group_inj "user_") in Heq; congruence
        | apply (personal_group_inj "driver_") in Heq; congruence
        | apply legacy_room_inj in Heq; destruct Heq; congruence ].

(** Decides, publication by publication, whether its group is the one the
    connection is in. *)
Ltac count_copies :=
  repeat first
    [ rewrite bool_decide_true by (apply list_elem_of_singleton; reflexivity)
    | rewrite bool_decide_false
        by (rewrite list_elem_of_singleton;
            let Heq := fresh in intros Heq; distinct_groups Heq) ];
  reflexivity.

(** X24.  Exactly-once delivery.  When a chat message between two different
    accounts gets through, a connection of the recipient or of the sender is
    handed exactly one copy of it by the channel layer, that is, exactly one
    of the groups the message is published to is a group that [connect]
    joined, in both ways the pages open a chat connection: without room name
    (under the role the account has when the message is sent), and, for an
    account without driver profile, on the legacy room
    [user_<own id>_driver_<other party>] that [track_bus] hands out. *)
Theorem chat_delivered_once self sender text recipient_id bus_id w recipient
    channel account other room_name w0 :
  ChatConsumer.scope_user self = Some sender ->
  ChatConsumer.resolve_recipient (User.id sender) recipient_id bus_id (db w)
  = Some recipient ->
  recipient <> 0%nat -> text <> "" ->
  recipient <> User.id sender ->
  User.id account = recipient /\ other = User.id sender \/
  User.id account = User.id sender /\ other = recipient ->
  Db.driver_exists (User.id account) (db w0)
  = Db.driver_exists (User.id account) (db w) ->
  room_name = None \/
  Db.driver_exists (User.id account) (db w0) = false /\
  room_name = Some ("user_" +:+ pretty (User.id account) +:+ "_driver_"
                      +:+ pretty other) ->
  let groups :=
    ChannelSpec.joined channel
      (ChannelSpec.appended w0
         (ChatConsumer.connect channel (Some account) room_name w0).2) in
  ChannelSpec.delivered groups
    (ChannelSpec.appended w
       (ChatConsumer.receive self
          (ChatConsumer.json_object (Some "chat_message") (Some text)
             recipient_id bus_id) w).2)
  = [chat_message_forward (User.id sender) (User.username sender) recipient
       text bus_id].
Proof.
  intros Hsender Hresolved Hrecipient Htext Hother Haccount Hrole Hroom groups.
  unfold groups.
  rewrite (appended_app w _ _
             (receive_fan_out_log self sender text recipient_id bus_id w
                recipient Hsender Hresolved Hrecipient Htext)).
  set (sid := User.id sender) in *.
  unfold ChannelSpec.fan_out. rewrite decide_False by done.
  unfold ChannelSpec.delivered.
  destruct Hroom as [-> | [Hpassenger ->]].
  - rewrite chat_connect_joined, Hrole.
    destruct Haccount as [[-> _] | [-> _]].
    + destruct (Db.driver_exists recipient (db w)),
               (Db.driver_exists sid (db w));
        cbn [app fmap list_fmap omap list_omap]; count_copies.
    + destruct (Db.driver_exists sid (db w));
        cbn [app fmap list_fmap omap list_omap]; count_copies.
  - rewrite chat_connect_joined_legacy by done. rewrite Hrole in Hpassenger.
    destruct Haccount as [[Hid ->] | [Hid ->]]; rewrite Hid in *.
    + destruct (Db.driver_exists sid (db w));
        cbn [app fmap list_fmap omap list_omap]; count_copies.
    + rewrite Hpassenger.
      cbn [app fmap list_fmap omap list_omap]; count_copies.
Qed.

Lemma chat_delivered_once_witness :
  let w := Example.world Example.inbox in
  ChannelSpec.delivered
    (ChannelSpec.joined "driver-chat"
       (ChannelSpec.appended w
          (ChatConsumer.connect "driver-chat" (Some Example.driver_account)
             None w).2))
    (ChannelSpec.appended w
       (ChatConsumer.receive Example.passenger_chat
          (ChatConsumer.json_object (Some "chat_message") (Some "hello") None
             (Some 1%nat)) w).2)
  = [chat_message_forward 2 "sita" 1 "hello" (Some 1%nat)].
Proof.
  intros w.
  exact (chat_delivered_once Example.passenger_chat Example.passenger_account
           "hello" None (Some 1%nat) w 1 "driver-chat" Example.driver_account
           2 None w eq_refl eq_refl (Nat.neq_succ_0 0) ltac:(discriminate)
           ltac:(discriminate) (or_introl (conj eq_refl eq_refl)) eq_refl
           (or_introl eq_refl)).
Defined.

(** X25.  A message to oneself.  When the resolved recipient is the sender,
    the forward to [driver_<recipient>] is skipped, so that a driver's
    connection (opened without room name) is handed one copy; the echo to
    [user_<sender>] is not skipped, so that the connection of an account
    without driver profile is handed the same message twice. *)
Theorem chat_to_oneself self sender text recipient_id bus_id w channel w0 :
  ChatConsumer.scope_user self = Some sender ->
  ChatConsumer.resolve_recipient (User.id sender) recipient_id bus_id (db w)
  = Some (User.id sender) ->
  User.id sender <> 0%nat -> text <> "" ->
  Db.driver_exists (User.id sender) (db w0)
  = Db.driver_exists (User.id sender) (db w) ->
  let payload :=
    chat_message_forward (User.id sender) (User.username sender)
      (User.id sender) text bus_id in
  let groups :=
    ChannelSpec.joined channel
      (ChannelSpec.appended w0
         (ChatConsumer.connect channel (Some sender) None w0).2) in
  ChannelSpec.delivered groups
    (ChannelSpec.appended w
       (ChatConsumer.receive self
          (ChatConsumer.json_object (Some "chat_message") (Some text)
             recipient_id bus_id) w).2)
  = if Db.driver_exists (User.id sender) (db w) then [payload]
    else [payload; payload].
Proof.
  intros Hsender Hresolved Hrecipient Htext Hrole payload groups.
  unfold groups. rewrite chat_connect_joined, Hrole.
  rewrite (appended_app w _ _
             (receive_fan_out_log self sender text recipient_id bus_id w
                (User.id sender) Hsender Hresolved Hrecipient Htext)).
  fold payload. set (sid := User.id sender) in *.
  unfold ChannelSpec.fan_out. rewrite decide_True by done.
  unfold ChannelSpec.delivered.
  destruct (Db.driver_exists sid (db w));
    cbn [app fmap list_fmap omap list_omap]; count_copies.
Qed.

Lemma chat_to_oneself_witness :
  let w := Example.world Example.inbox in
  ChannelSpec.delivered
    (ChannelSpec.joined "passenger-chat"
       (ChannelSpec.appended w
          (ChatConsumer.connect "passenger-chat"
             (Some Example.passenger_account) None w).2))
    (ChannelSpec.appended w
       (ChatConsumer.receive Example.passenger_chat
          (ChatConsumer.json_object (Some "chat_message") (Some "memo")
             (Some 2%nat) None) w).2)
  = [chat_message_forward 2 "sita" 2 "memo" None;
     chat_message_forward 2 "sita" 2 "memo" None].
Proof.
  intros w.
  exact (chat_to_oneself Example.passenger_chat Example.passenger_account
           "memo" (Some 2%nat) None w "passenger-chat" w eq_refl eq_refl
           (Nat.neq_succ_0 1) ltac:(discriminate) eq_refl).
Defined.

(* ===================================================================== *)
(** * Further properties: the views *)
(* ===================================================================== *)

Section UpdateLocation.
Variable settings : Views.Settings.

(** Settles the four parts of the outcome of a request answered [failed],
    given how to refute that a driver posted it. *)
Ltac answers_failed refute :=
  split; [split; [by intros [=]
                 |let H := fresh in intros [H _]; refute H]|];
  split; [split; [by intros [=]
                 |let H := fresh in intros [H _]; refute H]|];
  split; [split; [let H := fresh in intros _ H; refute H|done]|];
  done.

(** X16.  [update_location] answers with one of three statuses.  It answers
    [success] exactly for a POST of an authenticated user with a driver
    profile whose [lat] and [lng] both parse as floats (whether or not the
    driver has a bus); [error] exactly for such a request with a coordinate
    that is missing or does not parse; [failed] for every other request (an
    anonymous user is not redirected).  Unless it answers [success], the
    database is unchanged. *)
Theorem update_location_outcomes (request : Views.Request) (d : Db.t) :
  let driver_posts :=
    Views.method request = "POST" /\
    exists u, Views.user request = Some u /\
              is_Some (Db.driver_profile (User.id u) d) in
  let response := (Views.update_location settings request d).1 in
  let d' := (Views.update_location settings request d).2 in
  (response = Views.json_status 200 "success" <->
   driver_posts /\ is_Some (Views.POST_lat request)
   /\ is_Some (Views.POST_lng request)) /\
  (response = Views.json_status 200 "error" <->
   driver_posts /\ (Views.POST_lat request = None
                    \/ Views.POST_lng request = None)) /\
  (response = Views.json_status 200 "failed" <-> ~ driver_posts) /\
  (response <> Views.json_status 200 "success" -> d' = d).
Proof.
  intros driver_posts response d'. unfold response, d', driver_posts.
  unfold Views.update_location.
  destruct (Views.user request) as [u|]; cycle 1.
  { cbn. answers_failed ltac:(fun H => by destruct H as (_ & ? & [=] & _)). }
  destruct (Db.driver_profile (User.id u) d) as [driver|] eqn:Hprofile; cycle 1.
  { cbn. answers_failed
           ltac:(fun H => destruct H as (_ & ? & [= <-] & Hsome);
                          rewrite Hprofile in Hsome; by destruct Hsome). }
  destruct (String.eqb (Views.method request) "POST") eqn:Hmethod; cycle 1.
  { apply String.eqb_neq in Hmethod. cbn.
    answers_failed ltac:(fun H => by destruct H as [? _]). }
  apply String.eqb_eq in Hmethod.
  assert (Views.method request = "POST" /\
          exists u0, Some u = Some u0 /\
                     is_Some (Db.driver_profile (User.id u0) d)) as Hposts.
  { split; [done|]. exists u. split; [done|]. by rewrite Hprofile. }
  destruct (Views.POST_lat request) as [lat_f|],
           (Views.POST_lng request) as [lng_f|]; cbn.
  - split; [split; [intros _; split; [exact Hposts|split; by eexists]|done]|].
    split; [split; [by intros [=]|by intros [_ [[=]|[=]]]]|].
    split; [split; [by intros [=]|intros Hno; destruct (Hno Hposts)]|].
    intros Hne. by destruct Hne.
  - split; [split; [by intros [=]|by intros (_ & _ & ? & [=])]|].
    split; [split; [intros _; split; [exact Hposts|by right]|done]|].
    split; [split; [by intros [=]|intros Hno; destruct (Hno Hposts)]|]. done.
  - split; [split; [by intros [=]|by intros (_ & (? & [=]) & _)]|].
    split; [split; [intros _; split; [exact Hposts|by left]|done]|].
    split; [split; [by intros [=]|intros Hno; destruct (Hno Hposts)]|]. done.
  - split; [split; [by intros [=]|by intros (_ & (? & [=]) & _)]|].
    split; [split; [intros _; split; [exact Hposts|by left]|done]|].
    split; [split; [by intros [=]|intros Hno; destruct (Hno Hposts)]|]. done.
Qed.

Lemma views_nearest_stop_and_eta_keeps bus old_nearest old_eta_smoothed lat_f
    lng_f d :
  let bus' := Views.nearest_stop_and_eta settings bus old_nearest
                old_eta_smoothed lat_f lng_f d in
  Bus.id bus' = Bus.id bus /\ Bus.current_lat bus' = Bus.current_lat bus /\
  Bus.current_lng bus' = Bus.current_lng bus.
Proof.
  unfold Views.nearest_stop_and_eta. by repeat case_match.
Qed.

(** The driver's first bus after an accepted POST. *)
Lemma update_location_first_bus request d u driver lat_f lng_f bus :
  Views.method request = "POST" ->
  Views.user request = Some u ->
  Db.driver_profile (User.id u) d = Some driver ->
  Views.POST_lat request = Some lat_f ->
  Views.POST_lng request = Some lng_f ->
  Db.first_bus_of (Driver.id driver) d = Some bus ->
  let d1 := Db.save_driver [Driver.f_current_lat; Driver.f_current_lng]
              (Driver.set_current_lng (Some lng_f)
                 (Driver.set_current_lat (Some lat_f) driver)) d in
  let obj := Views.nearest_stop_and_eta settings
               (Bus.set_current_lng (Some lng_f)
                  (Bus.set_current_lat (Some lat_f) bus))
               (Bus.nearest_stop_index bus) (Bus.eta_smoothed_seconds bus)
               lat_f lng_f d1 in
  Db.first_bus_of (Driver.id driver)
    (Views.update_location settings request d).2
  = Some (foldl (Bus.copy obj) bus
            [Bus.f_current_lat; Bus.f_current_lng; Bus.f_nearest_stop_index;
             Bus.f_eta_seconds; Bus.f_eta_smoothed_seconds;
             Bus.f_eta_passed_counter]).
Proof.
  intros Hmethod Huser Hprofile Hlat Hlng Hbus d1 obj.
  unfold Views.update_location.
  rewrite Huser, Hprofile, Hmethod, String.eqb_refl, Hlat, Hlng.
  cbv zeta. fold d1.
  assert (Db.first_bus_of (Driver.id driver) d1 = Some bus) as Hbus1 by done.
  change (Driver.id (Driver.set_current_lng (Some lng_f)
                       (Driver.set_current_lat (Some lat_f) driver)))
    with (Driver.id driver).
  rewrite Hbus1. fold obj. cbn [snd].
  rewrite first_bus_of_save_bus, Hbus1. cbn [fmap option_fmap option_map].
  destruct (views_nearest_stop_and_eta_keeps
              (Bus.set_current_lng (Some lng_f)
                 (Bus.set_current_lat (Some lat_f) bus))
              (Bus.nearest_stop_index bus) (Bus.eta_smoothed_seconds bus)
              lat_f lng_f d1) as [Hid _].
  fold obj in Hid. rewrite Hid. cbn [Bus.id Bus.set_current_lng Bus.set_current_lat].
  by rewrite Nat.eqb_refl.
Qed.


(** X18.  A position posted through [update_location] is stored on the
    driver's first bus without refreshing the bus's [updated_at]
    ([save(update_fields=...)] without that field).  Hence a bus whose
    [updated_at] lies more than five minutes back is still reported by the
    homepage search as [no_location], without ETA, right after the post. *)
Theorem http_update_keeps_timestamp request d u driver lat_f lng_f bus :
  Views.method request = "POST" ->
  Views.user request = Some u ->
  Db.driver_profile (User.id u) d = Some driver ->
  Views.POST_lat request = Some lat_f ->
  Views.POST_lng request = Some lng_f ->
  Db.first_bus_of (Driver.id driver) d = Some bus ->
  exists bus',
    Db.first_bus_of (Driver.id driver)
      (Views.update_location settings request d).2 = Some bus' /\
    Bus.current_lat bus' = Some lat_f /\
    Bus.current_lng bus' = Some lng_f /\
    Bus.updated_at bus' = Bus.updated_at bus /\
    forall dijkstra get_road_distance_with_fallback now t route stops_objs
           pickup_idx,
      Bus.updated_at bus = Some t -> (5 * 60 < now - t)%Z ->
      Views.homepage_eta dijkstra get_road_distance_with_fallback now route
        bus' stops_objs pickup_idx
      = Some (Views.mkBusInfo None "no_location" None None).
Proof.
  intros Hmethod Huser Hprofile Hlat Hlng Hbus.
  eexists. split.
  { by apply (update_location_first_bus request d u driver lat_f lng_f bus). }
  set (obj := Views.nearest_stop_and_eta _ _ _ _ _ _ _).
  destruct (views_nearest_stop_and_eta_keeps
              (Bus.set_current_lng (Some lng_f)
                 (Bus.set_current_lat (Some lat_f) bus))
              (Bus.nearest_stop_index bus) (Bus.eta_smoothed_seconds bus)
              lat_f lng_f
              (Db.save_driver [Driver.f_current_lat; Driver.f_current_lng]
                 (Driver.set_current_lng (Some lng_f)
                    (Driver.set_current_lat (Some lat_f) driver)) d))
    as (_ & Hlat' & Hlng').
  fold obj in Hlat', Hlng'. clearbody obj. cbn in Hlat', Hlng'.
  cbn [foldl Bus.copy]. cbn. rewrite Hlat', Hlng'. do 3 (split; [done|]).
  intros dijkstra road now t route stops_objs pickup_idx Ht Hstale.
  unfold Views.homepage_eta. cbn. rewrite Ht.
  by rewrite bool_decide_true.
Qed.
End UpdateLocation.


Lemma http_update_keeps_timestamp_witness :
  let before := Bus.mk 1 1 1 (Some 27.70%R) (Some 85.30%R) None None 0 None
                  (Some 100%Z) in
  exists bus',
    Db.first_bus_of 1
      (Views.update_location (Views.mkSettings None None)
         (Example.driver_post (Some 27.71%R) (Some 85.31%R))
         (Example.database before [])).2 = Some bus' /\
    Bus.current_lat bus' = Some 27.71%R /\
    Bus.updated_at bus' = Some 100%Z /\
    Views.homepage_eta Example.path_1500 Example.straight_line 1000
      Example.outbound bus' (BusRoute.get_stops_list Example.outbound) 2
    = Some (Views.mkBusInfo None "no_location" None None).
Proof.
  intros before.
  destruct (http_update_keeps_timestamp (Views.mkSettings None None)
              (Example.driver_post (Some 27.71%R) (Some 85.31%R))
              (Example.database before []) Example.driver_account
              (Example.driver_at (Some 27.70%R) (Some 85.30%R)) 27.71 85.31
              before)
    as (bus' & Hbus' & Hlat & _ & Hstamp & Hstale);
    [reflexivity|reflexivity|reflexivity|reflexivity|reflexivity|reflexivity|].
  exists bus'. split; [exact Hbus'|]. split; [exact Hlat|].
  split; [exact Hstamp|]. apply (Hstale _ _ 1000%Z 100%Z); [reflexivity|lia].
Defined.

(** A successful switch, as a single [save]. *)
Lemma switch_route_success request d u driver bus current reverse_id reverse :
  Views.user request = Some u ->
  Views.method request = "POST" ->
  Db.driver_profile (User.id u) d = Some driver ->
  Db.first_bus_of (Driver.id driver) d = Some bus ->
  Db.get_route (Bus.route bus) d = Some current ->
  BusRoute.reverse_route current = Some reverse_id ->
  Db.get_route reverse_id d = Some reverse ->
  Views.switch_route request d
  = (Views.route_switched (BusRoute.name current) (BusRoute.name reverse)
       (BusRoute.id reverse),
     Db.save_bus
       [Bus.f_route; Bus.f_nearest_stop_index; Bus.f_eta_seconds;
        Bus.f_eta_smoothed_seconds; Bus.f_eta_passed_counter]
       (Bus.mk (Bus.id bus) (Bus.driver bus) (BusRoute.id reverse)
          (Bus.current_lat bus) (Bus.current_lng bus) None None 0 None
          (Bus.updated_at bus)) d).
Proof.
  intros Huser Hmethod Hprofile Hbus Hroute Hreverse Hreverse_row.
  unfold Views.switch_route.
  by rewrite Huser, Hmethod, Hprofile, Hbus, Hroute, Hreverse, Hreverse_row.
Qed.

(** X19.  Switching twice.  When the reverse of the bus's route names that
    route as its own reverse, a second successful [switch_route] puts the
    bus back on the route it started from, the two answers naming the two
    routes in opposite order; the position and the update time are those
    from before the first switch, while nearest-stop index, ETAs and
    passed-stop counter stay reset. *)
Theorem switch_route_twice request d u driver bus current reverse_id reverse :
  Views.user request = Some u ->
  Views.method request = "POST" ->
  Db.driver_profile (User.id u) d = Some driver ->
  Db.first_bus_of (Driver.id driver) d = Some bus ->
  Db.get_route (Bus.route bus) d = Some current ->
  BusRoute.reverse_route current = Some reverse_id ->
  Db.get_route reverse_id d = Some reverse ->
  BusRoute.reverse_route reverse = Some (Bus.route bus) ->
  let first := Views.switch_route request d in
  let second := Views.switch_route request first.2 in
  first.1 = Views.route_switched (BusRoute.name current) (BusRoute.name reverse)
              reverse_id /\
  second.1 = Views.route_switched (BusRoute.name reverse) (BusRoute.name current)
               (Bus.route bus) /\
  Db.first_bus_of (Driver.id driver) second.2
  = Some (Bus.mk (Bus.id bus) (Bus.driver bus) (Bus.route bus)
            (Bus.current_lat bus) (Bus.current_lng bus) None None 0 None
            (Bus.updated_at bus)).
Proof.
  intros Huser Hmethod Hprofile Hbus Hroute Hreverse Hreverse_row Hback
    first second.
  pose proof (find_key_eq BusRoute.id _ _ _ Hroute) as Hcurrent_id.
  pose proof (find_key_eq BusRoute.id _ _ _ Hreverse_row) as Hreverse_id.
  pose proof (switch_route_success request d u driver bus current reverse_id
                reverse Huser Hmethod Hprofile Hbus Hroute Hreverse
                Hreverse_row) as Hfirst.
  fold first in Hfirst.
  set (bus1 := Bus.mk (Bus.id bus) (Bus.driver bus) (BusRoute.id reverse)
                 (Bus.current_lat bus) (Bus.current_lng bus) None None 0 None
                 (Bus.updated_at bus)) in Hfirst.
  assert (Db.first_bus_of (Driver.id driver) first.2 = Some bus1) as Hbus1.
  { rewrite Hfirst. cbn [snd]. rewrite first_bus_of_save_bus, Hbus. cbn.
    by rewrite Nat.eqb_refl. }
  assert (Db.driver_profile (User.id u) first.2 = Some driver) as Hprofile1
    by (by rewrite Hfirst).
  assert (Db.get_route (Bus.route bus1) first.2 = Some reverse) as Hroute1.
  { rewrite Hfirst. cbn [snd]. rewrite get_route_save_bus. cbn.
    by rewrite Hreverse_id. }
  assert (Db.get_route (Bus.route bus) first.2 = Some current) as Hback_row.
  { rewrite Hfirst. cbn [snd]. by rewrite get_route_save_bus. }
  pose proof (switch_route_success request first.2 u driver bus1 reverse
                (Bus.route bus) current Huser Hmethod Hprofile1 Hbus1 Hroute1
                Hback Hback_row) as Hsecond.
  fold second in Hsecond.
  split; [by rewrite Hfirst, Hreverse_id|].
  split; [by rewrite Hsecond, Hcurrent_id|].
  rewrite Hsecond. cbn [snd]. rewrite first_bus_of_save_bus, Hbus1. cbn.
  by rewrite Nat.eqb_refl, Hcurrent_id.
Qed.

Lemma switch_route_twice_witness :
  let bus := Bus.mk 1 1 1 (Some 27.70%R) (Some 85.30%R) (Some 40%Z) (Some 40%R) 2
               (Some 1%Z) (Some 990%Z) in
  let first := Views.switch_route (Example.driver_post None None)
                 (Example.database bus []) in
  let second := Views.switch_route (Example.driver_post None None) first.2 in
  first.1 = Views.route_switched "Ratnapark-Thankot" "Thankot-Ratnapark" 2 /\
  second.1 = Views.route_switched "Thankot-Ratnapark" "Ratnapark-Thankot" 1 /\
  Db.first_bus_of 1 second.2
  = Some (Bus.mk 1 1 1 (Some 27.70%R) (Some 85.30%R) None None 0 None
            (Some 990%Z)).
Proof.
  intros bus.
  exact (switch_route_twice (Example.driver_post None None)
           (Example.database bus []) Example.driver_account
           (Example.driver_at (Some 27.70%R) (Some 85.30%R)) bus
           Example.outbound 2 Example.inbound
           eq_refl eq_refl eq_refl eq_refl eq_refl eq_refl eq_refl eq_refl).
Defined.

(** X20.  What [switch_route] leaves alone.  Whatever the request, the
    users, drivers, routes and messages are unchanged, and no bus row
    changes its key, its driver, its position or its update time.  A bus
    row changes only in an answer [route_switched], and only when it has the
    key of the first bus of the requesting driver: every failure answer
    leaves the database as it was, and other buses are never touched. *)
Theorem switch_route_frame (request : Views.Request) (d : Db.t) :
  let response := (Views.switch_route request d).1 in
  let d' := (Views.switch_route request d).2 in
  Db.users d' = Db.users d /\ Db.drivers d' = Db.drivers d /\
  Db.routes d' = Db.routes d /\ Db.messages d' = Db.messages d /\
  ((forall old_route new_route route_id,
      response <> Views.route_switched old_route new_route route_id) ->
   d' = d) /\
  Forall2
    (fun row row' =>
       Bus.id row' = Bus.id row /\ Bus.driver row' = Bus.driver row /\
       Bus.current_lat row' = Bus.current_lat row /\
       Bus.current_lng row' = Bus.current_lng row /\
       Bus.updated_at row' = Bus.updated_at row /\
       (row' <> row ->
        exists u driver bus,
          Views.user request = Some u /\
          Db.driver_profile (User.id u) d = Some driver /\
          Db.first_bus_of (Driver.id driver) d = Some bus /\
          Bus.id row = Bus.id bus))
    (Db.buses d) (Db.buses d').
Proof.
  intros response d'.
  assert (forall P : Bus.t -> Bus.t -> Prop,
            (forall row, P row row) -> Forall2 P (Db.buses d) (Db.buses d))
    as Hsame.
  { intros P HP. apply Forall_Forall2_diag, Forall_forall. intros row _.
    apply HP. }
  assert (d' = d ->
          Db.users d' = Db.users d /\ Db.drivers d' = Db.drivers d /\
          Db.routes d' = Db.routes d /\ Db.messages d' = Db.messages d /\
          ((forall old_route new_route route_id,
              response <> Views.route_switched old_route new_route route_id) ->
           d' = d) /\
          Forall2
            (fun row row' =>
               Bus.id row' = Bus.id row /\ Bus.driver row' = Bus.driver row /\
               Bus.current_lat row' = Bus.current_lat row /\
               Bus.current_lng row' = Bus.current_lng row /\
               Bus.updated_at row' = Bus.updated_at row /\
               (row' <> row ->
                exists u driver bus,
                  Views.user request = Some u /\
                  Db.driver_profile (User.id u) d = Some driver /\
                  Db.first_bus_of (Driver.id driver) d = Some bus /\
                  Bus.id row = Bus.id bus))
            (Db.buses d) (Db.buses d')) as Hunchanged.
  { intros ->. do 5 (split; [done|]). apply Hsame. intros row.
    by do 5 (split; [done|]). }
  revert Hunchanged. unfold d', response, Views.switch_route.
  destruct (Views.user request) as [u|]; [|by intros H; apply H].
  destruct (negb (String.eqb (Views.method request) "POST"));
    [by intros H; apply H|].
  destruct (Db.driver_profile (User.id u) d) as [driver|] eqn:Hprofile;
    [|by intros H; apply H].
  destruct (Db.first_bus_of (Driver.id driver) d) as [bus|] eqn:Hbus;
    [|by intros H; apply H].
  destruct (Db.get_route (Bus.route bus) d) as [current|];
    [|by intros H; apply H].
  destruct (BusRoute.reverse_route current) as [reverse_id|];
    [|by intros H; apply H].
  destruct (Db.get_route reverse_id d) as [reverse|]; [|by intros H; apply H].
  intros _. cbn [fst snd]. do 4 (split; [done|]).
  split; [intros Hfailed; by destruct (Hfailed _ _ _ eq_refl)|].
  cbn. apply Forall2_fmap_r, Forall_Forall2_diag, Forall_forall. intros row _.
  unfold compose. destruct (Nat.eqb (Bus.id row) (Bus.id bus)) eqn:Hrow.
  - do 5 (split; [done|]). intros _. apply Nat.eqb_eq in Hrow.
    by exists u, driver, bus.
  - by do 5 (split; [done|]).
Qed.

(* ===================================================================== *)
(** * Further properties: the homepage search *)
(* ===================================================================== *)

Section HomepageStatus.
Variable dijkstra : Graph -> nat -> nat -> option R * list nat.
Variable get_road_distance_with_fallback : R -> R -> R -> R -> R * bool.

Lemma eta_to_pickup_classified graph stops_objs bus_lat bus_lng dist_to_nearest
    nearest_stop nearest_stop_idx pickup_idx pickup info :
  Views.eta_to_pickup dijkstra get_road_distance_with_fallback graph stops_objs
    bus_lat bus_lng dist_to_nearest nearest_stop nearest_stop_idx pickup_idx
    pickup = Some info ->
  HomepageSpec.classified info /\ Views.status info <> "no_location" /\
  (forall n, Views.stops_between info = Some n -> (0 <= n)%Z).
Proof.
  unfold Views.eta_to_pickup.
  set (distance_and_stops := if Nat.eqb _ _ then _ else _).
  assert (forall km n, distance_and_stops = Some (km, n) -> (0 <= n)%Z)
    as Hbetween.
  { unfold distance_and_stops. intros km n.
    destruct (Nat.eqb _ _).
    - destruct (get_road_distance_with_fallback _ _ _ _). by intros [= _ <-].
    - destruct (dijkstra _ _ _) as [[meters|] path]; [|done].
      case_decide; [|done]. intros [= _ <-]. case_decide; lia. }
  destruct distance_and_stops as [[km n]|]; [|done].
  specialize (Hbetween km n eq_refl). cbv zeta.
  set (eta := Z.max 1 _). assert (1 <= eta)%Z by (unfold eta; lia).
  unfold HomepageSpec.classified.
  repeat case_decide; intros [= <-]; cbn;
    (split; [|split; [done|by intros ? [= <-]]]).
  - rewrite decide_True by done. split; [lia|done].
  - rewrite decide_False, decide_True by done. split; [lia|done].
  - rewrite !decide_False by done. split; [lia|done].
  - by do 3 right; left.
Qed.

(** X21.  Every entry the homepage search produces for a bus pairs ETA and
    status in one way: a reported ETA is between 1 and 30 minutes, with
    status [arriving_soon] up to 2 minutes, [catchable] up to 10 and [far]
    beyond; an entry without ETA has status [no_location], [error],
    [passed] or [no_route]; and a reported number of stops between bus and
    pickup is never negative. *)
Theorem homepage_entry_is_classified now route bus stops_objs pickup_idx info :
  Views.homepage_eta dijkstra get_road_distance_with_fallback now route bus
    stops_objs pickup_idx = Some info ->
  HomepageSpec.classified info /\
  (forall n, Views.stops_between info = Some n -> (0 <= n)%Z).
Proof.
  unfold Views.homepage_eta.
  assert (forall nearest_stop : option string,
            HomepageSpec.classified
              (Views.mkBusInfo None "error" nearest_stop (Some 0%Z)) /\
            (forall n, Some 0%Z = Some n -> (0 <= n)%Z)) as Herror.
  { intros nearest_stop. split; [by right; left|]. intros n [= <-]. lia. }
  destruct (Bus.current_lat bus) as [bus_lat|]; cycle 1.
  { intros [= <-]. split; [by left|done]. }
  destruct (Bus.current_lng bus) as [bus_lng|]; cycle 1.
  { intros [= <-]. split; [by left|done]. }
  destruct (match Bus.updated_at bus with Some _ => _ | None => _ end); cycle 1.
  2:{ intros [= <-]. split; [by left|done]. }
  case_decide; [intros [= <-]; apply Herror|].
  destruct (Stop.nearest_index stops_objs bus_lat bus_lng) as [nearest_stop_idx|];
    [|intros [= <-]; apply Herror].
  destruct (stops_objs !! nearest_stop_idx) as [nearest_stop|];
    [|intros [= <-]; apply Herror].
  destruct (stops_objs !! pickup_idx) as [pickup|];
    [|intros [= <-]; apply Herror].
  destruct (get_road_distance_with_fallback _ _ _ _) as [dist_to_nearest is_road].
  case_decide.
  - intros [= <-]. split; [by do 2 right; left|]. intros n [= <-]. lia.
  - intros Hinfo. apply eta_to_pickup_classified in Hinfo as (? & _ & ?).
    by split.
Qed.

(** X22.  The homepage search reports [no_location] exactly when the bus
    has no latitude, no longitude, or an update time more than five minutes
    before now; a bus that never recorded an update time is not stale. *)
Theorem no_location_iff_no_fresh_position now route bus stops_objs pickup_idx :
  Views.status <$> Views.homepage_eta dijkstra get_road_distance_with_fallback
                     now route bus stops_objs pickup_idx
  = Some "no_location"
  <-> Bus.current_lat bus = None \/ Bus.current_lng bus = None \/
      exists t, Bus.updated_at bus = Some t /\ (5 * 60 < now - t)%Z.
Proof.
  unfold Views.homepage_eta.
  destruct (Bus.current_lat bus) as [bus_lat|]; [|split; [by left|done]].
  destruct (Bus.current_lng bus) as [bus_lng|]; [|split; [by right; left|done]].
  destruct (Bus.updated_at bus) as [t|]; cycle 1.
  { split; [|by intros [[=]|[[=]|(? & [=] & _)]]].
    intros Hstatus. exfalso. revert Hstatus.
    case_decide; [done|]. repeat (case_match; try done).
    destruct (Views.eta_to_pickup _ _ _ _ _ _ _ _ _ _ _) as [info|] eqn:Hinfo;
      [|done].
    apply eta_to_pickup_classified in Hinfo as (_ & Hstatus & _).
    by intros [= ?]. }
  case_bool_decide as Hstale.
  { split; [|done]. intros _. do 2 right. by exists t. }
  split; [|intros [[=]|[[=]|(? & [= <-] & ?)]]; lia].
  intros Hstatus. exfalso. revert Hstatus.
  case_decide; [done|]. repeat (case_match; try done).
  destruct (Views.eta_to_pickup _ _ _ _ _ _ _ _ _ _ _) as [info|] eqn:Hinfo;
    [|done].
  apply eta_to_pickup_classified in Hinfo as (_ & Hstatus & _).
  by intros [= ?].
Qed.

End HomepageStatus.

Lemma homepage_entry_is_classified_witness :
  let bus := Example.bus_at (Some 27.71%R) (Some 85.31%R) None 0 in
  exists info,
    Views.homepage_eta Example.path_1500 Example.straight_line 1000
      Example.outbound bus (BusRoute.get_stops_list Example.outbound) 2
    = Some info /\
    Views.eta info = Some 4%Z /\
    Views.status info = "catchable".
Proof.
  intros bus.
  assert (EtaSpec.total_distance Example.path_1500 Example.straight_line
            (BusRoute.get_stop_graph Example.outbound) 27.71 85.31
            Example.kalanki Example.thankot 1.5) as Htotal.
  { right. split; [discriminate|]. exists 1500%R, [2%nat; 3%nat].
    split; [reflexivity|]. split; [lra|].
    cbn. rewrite haversine_same. lra. }
  assert (EtaSpec.eta_truncated 1.5 1 = 4%Z) as Htruncated.
  { unfold EtaSpec.eta_truncated, EtaSpec.total_minutes.
    rewrite (int_between 4) by lra. reflexivity. }
  destruct (homepage_eta_not_passed Example.path_1500 Example.straight_line
              1000 Example.outbound bus 2 Example.thankot 27.71 85.31 1
              Example.kalanki 1.5)
    as (info & Hinfo & Heta & _);
    [reflexivity|reflexivity|discriminate|apply outbound_stop_ids_distinct
    |reflexivity|apply nearest_to_kalanki|reflexivity|lia|exact Htotal|].
  change (EtaSpec.stops_between 1 2) with 1%Z in Heta.
  rewrite Htruncated in Heta. change (Views.eta info = Some 4%Z) in Heta.
  destruct (homepage_entry_is_classified Example.path_1500
              Example.straight_line 1000 Example.outbound bus
              (BusRoute.get_stops_list Example.outbound) 2 info Hinfo)
    as [Hclassified _].
  unfold HomepageSpec.classified in Hclassified. rewrite Heta in Hclassified.
  exists info. split; [exact Hinfo|]. split; [exact Heta|].
  exact (proj2 Hclassified).
Defined.


(* ===================================================================== *)
(** * Further properties: seats and the seat grid *)
(* ===================================================================== *)

Lemma create_seats_appends bus_id : forall numbers seats,
  foldl (fun seats i => seats ++ [Seat.mk bus_id i true]) seats numbers
  = seats ++ ((fun i => Seat.mk bus_id i true) <$> numbers).
Proof.
  induction numbers as [|i numbers IH]; intros seats; cbn.
  - by rewrite app_nil_r.
  - by rewrite IH, <- app_assoc.
Qed.

Lemma of_bus_none bus_id seats :
  existsb (fun s => Nat.eqb (Seat.bus s) bus_id) seats = false ->
  Seat.of_bus bus_id seats = [].
Proof.
  intros Hnone. unfold Seat.of_bus.
  induction seats as [|s seats IH]; [done|].
  cbn in *. apply orb_false_iff in Hnone as [-> Hnone]. by apply IH.
Qed.

(** X26.  [Bus.create_seats] numbers the seats once.  On a bus without
    seats it creates the seats 1 to [total_seats], in this order, all
    available; on a bus that has a seat it creates nothing; in both cases
    the seats of the other buses stay as they were, and a second call
    changes nothing. *)
Theorem create_seats_once bus_id total_seats seats :
  let seats' := Seat.create_seats bus_id total_seats seats in
  (Seat.of_bus bus_id seats = [] ->
   Seat.of_bus bus_id seats'
   = (fun i => Seat.mk bus_id i true) <$> seq 1 total_seats) /\
  (Seat.of_bus bus_id seats <> [] -> seats' = seats) /\
  (forall other, other <> bus_id ->
     Seat.of_bus other seats' = Seat.of_bus other seats) /\
  Seat.create_seats bus_id total_seats seats' = seats'.
Proof.
  intros seats'. unfold seats', Seat.create_seats.
  destruct (existsb (fun s => Nat.eqb (Seat.bus s) bus_id) seats) eqn:Hexists;
    cbn [negb].
  - rewrite Hexists. cbn [negb]. split; [|done].
    intros Hnone. apply existsb_exists in Hexists as (s & Hin & Hs).
    assert (In s (Seat.of_bus bus_id seats)) as Hin'
      by (apply List.filter_In; by split).
    rewrite Hnone in Hin'. destruct Hin'.
  - rewrite create_seats_appends.
    assert (forall k numbers,
              Seat.of_bus k ((fun i => Seat.mk bus_id i true) <$> numbers)
              = if Nat.eqb bus_id k
                then (fun i => Seat.mk bus_id i true) <$> numbers else [])
      as Hnew.
    { intros k numbers. unfold Seat.of_bus.
      induction numbers as [|i numbers IH]; cbn; [by destruct (Nat.eqb _ _)|].
      rewrite IH. by destruct (Nat.eqb bus_id k). }
    split; [|split; [|split]].
    + intros _. unfold Seat.of_bus at 1. rewrite List.filter_app.
      fold (Seat.of_bus bus_id seats).
      fold (Seat.of_bus bus_id ((fun i => Seat.mk bus_id i true)
                                  <$> seq 1 total_seats)).
      by rewrite of_bus_none, Hnew, Nat.eqb_refl.
    + intros Hsome. by rewrite of_bus_none in Hsome.
    + intros other Hother. unfold Seat.of_bus at 1. rewrite List.filter_app.
      fold (Seat.of_bus other seats).
      fold (Seat.of_bus other ((fun i => Seat.mk bus_id i true)
                                 <$> seq 1 total_seats)).
      rewrite Hnew, (proj2 (Nat.eqb_neq bus_id other)) by done.
      by rewrite app_nil_r.
    + rewrite existsb_app, Hexists. cbn [orb].
      destruct total_seats as [|n]; cbn; [by rewrite app_nil_r|].
      by rewrite Nat.eqb_refl.
Qed.

(** X27.  The seat grid.  Every seat gets a row from 1 and a column from 2
    to 6 (column 1 is the door gap).  Over the seats of a bus, indices
    below [total_seats], no two seats share a cell exactly when the bus has
    fewer than five seats or [total_seats - 5] is a multiple of four (as for
    the default of 25): otherwise the last normal row is incomplete and its
    first seat is drawn at the cell of the first seat of the back row. *)
Theorem seat_grid_cells total_seats :
  (forall idx, (1 <= (SeatGrid.cell total_seats idx).1)%nat /\
               (2 <= (SeatGrid.cell total_seats idx).2 <= 6)%nat) /\
  ((forall i j, (i < total_seats)%nat -> (j < total_seats)%nat ->
      SeatGrid.cell total_seats i = SeatGrid.cell total_seats j -> i = j)
   <-> (total_seats < 5)%nat \/ ((total_seats - 5) mod 4 = 0)%nat).
Proof.
  assert (forall pos, (pos < 4)%nat ->
            nth pos SeatGrid.col_map 0%nat
            = match pos with 0 => 2 | 1 => 3 | 2 => 5 | _ => 6 end%nat
            /\ (2 <= nth pos SeatGrid.col_map 0 <= 6)%nat) as Hcol.
  { intros [|[|[|[|pos]]]] Hpos; cbn; (split; [done|lia]) || lia. }
  split.
  - intros idx. unfold SeatGrid.cell.
    set (start := if (5 <=? total_seats)%nat then _ else _).
    destruct (idx <? start)%nat; cbn [fst snd].
    + split; [lia|]. apply Hcol, Nat.mod_upper_bound. lia.
    + split; [destruct (0 <? start)%nat; lia|].
      generalize (idx - start + 2)%nat. intros col.
      destruct (Nat.ltb_spec col 2); [cbn; lia|].
      destruct (Nat.ltb_spec 6 col); lia.
  - split.
    + intros Hinj.
      destruct (decide (total_seats < 5)%nat) as [|Hfive]; [by left|right].
      destruct (decide ((total_seats - 5) mod 4 = 0)%nat) as [|Hpartial];
        [done|exfalso].
      set (start := (total_seats - 5)%nat) in *.
      pose proof (Nat.div_mod_eq start 4) as Hdiv.
      pose proof (Nat.mod_upper_bound start 4 ltac:(lia)) as Hmod.
      assert (start - start mod 4 = start)%nat as Hsame; [|lia].
      apply Hinj; [lia|lia|].
      assert ((start - start mod 4) = 4 * (start / 4))%nat as Hrow by lia.
      unfold SeatGrid.cell. fold start.
      rewrite (proj2 (Nat.leb_le 5 total_seats)) by lia.
      fold start.
      rewrite (proj2 (Nat.ltb_lt (start - start mod 4) start)) by lia.
      rewrite Nat.ltb_irrefl.
      rewrite (proj2 (Nat.ltb_lt 0 start)) by lia.
      rewrite Hrow, Nat.mul_comm, Nat.div_mul, Nat.Div0.mod_mul by lia.
      rewrite Nat.sub_diag. reflexivity.
    + intros Hshape i j Hi Hj. unfold SeatGrid.cell.
      set (start := if (5 <=? total_seats)%nat then _ else _).
      assert ((total_seats < 5)%nat /\ start = 0%nat \/
              (5 <= total_seats)%nat /\ start = (total_seats - 5)%nat /\
              (start mod 4 = 0)%nat) as Hstart.
      { unfold start. destruct (Nat.leb_spec 5 total_seats); [right|left; lia].
        destruct Hshape as [|Hfull]; [lia|]. by repeat split. }
      clearbody start.
      pose proof (Nat.div_mod_eq start 4) as Hsdiv.
      pose proof (Nat.div_mod_eq i 4) as Hidiv.
      pose proof (Nat.div_mod_eq j 4) as Hjdiv.
      pose proof (Nat.mod_upper_bound i 4 ltac:(lia)) as Himod.
      pose proof (Nat.mod_upper_bound j 4 ltac:(lia)) as Hjmod.
      destruct (Nat.ltb_spec i start), (Nat.ltb_spec j start).
      * intros [Hrow Hcols]%pair_equal_spec.
        destruct (Hcol (i mod 4)%nat Himod) as [Hci _].
        destruct (Hcol (j mod 4)%nat Hjmod) as [Hcj _].
        rewrite Hci, Hcj in Hcols.
        assert (i mod 4 = j mod 4)%nat; [|lia].
        revert Hcols Himod Hjmod. generalize (i mod 4)%nat (j mod 4)%nat.
        intros [|[|[|[|?]]]] [|[|[|[|?]]]]; cbn; lia.
      * destruct (Nat.ltb_spec 0 start); [|lia].
        intros [Hrow _]%pair_equal_spec. lia.
      * destruct (Nat.ltb_spec 0 start); [|lia].
        intros [Hrow _]%pair_equal_spec. lia.
      * repeat match goal with
               | |- context [(?a <? ?b)%nat] => destruct (Nat.ltb_spec a b)
               end;
          intros [_ Hcols]%pair_equal_spec;
          repeat match goal with
                 | H : context [(?a <? ?b)%nat] |- _ =>
                     destruct (Nat.ltb_spec a b)
                 end; lia.
Qed.

(* ===================================================================== *)
(** * Further properties: clearing a conversation *)
(* ===================================================================== *)

Lemma between_exchanged a b m :
  ClearChat.between a b m = true <-> ConversationSpec.exchanged a b m.
Proof.
  unfold ClearChat.between, ConversationSpec.exchanged.
  rewrite orb_true_iff, !andb_true_iff, !Nat.eqb_eq. done.
Qed.

Lemma between_sym a b m : ClearChat.between a b m = ClearChat.between b a m.
Proof. unfold ClearChat.between. apply orb_comm. Qed.

Lemma filter_sublist {A} (f : A -> bool) (l : list A) :
  sublist (List.filter f l) l.
Proof.
  induction l as [|x l IH]; cbn; [constructor|].
  destruct (f x); by constructor.
Qed.

Lemma filter_length_split {A} (f : A -> bool) (l : list A) :
  (length (List.filter f l) + length (List.filter (fun x => negb (f x)) l)
   = length l)%nat.
Proof.
  induction l as [|x l IH]; cbn; [done|]. destruct (f x); cbn; lia.
Qed.

Lemma filter_idempotent_none {A} (f : A -> bool) (l : list A) :
  List.filter f (List.filter (fun x => negb (f x)) l) = [].
Proof.
  induction l as [|x l IH]; cbn; [done|].
  destruct (f x) eqn:Hx; cbn; [done|]. by rewrite Hx.
Qed.

Lemma filter_filter_same {A} (f : A -> bool) (l : list A) :
  List.filter f (List.filter f l) = List.filter f l.
Proof.
  induction l as [|x l IH]; cbn; [done|].
  destruct (f x) eqn:Hx; cbn; [|done]. by rewrite Hx, IH.
Qed.

Lemma filter_swap {A} (f g : A -> bool) (l : list A) :
  List.filter f (List.filter g l) = List.filter g (List.filter f l).
Proof.
  induction l as [|x l IH]; cbn; [done|].
  destruct (g x) eqn:Hg, (f x) eqn:Hf; cbn; rewrite ?Hg, ?Hf, ?IH; done.
Qed.

(** [clear_chat] for a POST of an authenticated user naming an existing
    account. *)
Lemma clear_chat_success request other_user_id d u other :
  Views.user request = Some u ->
  Views.method request = "POST" ->
  Db.get_user other_user_id d = Some other ->
  ClearChat.clear_chat request other_user_id d
  = (ClearChat.success
       (length (List.filter (ClearChat.between (User.id u) other_user_id)
                  (Db.messages d))),
     Db.set_messages
       (List.filter
          (fun m => negb (ClearChat.between (User.id u) other_user_id m))
          (Db.messages d)) d).
Proof.
  intros Huser Hmethod Hother. unfold ClearChat.clear_chat.
  rewrite Huser, Hmethod, String.eqb_refl, Hother. cbn [negb].
  by rewrite (find_key_eq User.id _ _ _ Hother).
Qed.

(** X28.  [clear_chat], posted by an authenticated user and naming an
    existing account, deletes the conversation of the two and nothing
    else: the messages left are those that did not go from one of the two
    to the other, in their order; the reported count is the number of
    messages removed; the other tables are unchanged.  Clearing again
    deletes nothing, and the other participant clearing the conversation
    from their side gets the same count and the same database. *)
Theorem clear_chat_removes_conversation request other_user_id d u other :
  Views.user request = Some u ->
  Views.method request = "POST" ->
  Db.get_user other_user_id d = Some other ->
  exists deleted d',
    ClearChat.clear_chat request other_user_id d
    = (ClearChat.success deleted, d') /\
    (forall m, In m (Db.messages d') <->
               In m (Db.messages d) /\
               ~ ConversationSpec.exchanged (User.id u) other_user_id m) /\
    sublist (Db.messages d') (Db.messages d) /\
    (deleted + length (Db.messages d') = length (Db.messages d))%nat /\
    Db.users d' = Db.users d /\ Db.drivers d' = Db.drivers d /\
    Db.buses d' = Db.buses d /\ Db.routes d' = Db.routes d /\
    ClearChat.clear_chat request other_user_id d' = (ClearChat.success 0, d') /\
    (forall request',
       Views.user request' = Some other ->
       Views.method request' = "POST" ->
       is_Some (Db.get_user (User.id u) d) ->
       ClearChat.clear_chat request' (User.id u) d
       = (ClearChat.success deleted, d')).
Proof.
  intros Huser Hmethod Hother.
  rewrite (clear_chat_success request other_user_id d u other) by done.
  eexists _, _. split; [reflexivity|]. cbn [Db.messages Db.set_messages].
  split; [|split; [|split; [|do 4 (split; [done|]); split]]].
  - intros m. rewrite List.filter_In, negb_true_iff.
    rewrite <- between_exchanged. by rewrite not_true_iff_false.
  - apply filter_sublist.
  - apply filter_length_split.
  - rewrite (clear_chat_success request other_user_id _ u other) by done.
    cbn [Db.messages Db.set_messages].
    rewrite filter_idempotent_none. cbn [length].
    by rewrite (filter_filter_same
                  (fun m => negb (ClearChat.between (User.id u) other_user_id m))).
  - intros request' Huser' Hmethod' [row Hrow].
    rewrite (clear_chat_success request' (User.id u) d other row) by done.
    rewrite (find_key_eq User.id _ _ _ Hother).
    rewrite (List.filter_ext _ _ (between_sym other_user_id (User.id u))).
    by rewrite (List.filter_ext
                  (fun m => negb (ClearChat.between other_user_id (User.id u) m))
                  (fun m => negb (ClearChat.between (User.id u) other_user_id m)))
      by (intros m; by rewrite between_sym).
Qed.

Lemma clear_chat_removes_conversation_witness :
  exists d',
    ClearChat.clear_chat (Example.driver_post None None) 2 Example.inbox
    = (ClearChat.success 1, d') /\
    Db.messages d' = [Example.note_to_self].
Proof.
  destruct (clear_chat_removes_conversation (Example.driver_post None None) 2
              Example.inbox Example.driver_account Example.passenger_account
              eq_refl eq_refl eq_refl)
    as (deleted & d' & Hclear & _).
  injection Hclear as <- <-. eexists. split; reflexivity.
Defined.

(** A row that is the latest stays the latest among any rows kept with
    it. *)
Lemma latest_filter (f : Message.t -> bool) : forall rows m,
  ChatConsumer.latest rows = Some m -> f m = true ->
  ChatConsumer.latest (List.filter f rows) = Some m.
Proof.
  induction rows as [|x rows IH] using rev_ind; intros m; [done|].
  rewrite latest_snoc, List.filter_app. cbn [List.filter].
  pose proof (latest_spec rows) as Hrows.
  pose proof (latest_spec (List.filter f rows)) as Hkept.
  destruct (ChatConsumer.latest rows) as [b|].
  - destruct Hrows as [_ Hmax]. case_decide as Hle.
    + intros [= <-] Hx. rewrite Hx, latest_snoc.
      destruct (ChatConsumer.latest (List.filter f rows)) as [b'|]; [|done].
      destruct Hkept as [Hin _]. apply List.filter_In in Hin as [Hin _].
      specialize (Hmax b' Hin). rewrite decide_True by lia. done.
    + intros [= <-] Hb. specialize (IH b eq_refl Hb).
      destruct (f x); [|by rewrite app_nil_r].
      rewrite latest_snoc, IH. by rewrite decide_False.
  - subst rows. intros [= <-] Hx. by rewrite Hx.
Qed.

(** The last contact of [u] after [u] has cleared a conversation. *)
Lemma clear_chat_last_contact request other_user_id d u other :
  Views.user request = Some u ->
  Views.method request = "POST" ->
  Db.get_user other_user_id d = Some other ->
  other_user_id <> User.id u ->
  let d' := (ClearChat.clear_chat request other_user_id d).2 in
  ChatConsumer._get_last_user_to_driver (User.id u) d' <> Some other_user_id /\
  (forall contact,
     ChatConsumer._get_last_user_to_driver (User.id u) d = Some contact ->
     contact <> other_user_id ->
     ChatConsumer._get_last_user_to_driver (User.id u) d' = Some contact).
Proof.
  intros Huser Hmethod Hother Hdistinct d'. unfold d'.
  rewrite (clear_chat_success request other_user_id d u other) by done.
  cbn [snd]. unfold ChatConsumer._get_last_user_to_driver.
  cbn [Db.messages Db.set_messages].
  set (a := User.id u). set (b := other_user_id) in *.
  set (kept := fun m => negb (ClearChat.between a b m)).
  set (received := fun m => Nat.eqb (Message.recipient m) a
                            && negb (Nat.eqb (Message.sender m) a)).
  change (Db.get_user ?k (Db.set_messages _ d)) with (Db.get_user k d).
  split.
  - pose proof (latest_spec (List.filter received (List.filter kept (Db.messages d))))
      as Hlatest.
    destruct (ChatConsumer.latest _) as [m|]; [|done].
    destruct Hlatest as [Hin _].
    apply List.filter_In in Hin as [Hin Hreceived].
    apply List.filter_In in Hin as [_ Hkept].
    destruct (Db.get_user (Message.sender m) d) as [row|] eqn:Hrow; [|done].
    cbn. intros [= Hid]. rewrite (find_key_eq User.id _ _ _ Hrow) in Hid.
    unfold kept, ClearChat.between in Hkept. unfold received in Hreceived.
    apply andb_true_iff in Hreceived as [Hto%Nat.eqb_eq _].
    rewrite Hid, Hto, !Nat.eqb_refl in Hkept. cbn in Hkept.
    by rewrite orb_true_r in Hkept.
  - intros contact Hcontact Hother_contact.
    destruct (ChatConsumer.latest (List.filter received (Db.messages d)))
      as [m|] eqn:Hlatest; [|done].
    assert (kept m = true) as Hkept.
    { destruct (Db.get_user (Message.sender m) d) as [row|] eqn:Hrow; [|done].
      cbn in Hcontact. injection Hcontact as Hid.
      rewrite (find_key_eq User.id _ _ _ Hrow) in Hid.
      pose proof (latest_spec (List.filter received (Db.messages d))) as Hspec.
      rewrite Hlatest in Hspec. destruct Hspec as [Hin _].
      apply List.filter_In in Hin as [_ Hreceived]. unfold received in Hreceived.
      apply andb_true_iff in Hreceived as [_ Hfrom%negb_true_iff].
      unfold kept, ClearChat.between. rewrite Hfrom. cbn.
      rewrite (proj2 (Nat.eqb_neq (Message.sender m) b)) by congruence. done. }
    assert (List.filter received (List.filter kept (Db.messages d))
            = List.filter kept (List.filter received (Db.messages d))) as ->.
      by apply filter_swap.
    by rewrite (latest_filter kept _ m Hlatest Hkept).
Qed.

(** X29.  Clearing forgets the contact.  After a user has cleared the
    conversation with another account, a message of that user naming
    neither recipient nor bus is no longer resolved to that account; a
    last contact that is somebody else is still the one it is resolved
    to. *)
Theorem cleared_contact_is_forgotten request other_user_id d u other :
  Views.user request = Some u ->
  Views.method request = "POST" ->
  Db.get_user other_user_id d = Some other ->
  other_user_id <> User.id u ->
  let d' := (ClearChat.clear_chat request other_user_id d).2 in
  ChatConsumer.resolve_recipient (User.id u) None None d'
  <> Some other_user_id /\
  (forall contact,
     ChatConsumer.resolve_recipient (User.id u) None None d = Some contact ->
     contact <> other_user_id ->
     ChatConsumer.resolve_recipient (User.id u) None None d' = Some contact).
Proof.
  intros Huser Hmethod Hother Hdistinct d'.
  destruct (clear_chat_last_contact request other_user_id d u other Huser
              Hmethod Hother Hdistinct) as [Hforgotten Hkept].
  fold d' in Hforgotten, Hkept.
  assert (Db.driver_exists (User.id u) d' = Db.driver_exists (User.id u) d)
    as Hrole.
  { unfold d'.
    by rewrite (clear_chat_success request other_user_id d u other). }
  unfold ChatConsumer.resolve_recipient, ChatConsumer.resolve_from_bus,
    ChatConsumer.resolve_from_last_contact.
  cbn [Py.truthy_id negb andb]. rewrite Hrole.
  destruct (Db.driver_exists (User.id u) d); [|done].
  split.
  - destruct (Py.truthy_id _); [exact Hforgotten|done].
  - intros contact Hcontact Hother_contact.
    destruct (Py.truthy_id (ChatConsumer._get_last_user_to_driver _ d))
      eqn:Htruthy; [|done].
    rewrite (Hkept contact Hcontact Hother_contact).
    rewrite Hcontact in Htruthy. by rewrite Htruthy.
Qed.

Lemma cleared_contact_is_forgotten_witness :
  let d' := (ClearChat.clear_chat (Example.driver_post None None) 2
               Example.inbox).2 in
  ChatConsumer.resolve_recipient 1 None None Example.inbox = Some 2%nat /\
  ChatConsumer.resolve_recipient 1 None None d' <> Some 2%nat.
Proof.
  split; [reflexivity|].
  exact (proj1 (cleared_contact_is_forgotten (Example.driver_post None None) 2
                  Example.inbox Example.driver_account
                  Example.passenger_account eq_refl eq_refl eq_refl
                  ltac:(discriminate))).
Defined.
